(** * Titan-Forge algorithmic agent: risk bookkeeping, regime classification
      and signal generation

    A shallow embedding of the decision core of the trading agent:
    - [RiskManager]          (risk_management/risk_manager.py)
    - [AdaptabilityManager]  (adaptability/adaptability_manager.py)
    - [CombinedStrategy]     (strategy/trading_strategy.py)

    Numbers.  Python floats are modelled by exact rationals [Q]; the
    not-a-number value [np.nan] is the separate constructor [NaN] of
    [pyfloat].  Rounding, infinities and signed zeros are outside the model.
    The properties are therefore stated through the expressions the code
    itself evaluates and through order relations, which read the same on
    binary64 floats, and not through identities that only exact arithmetic
    satisfies.  The parameters of the [RiskManager] methods are numbers,
    except the volatility handed to [determine_stop_loss]: it is an
    indicator value (an ATR) and is NaN while the indicator has too few
    bars.  Equality of rationals is [==] ([Qeq]).

    Exceptions.  Code that can raise returns a [result]; [try ... except
    Exception] is [try_except]. *)

From Stdlib Require Import QArith Qabs Qminmax Lqa Lia List Bool Sorted.
From stdpp Require Import gmap strings list fin_maps.

Open Scope Q_scope.

(** ** Python numbers and exceptions *)

Inductive pyfloat : Type :=
| Num (q : Q)
| NaN.

Definition isnan (x : pyfloat) : bool :=
  match x with NaN => true | Num _ => false end.

Inductive exn : Type :=
| ValueError (msg : string)
| ZeroDivisionError
| KeyError (key : string)
| IndexError (msg : string)
| LibraryError (msg : string).

Inductive result (A : Type) : Type :=
| Ok (a : A)
| Raise (e : exn).
Arguments Ok {A} a.
Arguments Raise {A} e.

Definition bind {A B : Type} (r : result A) (k : A -> result B) : result B :=
  match r with
  | Ok a => k a
  | Raise e => Raise e
  end.

Notation "'let*' x ':=' r 'in' k" := (bind r (fun x => k))
  (at level 10, x name, r at level 100, k at level 200).

(** [try: body except Exception as e: handler e] *)
Definition try_except {A : Type} (body : result A) (handler : exn -> result A) : result A :=
  match body with
  | Ok a => Ok a
  | Raise e => handler e
  end.

(** Comparisons on floats that are numbers. *)
Definition Qltb (x y : Q) : bool := negb (Qle_bool y x).
Definition Qgtb (x y : Q) : bool := Qltb y x.
Definition Qleb (x y : Q) : bool := Qle_bool x y.
Definition Qgeb (x y : Q) : bool := Qle_bool y x.

(** The builtins [max(a, b)] and [min(a, b)]: the first argument is kept
    unless the second is strictly larger (smaller). *)
Definition py_max (a b : Q) : Q := if Qgtb b a then b else a.
Definition py_min (a b : Q) : Q := if Qltb b a then b else a.

(** [x / y] on Python floats raises on a zero divisor. *)
Definition py_div (x y : Q) : result Q :=
  if Qeq_bool y 0 then Raise ZeroDivisionError else Ok (x / y).

(** Arithmetic and [<=] on floats that may be NaN: NaN goes through the
    arithmetic, and a comparison with NaN is false. *)
Definition pf_sub (x y : pyfloat) : pyfloat :=
  match x, y with Num a, Num b => Num (a - b) | _, _ => NaN end.
Definition pf_mul (x y : pyfloat) : pyfloat :=
  match x, y with Num a, Num b => Num (a * b) | _, _ => NaN end.
Definition pf_le (x y : pyfloat) : bool :=
  match x, y with Num a, Num b => Qleb a b | _, _ => false end.

(** ** RiskManager *)

Module RiskManager.

Record t : Type := mk {
  account_balance : Q;
  initial_balance : Q;
  risk_per_trade_percentage : Q;
  daily_risk_limit_percentage : Q;
  daily_loss_incurred : Q
}.

(** [__init__] *)
Definition __init__ (account_balance risk_per_trade_percentage daily_risk_limit_percentage : Q)
  : result t :=
  if negb (Qltb 0 risk_per_trade_percentage && Qleb risk_per_trade_percentage 1) then
    Raise (ValueError "risk_per_trade_percentage must be between 0 and 1 (inclusive).")
  else if negb (Qltb 0 daily_risk_limit_percentage && Qleb daily_risk_limit_percentage 1) then
    Raise (ValueError "daily_risk_limit_percentage must be between 0 and 1 (inclusive).")
  else if Qleb account_balance 0 then
    Raise (ValueError "account_balance must be positive.")
  else
    Ok {| account_balance := account_balance;
          initial_balance := account_balance;
          risk_per_trade_percentage := risk_per_trade_percentage;
          daily_risk_limit_percentage := daily_risk_limit_percentage;
          daily_loss_incurred := 0 |}.

Definition calculate_position_size (self : t)
    (entry_price stop_loss_price asset_multiplier : Q) : result Q :=
  if Qleb stop_loss_price 0 || Qleb entry_price 0 then Ok 0
  else
    let risk_per_trade_dollars := account_balance self * risk_per_trade_percentage self in
    let price_difference := Qabs (entry_price - stop_loss_price) in
    if Qeq_bool price_difference 0 then Ok 0
    else py_div risk_per_trade_dollars (price_difference * asset_multiplier).

(** The default [asset_multiplier=1.0]. *)
Definition default_asset_multiplier : Q := 1.

Definition determine_stop_loss (self : t) (entry_price : Q)
    (stop_loss_distance_percentage : option Q) (volatility : option pyfloat) : pyfloat :=
  if Qleb entry_price 0 then NaN
  else
    match stop_loss_distance_percentage with
    | Some pct =>
        if negb (Qltb 0 pct && Qltb pct 1) then NaN
        else Num (entry_price * (1 - pct))
    | None =>
        match volatility with
        | Some vol =>
            let stop_loss_price := pf_sub (Num entry_price) (pf_mul vol (Num 1.5)) in
            if pf_le stop_loss_price (Num 0) then Num (entry_price * 0.95)
            else stop_loss_price
        | None => NaN
        end
    end.

Definition determine_take_profit (self : t)
    (entry_price stop_loss_price risk_reward_ratio : Q) : pyfloat :=
  if Qleb entry_price 0 || Qleb stop_loss_price 0 || Qleb risk_reward_ratio 0 then NaN
  else
    let price_difference := Qabs (entry_price - stop_loss_price) in
    let take_profit_distance := price_difference * risk_reward_ratio in
    if Qgtb entry_price stop_loss_price then
      Num (entry_price + take_profit_distance)
    else if Qltb entry_price stop_loss_price then
      let take_profit_price := entry_price - take_profit_distance in
      if Qltb take_profit_price 0 then Num (entry_price * 0.05)
      else Num take_profit_price
    else NaN.

Definition update_trailing_stop (self : t)
    (current_price trailing_stop_level : Q) (long_position : bool) : Q :=
  if long_position then
    let new_trailing_stop := py_max trailing_stop_level (current_price * 0.98) in
    if Qgtb new_trailing_stop trailing_stop_level then new_trailing_stop
    else trailing_stop_level
  else
    let new_trailing_stop := py_min trailing_stop_level (current_price * 1.02) in
    if Qltb new_trailing_stop trailing_stop_level then new_trailing_stop
    else trailing_stop_level.

Definition check_daily_risk_limit (self : t) : bool :=
  let daily_risk_limit_dollars := initial_balance self * daily_risk_limit_percentage self in
  if Qgeb (daily_loss_incurred self) daily_risk_limit_dollars then false
  else true.

Definition update_daily_loss (self : t) (loss_amount : Q) : t :=
  if Qgtb loss_amount 0 then
    {| account_balance := account_balance self - loss_amount;
       initial_balance := initial_balance self;
       risk_per_trade_percentage := risk_per_trade_percentage self;
       daily_risk_limit_percentage := daily_risk_limit_percentage self;
       daily_loss_incurred := daily_loss_incurred self + loss_amount |}
  else if Qltb loss_amount 0 then self (* only a warning is logged *)
  else self.

Definition reset_daily_loss (self : t) : t :=
  {| account_balance := account_balance self;
     initial_balance := account_balance self;
     risk_per_trade_percentage := risk_per_trade_percentage self;
     daily_risk_limit_percentage := daily_risk_limit_percentage self;
     daily_loss_incurred := 0 |}.

(** *** The object as a state machine: one constructor per method. *)

Inductive call : Type :=
| CalculatePositionSize (entry_price stop_loss_price asset_multiplier : Q)
| DetermineStopLoss (entry_price : Q) (stop_loss_distance_percentage : option Q)
    (volatility : option pyfloat)
| DetermineTakeProfit (entry_price stop_loss_price risk_reward_ratio : Q)
| UpdateTrailingStop (current_price trailing_stop_level : Q) (long_position : bool)
| CheckDailyRiskLimit
| UpdateDailyLoss (loss_amount : Q)
| ResetDailyLoss.

Inductive value : Type :=
| VFloat (x : pyfloat)
| VBool (b : bool)
| VNone.

(** The state after a call and what the call gives back to the caller. *)
Definition exec (c : call) (self : t) : t * result value :=
  match c with
  | CalculatePositionSize e s m =>
      (self, let* q := calculate_position_size self e s m in Ok (VFloat (Num q)))
  | DetermineStopLoss e pct vol => (self, Ok (VFloat (determine_stop_loss self e pct vol)))
  | DetermineTakeProfit e s r => (self, Ok (VFloat (determine_take_profit self e s r)))
  | UpdateTrailingStop p l b => (self, Ok (VFloat (Num (update_trailing_stop self p l b))))
  | CheckDailyRiskLimit => (self, Ok (VBool (check_daily_risk_limit self)))
  | UpdateDailyLoss a => (update_daily_loss self a, Ok VNone)
  | ResetDailyLoss => (reset_daily_loss self, Ok VNone)
  end.

Definition run (cs : list call) (self : t) : t :=
  fold_left (fun s c => fst (exec c s)) cs self.

(** States an instance can be in: built by [__init__], then any calls. *)
Inductive reachable : t -> Prop :=
| reachable_init b r d s : __init__ b r d = Ok s -> reachable s
| reachable_exec c s : reachable s -> reachable (fst (exec c s)).

(** Successive trailing-stop levels along a price sequence, each call
    fed the level the previous one returned. *)
Fixpoint trail (self : t) (long_position : bool) (level : Q) (prices : list Q) : list Q :=
  match prices with
  | [] => []
  | p :: ps =>
      let level' := update_trailing_stop self p level long_position in
      level' :: trail self long_position level' ps
  end.

End RiskManager.

(** ** The part of pandas the agent uses *)

Module Pandas.

Abbreviation Series := (list pyfloat).
Abbreviation Row := (gmap string pyfloat).

(** A frame over the default integer index: its column labels and its rows
    in index order, each row a cell per column. *)
Record DataFrame : Type := mkDataFrame {
  columns : gset string;
  rows : list Row
}.

(** [df.empty]: some axis has length 0. *)
Definition empty (df : DataFrame) : bool :=
  bool_decide (columns df = ∅) || match rows df with [] => true | _ => false end.

(** [col in df.columns] *)
Definition has_column (col : string) (df : DataFrame) : bool :=
  bool_decide (col ∈ columns df).

Definition cell (col : string) (r : Row) : pyfloat := default NaN (r !! col).

(** [df[col]] as a right-hand side. *)
Definition getitem (df : DataFrame) (col : string) : result Series :=
  if has_column col df then Ok (cell col <$> rows df) else Raise (KeyError col).

(** [df[col] = s]: the series is aligned on the index of the frame; rows
    the series has no value for get NaN, values beyond the frame are
    dropped. *)
Definition setitem (df : DataFrame) (col : string) (s : Series) : DataFrame :=
  {| columns := {[col]} ∪ columns df;
     rows := imap (fun i (r : Row) => <[col := default NaN (s !! i)]> r) (rows df) |}.

(** [df[col] = x] for a scalar [x]. *)
Definition setitem_scalar (df : DataFrame) (col : string) (x : pyfloat) : DataFrame :=
  {| columns := {[col]} ∪ columns df;
     rows := (fun r : Row => <[col := x]> r) <$> rows df |}.

(** [s.empty] and [s.iloc[-1]] *)
Definition series_empty (s : Series) : bool :=
  match s with [] => true | _ => false end.

Definition series_iloc_last (s : Series) : result pyfloat :=
  match last s with
  | Some x => Ok x
  | None => Raise (IndexError "single positional indexer is out-of-bounds")
  end.

(** [df.dropna()]: only the rows without a NaN cell stay. *)
Definition no_nan (r : Row) : Prop := map_Forall (fun _ x => isnan x = false) r.

Definition dropna (df : DataFrame) : DataFrame :=
  {| columns := columns df; rows := filter no_nan (rows df) |}.

(** [df.iloc[-1]] *)
Definition iloc_last (df : DataFrame) : result Row :=
  match last (rows df) with
  | Some r => Ok r
  | None => Raise (IndexError "single positional indexer is out-of-bounds")
  end.

(** [row.get(key, default)] *)
Definition get (r : Row) (key : string) (dflt : pyfloat) : pyfloat :=
  default dflt (r !! key).

(** Comparisons of floats: every comparison with NaN is false, except [!=]. *)
Definition pf_gt (x y : pyfloat) : bool :=
  match x, y with Num a, Num b => Qgtb a b | _, _ => false end.
Definition pf_lt (x y : pyfloat) : bool :=
  match x, y with Num a, Num b => Qltb a b | _, _ => false end.
Definition pf_eq (x y : pyfloat) : bool :=
  match x, y with Num a, Num b => Qeq_bool a b | _, _ => false end.
Definition pf_ne (x y : pyfloat) : bool := negb (pf_eq x y).

(** Division of numpy floats; a zero divisor gives no number (every
    division in the agent checks the divisor first). *)
Definition pf_div (x y : pyfloat) : pyfloat :=
  match x, y with
  | Num a, Num b => if Qeq_bool b 0 then NaN else Num (a / b)
  | _, _ => NaN
  end.

(** [(s1 == s2).astype(int)] *)
Definition series_eq_int (s1 s2 : Series) : Series :=
  zip_with (fun x y => if pf_eq x y then Num 1 else Num 0) s1 s2.

(** *** Rolling windows *)

Definition num_of (x : pyfloat) : option Q :=
  match x with Num q => Some q | NaN => None end.

(** The [n] values of [s] that end at position [i], when there are [n] of
    them and none is NaN. *)
Definition window (n : nat) (s : Series) (i : nat) : option (list Q) :=
  if bool_decide (n ≤ S i ≤ length s)%nat
  then mapM num_of (take n (drop (S i - n) s))
  else None.

(** Modelled from the spec: [Series.rolling(window=n)] followed by an
    aggregation is pandas code; the value at a bar is the aggregate over
    the [n] most recent bars and is undefined (NaN) while fewer than [n]
    bars, or a bar without a value, are in the window. *)
Definition rolling (n : nat) (agg : list Q -> Q) (s : Series) : Series :=
  (fun i => match window n s i with
            | Some w => Num (agg w)
            | None => NaN
            end) <$> seq 0 (length s).

Definition Qsum (w : list Q) : Q := fold_right Qplus 0 w.
Definition mean (w : list Q) : Q := Qsum w / inject_Z (Z.of_nat (length w)).
Definition maximum (w : list Q) : Q :=
  match w with [] => 0 | x :: xs => fold_left py_max xs x end.
Definition minimum (w : list Q) : Q :=
  match w with [] => 0 | x :: xs => fold_left py_min xs x end.

Definition rolling_mean (n : nat) : Series -> Series := rolling n mean.
Definition rolling_max (n : nat) : Series -> Series := rolling n maximum.
Definition rolling_min (n : nat) : Series -> Series := rolling n minimum.

End Pandas.

(** ** AdaptabilityManager *)

Module AdaptabilityManager.
Import Pandas.

Record t : Type := mk {
  volatility_threshold : Q;
  trend_strength_threshold : Q
}.

(** [__init__]; [default_manager] is the instance built with the default
    thresholds 0.02 and 20. *)
Definition __init__ (volatility_threshold trend_strength_threshold : Q) : t :=
  {| volatility_threshold := volatility_threshold;
     trend_strength_threshold := trend_strength_threshold |}.
Definition default_manager : t := __init__ 0.02 20.

(** The market-conditions dictionary: string keys, string values. *)
Abbreviation conditions := (gmap string string).

(** [d.get(key) == v] *)
Definition get_is (d : conditions) (key v : string) : bool :=
  bool_decide (d !! key = Some v).

(** The [if/elif] chain that sets ['regime'] from ['trend'] and
    ['volatility']. *)
Definition assign_regime (market_conditions : conditions) : conditions :=
  if get_is market_conditions "trend" "trending" && get_is market_conditions "volatility" "high"
  then <["regime" := "TRENDING_HIGH_VOL"]> market_conditions
  else if get_is market_conditions "trend" "trending" && get_is market_conditions "volatility" "low"
  then <["regime" := "TRENDING_LOW_VOL"]> market_conditions
  else if get_is market_conditions "trend" "ranging" && get_is market_conditions "volatility" "high"
  then <["regime" := "RANGING_HIGH_VOL"]> market_conditions
  else if get_is market_conditions "trend" "ranging" && get_is market_conditions "volatility" "low"
  then <["regime" := "RANGING_LOW_VOL"]> market_conditions
  else <["regime" := "UNCERTAIN"]> market_conditions.

Section Analyze.

(** The indicators of the [ta] package, which is not part of the
    repository: [ta.volatility.average_true_range(high, low, close, window)]
    and [ta.trend.ADXIndicator(high, low, close, window).adx()].  They are
    parameters; either may raise. *)
Variable average_true_range : Series -> Series -> Series -> nat -> result Series.
Variable adx : Series -> Series -> Series -> nat -> result Series.

(** The body of the [try] block. *)
Definition analyze_try (self : t) (data : DataFrame) : result conditions :=
  let market_conditions : conditions := ∅ in
  let* high := getitem data "high" in
  let* low := getitem data "low" in
  let* close := getitem data "close" in
  let* atr := average_true_range high low close 14 in
  let data := setitem data "ATR" atr in
  let* atr_col := getitem data "ATR" in
  let* latest_atr :=
    if negb (series_empty atr_col) then series_iloc_last atr_col else Ok NaN in
  let* close_col := getitem data "close" in
  let* latest_close :=
    if negb (series_empty close_col) then series_iloc_last close_col else Ok NaN in
  let market_conditions :=
    if negb (isnan latest_atr) && negb (isnan latest_close) && pf_ne latest_close (Num 0)
    then
      let volatility_percentage := pf_div latest_atr latest_close in
      <["volatility" :=
          if pf_gt volatility_percentage (Num (volatility_threshold self))
          then "high" else "low"]> market_conditions
    else <["volatility" := "unknown"]> market_conditions in
  let* high := getitem data "high" in
  let* low := getitem data "low" in
  let* close := getitem data "close" in
  let* adx_series := adx high low close 14 in
  let data := setitem data "ADX" adx_series in
  let* adx_col := getitem data "ADX" in
  let* latest_adx :=
    if negb (series_empty adx_col) then series_iloc_last adx_col else Ok NaN in
  let market_conditions :=
    if negb (isnan latest_adx)
    then <["trend" :=
             if pf_gt latest_adx (Num (trend_strength_threshold self))
             then "trending" else "ranging"]> market_conditions
    else <["trend" := "unknown"]> market_conditions in
  Ok (assign_regime market_conditions).

Definition required_cols : list string := ["high"; "low"; "close"].

Definition unknown_regime : conditions := {["regime" := "UNKNOWN"]}.
Definition unknown_conditions : conditions :=
  <["regime" := "UNKNOWN"]> (<["volatility" := "unknown"]> {["trend" := "unknown"]}).

Definition analyze_market_conditions (self : t) (data : DataFrame) : result conditions :=
  if empty data then Ok unknown_regime
  else if negb (forallb (fun col => has_column col data) required_cols)
  then Ok unknown_regime
  else try_except (analyze_try self data) (fun e => Ok unknown_conditions).

End Analyze.

(** Values of the adjustment dictionary: a strategy name or a multiplier. *)
Inductive adjustment : Type :=
| Str (s : string)
| Float (q : Q).

Abbreviation adjustments := (gmap string adjustment).

(** [d[key] *= factor] on a float entry. *)
Definition imul (key : string) (factor : Q) (d : adjustments) : adjustments :=
  alter (fun v => match v with Float q => Float (q * factor) | Str s => Str s end) key d.

Definition regime_adjustments
    (strategy_type : string) (risk_per_trade stop_loss take_profit : Q) : adjustments :=
  <["take_profit_multiplier" := Float take_profit]>
    (<["stop_loss_multiplier" := Float stop_loss]>
       (<["risk_per_trade_multiplier" := Float risk_per_trade]>
          (<["strategy_type" := Str strategy_type]> ∅))).

Definition is_key (key : string) (d : adjustments) : bool :=
  bool_decide (is_Some (d !! key)).

Definition suggest_strategy_adjustment (self : t) (market_conditions : conditions)
  : adjustments :=
  let current_regime := default "UNKNOWN" (market_conditions !! "regime") in
  let volatility_level := default "unknown" (market_conditions !! "volatility") in
  let suggested_adjustments :=
    if String.eqb current_regime "TRENDING_HIGH_VOL" then
      regime_adjustments "trend_following" 0.8 1.5 2.0
    else if String.eqb current_regime "TRENDING_LOW_VOL" then
      regime_adjustments "trend_following" 1.0 1.0 1.5
    else if String.eqb current_regime "RANGING_HIGH_VOL" then
      regime_adjustments "range_bound" 0.6 1.8 1.2
    else if String.eqb current_regime "RANGING_LOW_VOL" then
      regime_adjustments "range_bound" 1.0 1.0 1.0
    else
      regime_adjustments "hold" 0.5 1.0 1.0 in
  if String.eqb volatility_level "high" && is_key "stop_loss_multiplier" suggested_adjustments
  then imul "stop_loss_multiplier" 1.2 suggested_adjustments
  else if String.eqb volatility_level "low" && is_key "stop_loss_multiplier" suggested_adjustments
  then imul "stop_loss_multiplier" 0.8 suggested_adjustments
  else suggested_adjustments.

End AdaptabilityManager.

(** ** CombinedStrategy *)

Module CombinedStrategy.
Import Pandas.

Record t : Type := mk {
  pvg_short_period : nat;
  pvg_long_period : nat;
  smc_lookback : nat;
  tpr_volume_period : nat
}.

(** [__init__] *)
Definition __init__ : t :=
  {| pvg_short_period := 14;
     pvg_long_period := 50;
     smc_lookback := 20;
     tpr_volume_period := 20 |}.

(** Modelled from the spec: [ta.trend.sma_indicator(series, window)] of the
    [ta] package, the simple moving average over the [window] most recent
    values, undefined while fewer than [window] bars are available. *)
Definition sma_indicator (series : Series) (window : nat) : Series :=
  rolling_mean window series.

Definition _analyze_pvg (self : t) (data : DataFrame) : result DataFrame :=
  if has_column "close" data then
    let* close := getitem data "close" in
    let data := setitem data "PVG_SMA_Short" (sma_indicator close (pvg_short_period self)) in
    let* close := getitem data "close" in
    let data := setitem data "PVG_SMA_Long" (sma_indicator close (pvg_long_period self)) in
    Ok data
  else Ok data.

Definition _analyze_smc (self : t) (data : DataFrame) : result DataFrame :=
  if has_column "high" data && has_column "low" data then
    let* high := getitem data "high" in
    let* high' := getitem data "high" in
    let data :=
      setitem data "SMC_Swing_High"
        (series_eq_int (rolling_max (smc_lookback self) high) high') in
    let* low := getitem data "low" in
    let* low' := getitem data "low" in
    let data :=
      setitem data "SMC_Swing_Low"
        (series_eq_int (rolling_min (smc_lookback self) low) low') in
    Ok data
  else Ok data.

Definition _analyze_tpr (self : t) (data : DataFrame) : result DataFrame :=
  if has_column "volume" data then
    let* volume := getitem data "volume" in
    Ok (setitem data "TPR_Volume_SMA" (sma_indicator volume (tpr_volume_period self)))
  else Ok (setitem_scalar data "TPR_Volume_SMA" NaN).

Definition generate_signal (self : t) (data : DataFrame) : result string :=
  if empty data then Ok "HOLD"
  else
    let* processed_data := _analyze_pvg self data in (* on [data.copy()] *)
    let* processed_data := _analyze_smc self processed_data in
    let* processed_data := _analyze_tpr self processed_data in
    let processed_data := dropna processed_data in
    if empty processed_data then Ok "HOLD"
    else
      let* latest_data := iloc_last processed_data in
      let buy_condition_pvg :=
        pf_gt (get latest_data "PVG_SMA_Short" (Num (-1)))
              (get latest_data "PVG_SMA_Long" (Num (-1))) in
      let buy_condition_smc :=
        pf_eq (get latest_data "SMC_Swing_Low" (Num 0)) (Num 1) in
      let buy_condition_tpr :=
        pf_gt (get latest_data "close" (Num 0)) (get latest_data "PVG_SMA_Long" (Num 0))
        && pf_gt (get latest_data "TPR_Volume_SMA" (Num 0)) (Num 0) in
      if buy_condition_pvg && buy_condition_smc && buy_condition_tpr then Ok "BUY"
      else
        let sell_condition_pvg :=
          pf_lt (get latest_data "PVG_SMA_Short" (Num 1))
                (get latest_data "PVG_SMA_Long" (Num 1)) in
        let sell_condition_smc :=
          pf_eq (get latest_data "SMC_Swing_High" (Num 0)) (Num 1) in
        let sell_condition_tpr :=
          pf_lt (get latest_data "close" (Num 0)) (get latest_data "PVG_SMA_Long" (Num 0))
          && pf_gt (get latest_data "TPR_Volume_SMA" (Num 0)) (Num 0) in
        if sell_condition_pvg && sell_condition_smc && sell_condition_tpr then Ok "SELL"
        else Ok "HOLD".

End CombinedStrategy.

(** ** Bar series and the signal rule as the specification words it *)

Record Bar : Type := mkBar {
  bar_open : Q;
  bar_high : Q;
  bar_low : Q;
  bar_close : Q;
  bar_volume : Q
}.

(** The frame a bar series is handed over as (the timestamp is the index). *)
Definition bar_row (b : Bar) : Pandas.Row :=
  <["open" := Num (bar_open b)]>
    (<["high" := Num (bar_high b)]>
       (<["low" := Num (bar_low b)]>
          (<["close" := Num (bar_close b)]>
             {["volume" := Num (bar_volume b)]}))).

Definition bars_frame (bars : list Bar) : Pandas.DataFrame :=
  {| Pandas.columns := {["open"; "high"; "low"; "close"; "volume"]};
     Pandas.rows := bar_row <$> bars |}.

(** The [n] most recent values at bar [i], bar [i] included. *)
Definition recent (n : nat) (xs : list Q) (i : nat) : option (list Q) :=
  if bool_decide (n ≤ S i ≤ length xs)%nat
  then Some (take n (drop (S i - n) xs))
  else None.

Definition sma (n : nat) (xs : list Q) (i : nat) : option Q :=
  Pandas.mean <$> recent n xs i.

Definition swing_high (n : nat) (highs : list Q) (i : nat) : bool :=
  match recent n highs i, highs !! i with
  | Some w, Some x => Qeq_bool (Pandas.maximum w) x
  | _, _ => false
  end.

Definition swing_low (n : nat) (lows : list Q) (i : nat) : bool :=
  match recent n lows i, lows !! i with
  | Some w, Some x => Qeq_bool (Pandas.minimum w) x
  | _, _ => false
  end.

(** A bar is kept when each of its indicator values is defined. *)
Definition indicators_defined (bars : list Bar) (i : nat) : Prop :=
  is_Some (sma 14 (bar_close <$> bars) i) /\
  is_Some (sma 50 (bar_close <$> bars) i) /\
  is_Some (sma 20 (bar_volume <$> bars) i).

(** The positions of the bars that are kept, oldest first. *)
Definition retained (bars : list Bar) : list nat :=
  filter (indicators_defined bars) (seq 0 (length bars)).

(** The decision rule, evaluated on the most recent bar that is kept:
    BUY, else SELL, else HOLD; HOLD when no bar is kept. *)
Definition signal_rule (bars : list Bar) : string :=
  match last (retained bars) with
  | None => "HOLD"
  | Some i =>
      match bars !! i,
            sma 14 (bar_close <$> bars) i,
            sma 50 (bar_close <$> bars) i,
            sma 20 (bar_volume <$> bars) i with
      | Some bar, Some short_sma, Some long_sma, Some volume_sma =>
          if Qgtb short_sma long_sma && swing_low 20 (bar_low <$> bars) i
             && Qgtb (bar_close bar) long_sma && Qgtb volume_sma 0
          then "BUY"
          else if Qltb short_sma long_sma && swing_high 20 (bar_high <$> bars) i
                  && Qltb (bar_close bar) long_sma && Qgtb volume_sma 0
          then "SELL"
          else "HOLD"
      | _, _, _, _ => "HOLD"
      end
  end.

(** Bar series for the examples: [n] bars whose close rises (falls) by 1
    per bar around flat highs and lows, and an all-flat series. *)
Definition rising_bars (n : nat) : list Bar :=
  (fun i => mkBar 150 1000 1 (100 + inject_Z (Z.of_nat i)) 100) <$> seq 0 n.
Definition falling_bars (n : nat) : list Bar :=
  (fun i => mkBar 150 1000 1 (500 - inject_Z (Z.of_nat i)) 100) <$> seq 0 n.
Definition flat_bars (n : nat) : list Bar :=
  (fun _ => mkBar 150 152 148 150 100) <$> seq 0 n.

(** ** The dashboard's trading agent (streamlit_app.py)

    [add_log], [TradingAgent.__init__], [_get_broker_integration] and the
    pass of [run_trading_loop] over the configured symbols.  The session
    state of the dashboard is threaded explicitly.  The clock, the broker
    and the rendering of values into text are outside the repository's
    logic and are parameters: the [k]-th reading of the clock is the time
    point [k], [strftime k] is its timestamp. *)

Module TradingAgent.
Import Pandas.

Record Position : Type := mkPosition {
  Symbol : string;
  Quantity : Q;
  Side : string;
  Entry_Price : Q;
  Current_Price : Q;
  Unrealized_PL : Q;
  Stop_Loss : Q;
  Take_Profit : pyfloat;
  Entry_Time : nat
}.

(** [st.session_state], with the number of clock readings made so far. *)
Record session_state : Type := mkSession {
  agent_status : string;
  logs : list string;
  positions : list Position;
  account_balance : Q;
  clock : nat
}.

Record Config : Type := mkConfig {
  broker : string;
  api_key : option string;
  api_secret : option string;
  symbols : list string;
  initial_balance : Q;
  risk_per_trade : Q;
  risk_reward_ratio : Q;
  time_based_exit : nat
}.

(** Code that changes the session state and may raise. *)
Definition M (A : Type) : Type := session_state -> session_state * result A.

Definition ret {A : Type} (a : A) : M A := fun st => (st, Ok a).
Definition raise {A : Type} (e : exn) : M A := fun st => (st, Raise e).
Definition lift {A : Type} (r : result A) : M A := fun st => (st, r).

Definition mbind {A B : Type} (m : M A) (k : A -> M B) : M B :=
  fun st =>
    match m st with
    | (st', Ok a) => k a st'
    | (st', Raise e) => (st', Raise e)
    end.

Notation "'let!' x ':=' m 'in' k" := (mbind m (fun x => k))
  (at level 10, x name, m at level 100, k at level 200).
Notation "'step' m 'in' k" := (mbind m (fun _ => k))
  (at level 10, m at level 100, k at level 200).

(** [try: body except Exception as e: handler e]; what the body did to
    the session before raising stays done. *)
Definition mtry {A : Type} (body : M A) (handler : exn -> M A) : M A :=
  fun st =>
    match body st with
    | (st', Ok a) => (st', Ok a)
    | (st', Raise e) => handler e st'
    end.

(** How the body of the [for] loop ends: it runs to its end or hits
    [continue], or it hits [break]. *)
Inductive flow : Type :=
| Next
| Break.

Section Agent.

(** The timestamp of a clock reading ([time.strftime]). *)
Variable strftime : nat -> string.

(** The broker facade: [AlpacaIntegration(api_key, api_secret)] and its
    [fetch_historical_data(symbol, '1Min', start, end)], the dates taken
    from the clock reading given. *)
Variable Broker : Type.
Variable AlpacaIntegration : string -> string -> Broker.
Variable fetch_historical_data : Broker -> string -> nat -> result DataFrame.

(** Rendering inside the f-strings: a float under [:.2f], an integer, an
    exception. *)
Variable str_2f : pyfloat -> string.
Variable str_int : nat -> string.
Variable str_exn : exn -> string.

Definition add_log (message : string) : M unit :=
  fun st =>
    let timestamp := strftime (clock st) in
    let logs := ("[" +:+ timestamp +:+ "] " +:+ message) :: logs st in
    let logs := if (100 <? length logs)%nat then removelast logs else logs in
    ({| agent_status := agent_status st;
        logs := logs;
        positions := positions st;
        account_balance := account_balance st;
        clock := S (clock st) |}, Ok tt).

(** [datetime.now()] *)
Definition datetime_now : M nat :=
  fun st =>
    ({| agent_status := agent_status st;
        logs := logs st;
        positions := positions st;
        account_balance := account_balance st;
        clock := S (clock st) |}, Ok (clock st)).

Definition set_agent_status (status : string) : M unit :=
  fun st =>
    ({| agent_status := status;
        logs := logs st;
        positions := positions st;
        account_balance := account_balance st;
        clock := clock st |}, Ok tt).

Definition set_account_balance (balance : Q) : M unit :=
  fun st =>
    ({| agent_status := agent_status st;
        logs := logs st;
        positions := positions st;
        account_balance := balance;
        clock := clock st |}, Ok tt).

(** [positions = pd.concat([positions, new_position], ignore_index=True)] *)
Definition append_position (p : Position) : M unit :=
  fun st =>
    ({| agent_status := agent_status st;
        logs := logs st;
        positions := positions st ++ [p];
        account_balance := account_balance st;
        clock := clock st |}, Ok tt).

Record t : Type := mk {
  config : Config;
  strategy : CombinedStrategy.t;
  broker_integration : Broker;
  risk_manager : RiskManager.t
}.

(** [not s] for an optional string: None and the empty string are falsy. *)
Definition falsy (s : option string) : bool :=
  match s with
  | None => true
  | Some s => String.eqb s ""
  end.

Definition _get_broker_integration (config : Config) : M Broker :=
  let broker_name := broker config in
  if String.eqb broker_name "Alpaca" then
    if falsy (api_key config) || falsy (api_secret config) then
      raise (ValueError "Alpaca API Key and Secret are required.")
    else
      ret (AlpacaIntegration (default "" (api_key config)) (default "" (api_secret config)))
  else
    step add_log ("Broker '" +:+ broker_name +:+ "' is not yet supported.") in
    raise (ValueError ("Broker '" +:+ broker_name +:+ "' is not yet supported.")).

Definition __init__ (config : Config) : M t :=
  let strategy := CombinedStrategy.__init__ in
  let! broker := _get_broker_integration config in
  step set_account_balance (initial_balance config) in
  let! balance := (fun st => (st, Ok (account_balance st))) in
  let! risk_manager := lift (RiskManager.__init__ balance (risk_per_trade config / 100) 0.05) in
  step add_log "Agent initialized successfully." in
  ret {| config := config; strategy := strategy; broker_integration := broker;
         risk_manager := risk_manager |}.

(** The statements under [try] in the body of the loop over the symbols. *)
Definition process_symbol_try (self : t) (symbol : string) : M flow :=
  let! end_date := datetime_now in
  let! historical_data := lift (fetch_historical_data (broker_integration self) symbol end_date) in
  if empty historical_data then
    step add_log ("Could not fetch historical data for " +:+ symbol +:+ ".") in
    ret Next (* continue *)
  else
    step add_log ("Fetched " +:+ str_int (length (rows historical_data))
                +:+ " data points for " +:+ symbol +:+ ".") in
    let! signal := lift (CombinedStrategy.generate_signal (strategy self) historical_data) in
    step add_log ("Signal for " +:+ symbol +:+ ": " +:+ signal) in
    if String.eqb signal "BUY" || String.eqb signal "SELL" then
      if negb (RiskManager.check_daily_risk_limit (risk_manager self)) then
        step add_log "Daily risk limit reached. Halting trades for the day." in
        step set_agent_status "Stopped" in
        ret Break
      else
        let! close := lift (getitem historical_data "close") in
        let! entry_price := lift (series_iloc_last close) in
        match entry_price with
        | NaN =>
            (* every comparison with NaN is False: no guard of the two
               RiskManager calls fires, the size comes out as NaN and
               [position_size > 0] is False *)
            ret Next
        | Num entry_price =>
            let stop_loss_price :=
              if String.eqb signal "BUY" then entry_price * 0.98 else entry_price * 1.02 in
            let! position_size := lift (RiskManager.calculate_position_size (risk_manager self)
                      entry_price stop_loss_price RiskManager.default_asset_multiplier) in
            let take_profit_price :=
              RiskManager.determine_take_profit (risk_manager self)
                entry_price stop_loss_price (risk_reward_ratio (config self)) in
            if Qgtb position_size 0 then
              step add_log ("Executing " +:+ signal +:+ " for " +:+ str_2f (Num position_size)
                          +:+ " shares of " +:+ symbol +:+ " at " +:+ str_2f (Num entry_price)
                          +:+ ", SL: " +:+ str_2f (Num stop_loss_price)
                          +:+ ", TP: " +:+ str_2f take_profit_price) in
              let! entry_time := datetime_now in
              step append_position
                   {| Symbol := symbol;
                      Quantity := position_size;
                      Side := signal;
                      Entry_Price := entry_price;
                      Current_Price := entry_price;
                      Unrealized_PL := 0;
                      Stop_Loss := stop_loss_price;
                      Take_Profit := take_profit_price;
                      Entry_Time := entry_time |} in
              ret Next
            else ret Next
        end
    else ret Next.

(** One turn of the loop over the symbols. *)
Definition process_symbol (self : t) (symbol : string) : M flow :=
  step add_log ("--- Processing symbol: " +:+ symbol +:+ " ---") in
  mtry (process_symbol_try self symbol)
       (fun e =>
          step add_log ("An error occurred while processing " +:+ symbol +:+ ": "
                      +:+ str_exn e) in
          ret Next).

(** [for symbol in self.config['symbols']: ...] *)
Fixpoint process_symbols (self : t) (symbols : list string) : M unit :=
  match symbols with
  | [] => ret tt
  | symbol :: rest =>
      let! f := process_symbol self symbol in
      match f with
      | Break => ret tt
      | Next => process_symbols self rest
      end
  end.

End Agent.

Arguments config {Broker} _.
Arguments strategy {Broker} _.
Arguments broker_integration {Broker} _.
Arguments risk_manager {Broker} _.

End TradingAgent.

(** ** Definitions used to state the properties *)

Import RiskManager.
Import Pandas.
Import AdaptabilityManager.
Import CombinedStrategy.

(** A freshly constructed manager used in the examples:
    [RiskManager(10000.0, 0.01, 0.05)], the set-up of the test-suite. *)
Definition rm0 : RiskManager.t :=
  {| account_balance := 10000; initial_balance := 10000;
     risk_per_trade_percentage := 0.01; daily_risk_limit_percentage := 0.05;
     daily_loss_incurred := 0 |}.

(** The frame of [test_generate_signal_data_with_nans]. *)
Definition nan_row (open high low close volume : pyfloat) : Row :=
  <["open" := open]> (<["high" := high]> (<["low" := low]>
    (<["close" := close]> {["volume" := volume]}))).

Definition nan_frame : DataFrame :=
  {| columns := {["open"; "high"; "low"; "close"; "volume"]};
     rows := [nan_row (Num 10) (Num 10.5) (Num 9.5) (Num 10) (Num 100);
              nan_row (Num 11) (Num 11.5) (Num 10.5) (Num 11) NaN;
              nan_row NaN (Num 12.5) (Num 11.5) (Num 12) (Num 120);
              nan_row (Num 13) NaN (Num 12.5) (Num 13) (Num 130);
              nan_row (Num 14) (Num 14.5) NaN (Num 14) (Num 140)] |}.

(** A sequence of [update_daily_loss] calls. *)
Definition record_losses (self : RiskManager.t) (amounts : list Q) : RiskManager.t :=
  fold_left update_daily_loss amounts self.

Definition strictly_increasing (prices : list Q) : Prop := Sorted Qlt prices.
Definition strictly_decreasing (prices : list Q) : Prop := Sorted (fun a b => b < a) prices.
Definition non_decreasing (levels : list Q) : Prop := Sorted Qle levels.
Definition non_increasing (levels : list Q) : Prop := Sorted (fun a b => b <= a) levels.

(** The regime table of the classifier, as the specification words it:
    the four (trend, volatility) pairs have their tag, every other
    combination is UNCERTAIN. *)
Definition regime_of (trend volatility : string) : string :=
  if String.eqb trend "trending" && String.eqb volatility "high" then "TRENDING_HIGH_VOL"
  else if String.eqb trend "trending" && String.eqb volatility "low" then "TRENDING_LOW_VOL"
  else if String.eqb trend "ranging" && String.eqb volatility "high" then "RANGING_HIGH_VOL"
  else if String.eqb trend "ranging" && String.eqb volatility "low" then "RANGING_LOW_VOL"
  else "UNCERTAIN".

Definition trend_labels : list string := ["trending"; "ranging"; "unknown"].
Definition volatility_labels : list string := ["high"; "low"; "unknown"].
Definition pair_tags : list string :=
  ["TRENDING_HIGH_VOL"; "TRENDING_LOW_VOL"; "RANGING_HIGH_VOL"; "RANGING_LOW_VOL"].

(** The guarded read [s.iloc[-1] if not s.empty else np.nan]. *)
Definition latest (s : Series) : pyfloat := default NaN (last s).

(** The labels the classifier derives from the latest indicator values. *)
Definition volatility_label (self : AdaptabilityManager.t) (latest_atr latest_close : pyfloat)
  : string :=
  if negb (isnan latest_atr) && negb (isnan latest_close) && pf_ne latest_close (Num 0)
  then if pf_gt (pf_div latest_atr latest_close) (Num (volatility_threshold self))
       then "high" else "low"
  else "unknown".

Definition trend_label (self : AdaptabilityManager.t) (latest_adx : pyfloat) : string :=
  if negb (isnan latest_adx)
  then if pf_gt latest_adx (Num (trend_strength_threshold self))
       then "trending" else "ranging"
  else "unknown".

(** The dictionary a completed classification returns. *)
Definition classified (trend volatility : string) : conditions :=
  <["regime" := regime_of trend volatility]>
    (<["trend" := trend]> (<["volatility" := volatility]> ∅)).

(** A two-bar frame and two stand-ins for the indicators, for the examples. *)
Definition sample_row (high low close : Q) : Row :=
  <["high" := Num high]> (<["low" := Num low]> {["close" := Num close]}).

Definition sample_frame : DataFrame :=
  {| columns := {["high"; "low"; "close"]};
     rows := [sample_row 100 98 99; sample_row 101 99 100] |}.

Definition sample_atr (high low close : Series) (window : nat) : result Series :=
  Ok ((fun _ => Num 3) <$> close).
Definition sample_adx (high low close : Series) (window : nat) : result Series :=
  Ok ((fun _ => Num 25) <$> close).
Definition failing_adx (high low close : Series) (window : nat) : result Series :=
  Raise (LibraryError "adx").

Definition opt_num (o : option Q) : pyfloat :=
  match o with Some q => Num q | None => NaN end.

Definition flag (b : bool) : pyfloat := if b then Num 1 else Num 0.

Definition indexed_frame (cols : gset string) (f : nat -> Bar -> Row) (bars : list Bar)
  : DataFrame :=
  {| columns := cols; rows := imap f bars |}.

Definition processed_columns : gset string :=
  {["TPR_Volume_SMA"]} ∪ ({["SMC_Swing_Low"]} ∪ ({["SMC_Swing_High"]} ∪
    ({["PVG_SMA_Long"]} ∪ ({["PVG_SMA_Short"]} ∪
       {["open"; "high"; "low"; "close"; "volume"]})))).

(** The row of bar [i] once the three analyses have added their columns. *)
Definition processed_row (bars : list Bar) (i : nat) (b : Bar) : Row :=
  <["TPR_Volume_SMA" := opt_num (sma 20 (bar_volume <$> bars) i)]>
    (<["SMC_Swing_Low" := flag (swing_low 20 (bar_low <$> bars) i)]>
       (<["SMC_Swing_High" := flag (swing_high 20 (bar_high <$> bars) i)]>
          (<["PVG_SMA_Long" := opt_num (sma 50 (bar_close <$> bars) i)]>
             (<["PVG_SMA_Short" := opt_num (sma 14 (bar_close <$> bars) i)]>
                (bar_row b))))).

Definition row_at (bars : list Bar) (i : nat) : Row :=
  match bars !! i with
  | Some b => processed_row bars i b
  | None => ∅
  end.

(** What every state of a manager built by [__init__] satisfies. *)
Definition state_invariant (s : RiskManager.t) : Prop :=
  (0 < risk_per_trade_percentage s /\ risk_per_trade_percentage s <= 1) /\
  (0 < daily_risk_limit_percentage s /\ daily_risk_limit_percentage s <= 1) /\
  0 <= daily_loss_incurred s /\
  account_balance s <= initial_balance s.

Definition is_reset (c : RiskManager.call) : bool :=
  match c with ResetDailyLoss => true | _ => false end.

(** The trailing-stop level after a sequence of prices, each call fed the
    level the previous one returned. *)
Definition final_stop (self : RiskManager.t) (long_position : bool) (level : Q)
    (prices : list Q) : Q :=
  fold_left (fun l p => update_trailing_stop self p l long_position) prices level.

(** The keys of every suggested adjustment. *)
Definition adjustment_keys : gset string :=
  {["strategy_type"; "risk_per_trade_multiplier"; "stop_loss_multiplier";
    "take_profit_multiplier"]}.

(** The adjustment suggested when the regime is not one of the four tags. *)
Definition hold_adjustment : adjustments :=
  regime_adjustments "hold" 0.5 1.0 1.0.

(** A frame is well formed when every row has a cell for each column and
    for nothing else. *)
Definition wf (df : DataFrame) : Prop :=
  Forall (fun r : Row => dom r = columns df) (rows df).

(** The frames the three analyses of [CombinedStrategy] hand back. *)
Definition pvg_frame (self : CombinedStrategy.t) (data : DataFrame) : DataFrame :=
  if has_column "close" data then
    let close := cell "close" <$> rows data in
    setitem (setitem data "PVG_SMA_Short" (sma_indicator close (pvg_short_period self)))
            "PVG_SMA_Long" (sma_indicator close (pvg_long_period self))
  else data.

Definition smc_frame (self : CombinedStrategy.t) (data : DataFrame) : DataFrame :=
  if has_column "high" data && has_column "low" data then
    let high := cell "high" <$> rows data in
    let low := cell "low" <$> rows data in
    setitem (setitem data "SMC_Swing_High"
               (series_eq_int (rolling_max (smc_lookback self) high) high))
            "SMC_Swing_Low" (series_eq_int (rolling_min (smc_lookback self) low) low)
  else data.

Definition tpr_frame (self : CombinedStrategy.t) (data : DataFrame) : DataFrame :=
  if has_column "volume" data then
    setitem data "TPR_Volume_SMA"
      (sma_indicator (cell "volume" <$> rows data) (tpr_volume_period self))
  else setitem_scalar data "TPR_Volume_SMA" NaN.

Definition processed_frame (self : CombinedStrategy.t) (data : DataFrame) : DataFrame :=
  tpr_frame self (smc_frame self (pvg_frame self data)).

(** The decision [generate_signal] takes on the row it evaluates. *)
Definition decide_row (latest_data : Row) : string :=
  if pf_gt (get latest_data "PVG_SMA_Short" (Num (-1)))
           (get latest_data "PVG_SMA_Long" (Num (-1)))
     && pf_eq (get latest_data "SMC_Swing_Low" (Num 0)) (Num 1)
     && (pf_gt (get latest_data "close" (Num 0)) (get latest_data "PVG_SMA_Long" (Num 0))
         && pf_gt (get latest_data "TPR_Volume_SMA" (Num 0)) (Num 0))
  then "BUY"
  else if pf_lt (get latest_data "PVG_SMA_Short" (Num 1))
                (get latest_data "PVG_SMA_Long" (Num 1))
          && pf_eq (get latest_data "SMC_Swing_High" (Num 0)) (Num 1)
          && (pf_lt (get latest_data "close" (Num 0)) (get latest_data "PVG_SMA_Long" (Num 0))
              && pf_gt (get latest_data "TPR_Volume_SMA" (Num 0)) (Num 0))
  then "SELL"
  else "HOLD".

Definition ohlcv : gset string := {["open"; "high"; "low"; "close"; "volume"]}.

(** *** Bar series whose values may be undefined

    The signal rule as the specification words it, on the frame a bar
    series is handed over as.  A value of a bar, or of an indicator at a
    bar, may be undefined (NaN). *)

(** The values of a column, oldest bar first. *)
Definition column (data : DataFrame) (col : string) : Series :=
  cell col <$> rows data.

(** The simple moving average of the [n] most recent values at bar [i];
    undefined while fewer than [n] bars are available or one of the [n]
    values is undefined. *)
Definition sma_at (n : nat) (s : Series) (i : nat) : option Q :=
  mean <$> window n s i.

(** Bar [i] is a swing high (low): its value equals the largest (smallest)
    of the [n] most recent values. *)
Definition swing_high_at (n : nat) (s : Series) (i : nat) : bool :=
  match window n s i, s !! i with
  | Some w, Some (Num x) => Qeq_bool (maximum w) x
  | _, _ => false
  end.

Definition swing_low_at (n : nat) (s : Series) (i : nat) : bool :=
  match window n s i, s !! i with
  | Some w, Some (Num x) => Qeq_bool (minimum w) x
  | _, _ => false
  end.

(** Every indicator value of bar [i] is defined. *)
Definition indicators_at (data : DataFrame) (i : nat) : Prop :=
  is_Some (sma_at 14 (column data "close") i) /\
  is_Some (sma_at 50 (column data "close") i) /\
  is_Some (sma_at 20 (column data "volume") i).

(** Every value bar [i] itself holds is a number. *)
Definition values_at (data : DataFrame) (i : nat) : Prop :=
  no_nan (default ∅ (rows data !! i)).

(** The bars left, oldest first, once the bars with an undefined indicator
    value are discarded, and once the bars with any undefined value are. *)
Definition kept_by_indicators (data : DataFrame) : list nat :=
  filter (indicators_at data) (seq 0 (length (rows data))).

Definition kept (data : DataFrame) : list nat :=
  filter (fun i => values_at data i /\ indicators_at data i)
         (seq 0 (length (rows data))).

(** The decision rule on bar [i]: BUY, else SELL, else HOLD. *)
Definition rule_at (data : DataFrame) (i : nat) : string :=
  let close := column data "close" in
  match sma_at 14 close i, sma_at 50 close i, sma_at 20 (column data "volume") i,
        close !! i with
  | Some short_sma, Some long_sma, Some volume_sma, Some (Num c) =>
      if Qgtb short_sma long_sma && swing_low_at 20 (column data "low") i
         && Qgtb c long_sma && Qgtb volume_sma 0
      then "BUY"
      else if Qltb short_sma long_sma && swing_high_at 20 (column data "high") i
              && Qltb c long_sma && Qgtb volume_sma 0
      then "SELL"
      else "HOLD"
  | _, _, _, _ => "HOLD"
  end.

(** The rule evaluated on the most recent of the bars left; HOLD when none
    is left. *)
Definition rule_on (data : DataFrame) (kept_rows : list nat) : string :=
  match last kept_rows with
  | None => "HOLD"
  | Some i => rule_at data i
  end.

(** The columns the three analyses add. *)
Definition indicator_columns : gset string :=
  {["PVG_SMA_Short"; "PVG_SMA_Long"; "SMC_Swing_High"; "SMC_Swing_Low";
    "TPR_Volume_SMA"]}.

(** A bar series as a frame: well formed, with the high, low, close and
    volume columns (and any others, such as open), none of them named like
    an indicator. *)
Definition bar_frame (data : DataFrame) : Prop :=
  wf data /\
  {["high"; "low"; "close"; "volume"]} ⊆ columns data /\
  columns data ## indicator_columns.

(** The row of bar [i] once the three analyses have added their columns. *)
Definition with_indicators (data : DataFrame) (i : nat) (r : Row) : Row :=
  <["TPR_Volume_SMA" := opt_num (sma_at 20 (column data "volume") i)]>
    (<["SMC_Swing_Low" := flag (swing_low_at 20 (column data "low") i)]>
       (<["SMC_Swing_High" := flag (swing_high_at 20 (column data "high") i)]>
          (<["PVG_SMA_Long" := opt_num (sma_at 50 (column data "close") i)]>
             (<["PVG_SMA_Short" := opt_num (sma_at 14 (column data "close") i)]> r)))).

(** Sixty rising bars followed by a bar whose open is undefined and whose
    low is not the lowest of the last 20. *)
Definition nan_open_frame : DataFrame :=
  {| columns := {["open"; "high"; "low"; "close"; "volume"]};
     rows := (bar_row <$> rising_bars 60)
             ++ [nan_row NaN (Num 1000) (Num 2) (Num 160) (Num 100)] |}.

(** A well-formed two-row frame without a high column. *)
Definition no_high_row (open low close volume : Q) : Row :=
  <["open" := Num open]> (<["low" := Num low]>
    (<["close" := Num close]> {["volume" := Num volume]})).

Definition no_high_frame : DataFrame :=
  {| columns := {["open"; "low"; "close"; "volume"]};
     rows := [no_high_row 10 9 10 100; no_high_row 11 10 11 120] |}.

(** What one turn of the trading loop may do to the session: the log stays
    within its bound and the balance shown is untouched; the turn either
    goes on to the next symbol, with the status unchanged and at most one
    position added, or breaks out, with the status set to Stopped, no
    position added and the daily gate of the manager closed. *)
Definition turn_safe (rm : RiskManager.t)
    (st st' : TradingAgent.session_state) (f : TradingAgent.flow) : Prop :=
  ((length (TradingAgent.logs st) <= 100)%nat ->
   (length (TradingAgent.logs st') <= 100)%nat) /\
  TradingAgent.account_balance st' = TradingAgent.account_balance st /\
  ((f = TradingAgent.Next /\
    TradingAgent.agent_status st' = TradingAgent.agent_status st /\
    (TradingAgent.positions st' = TradingAgent.positions st \/
     exists p, TradingAgent.positions st' = TradingAgent.positions st ++ [p]))
   \/ (f = TradingAgent.Break /\
       TradingAgent.agent_status st' = "Stopped" /\
       TradingAgent.positions st' = TradingAgent.positions st /\
       check_daily_risk_limit rm = false)).

(** A configuration and session for the examples. *)
Definition sample_config : TradingAgent.Config :=
  {| TradingAgent.broker := "Alpaca";
     TradingAgent.api_key := Some "key";
     TradingAgent.api_secret := Some "secret";
     TradingAgent.symbols := ["AAPL"; "TSLA"];
     TradingAgent.initial_balance := 10000;
     TradingAgent.risk_per_trade := 1;
     TradingAgent.risk_reward_ratio := 3;
     TradingAgent.time_based_exit := 5 |}.

Definition sample_session : TradingAgent.session_state :=
  {| TradingAgent.agent_status := "Running";
     TradingAgent.logs := [];
     TradingAgent.positions := [];
     TradingAgent.account_balance := 10000;
     TradingAgent.clock := 0 |}.

(** Stand-ins for the clock, the broker and the renderers. *)
Definition sample_strftime (k : nat) : string := "t".
Definition sample_render_float (x : pyfloat) : string := "x".
Definition sample_render_int (n : nat) : string := "n".
Definition sample_render_exn (e : exn) : string := "e".
Definition rising_broker (b : unit) (symbol : string) (end_date : nat) : result DataFrame :=
  Ok (bars_frame (rising_bars 60)).
Definition failing_broker (b : unit) (symbol : string) (end_date : nat) : result DataFrame :=
  Raise (LibraryError "connection").

Definition sample_agent (rm : RiskManager.t) : TradingAgent.t unit :=
  {| TradingAgent.config := sample_config;
     TradingAgent.strategy := CombinedStrategy.__init__;
     TradingAgent.broker_integration := tt;
     TradingAgent.risk_manager := rm |}.

(** The session after an [add_log] and after a reading of the clock. *)
Definition logged (strftime : nat -> string) (message : string)
    (st : TradingAgent.session_state) : TradingAgent.session_state :=
  fst (TradingAgent.add_log strftime message st).

Definition ticked (st : TradingAgent.session_state) : TradingAgent.session_state :=
  fst (TradingAgent.datetime_now st).

Definition with_status (status : string) (st : TradingAgent.session_state)
  : TradingAgent.session_state :=
  fst (TradingAgent.set_agent_status status st).

Definition with_position (p : TradingAgent.Position) (st : TradingAgent.session_state)
  : TradingAgent.session_state :=
  fst (TradingAgent.append_position p st).

(** The session is as before but for the clock and the log, which stays
    within its bound. *)
Definition only_logged (st st' : TradingAgent.session_state) : Prop :=
  ((length (TradingAgent.logs st) <= 100)%nat ->
   (length (TradingAgent.logs st') <= 100)%nat) /\
  TradingAgent.account_balance st' = TradingAgent.account_balance st /\
  TradingAgent.agent_status st' = TradingAgent.agent_status st /\
  TradingAgent.positions st' = TradingAgent.positions st.

(** * Properties *)

(** ** Reflection of the float comparisons *)

Lemma Qltb_true (x y : Q) : Qltb x y = true <-> x < y.
Proof.
  unfold Qltb. rewrite negb_true_iff, <- not_true_iff_false, Qle_bool_iff.
  split; [apply Qnot_le_lt | apply Qlt_not_le].
Qed.

Lemma Qltb_false (x y : Q) : Qltb x y = false <-> y <= x.
Proof. unfold Qltb. rewrite negb_false_iff. apply Qle_bool_iff. Qed.

Lemma Qleb_true (x y : Q) : Qleb x y = true <-> x <= y.
Proof. apply Qle_bool_iff. Qed.

Lemma Qleb_false (x y : Q) : Qleb x y = false <-> y < x.
Proof.
  unfold Qleb. rewrite <- not_true_iff_false, Qle_bool_iff.
  split; [apply Qnot_le_lt | apply Qlt_not_le].
Qed.

Lemma Qeq_bool_false (x y : Q) : Qeq_bool x y = false <-> ~ x == y.
Proof. rewrite <- not_true_iff_false, Qeq_bool_iff. reflexivity. Qed.

(** Turn every boolean comparison in the context into its proposition. *)
Ltac q_reflect :=
  unfold Qgtb, Qgeb in * |-;
  repeat match goal with
    | H : Qltb _ _ = true |- _ => apply Qltb_true in H
    | H : Qltb _ _ = false |- _ => apply Qltb_false in H
    | H : Qleb _ _ = true |- _ => apply Qleb_true in H
    | H : Qleb _ _ = false |- _ => apply Qleb_false in H
    | H : Qle_bool _ _ = true |- _ => apply Qleb_true in H
    | H : Qle_bool _ _ = false |- _ => apply Qleb_false in H
    | H : Qeq_bool _ _ = true |- _ => apply Qeq_bool_iff in H
    | H : Qeq_bool _ _ = false |- _ => apply Qeq_bool_false in H
    end.

(** Case split on the guard of the first conditional of the goal. *)
Ltac q_if :=
  match goal with
  | |- context [if ?c then _ else _] => destruct c eqn:?; q_reflect
  end.

Lemma py_max_Qmax (a b : Q) : py_max a b == Qmax a b.
Proof.
  unfold py_max. q_if.
  - symmetry. apply Q.max_r. lra.
  - symmetry. apply Q.max_l. lra.
Qed.

Lemma py_min_Qmin (a b : Q) : py_min a b == Qmin a b.
Proof.
  unfold py_min. q_if.
  - symmetry. apply Q.min_r. lra.
  - symmetry. apply Q.min_l. lra.
Qed.

Lemma Qabs_diff_pos (x y : Q) : ~ x == y -> 0 < Qabs (x - y).
Proof.
  intros Hne. apply Qabs_case; intros; destruct (Q_dec x y) as [[?|?]|?]; lra.
Qed.

Lemma Qabs_diff_gt (x y : Q) : y < x -> Qabs (x - y) == x - y.
Proof. intros. apply Qabs_pos. lra. Qed.

Lemma Qabs_diff_lt (x y : Q) : x < y -> Qabs (x - y) == y - x.
Proof. intros. rewrite Qabs_neg; lra. Qed.

(** ** RiskManager *)


Lemma rm0_init : RiskManager.__init__ 10000 0.01 0.05 = Ok rm0.
Proof. reflexivity. Qed.

Lemma rm0_reachable : reachable rm0.
Proof. eapply reachable_init, rm0_init. Qed.

(** C1: with both prices positive and different and the default asset
    multiplier 1, [calculate_position_size] returns
    (account_balance * risk_per_trade_percentage) / |entry - stop|; with a
    price that is not positive, or entry equal to stop, it returns 0; and a
    balance of 10000 at 1% risk with entry 100 and stop 99 gives 100. *)
Theorem calculate_position_size_spec (self : RiskManager.t) (entry stop : Q) :
  (0 < entry -> 0 < stop -> ~ entry == stop ->
   exists q, calculate_position_size self entry stop default_asset_multiplier = Ok q /\
             q == (account_balance self * risk_per_trade_percentage self) / Qabs (entry - stop))
  /\ (entry <= 0 \/ stop <= 0 \/ entry == stop ->
      calculate_position_size self entry stop default_asset_multiplier = Ok 0)
  /\ (account_balance self == 10000 -> risk_per_trade_percentage self == 0.01 ->
      exists q, calculate_position_size self 100 99 default_asset_multiplier = Ok q /\
                q == 100).
Proof.
  assert (Hmain : forall e s, 0 < e -> 0 < s -> ~ e == s ->
    exists q, calculate_position_size self e s default_asset_multiplier = Ok q /\
      q == (account_balance self * risk_per_trade_percentage self) / Qabs (e - s)).
  { intros e s He Hs Hne. unfold calculate_position_size, default_asset_multiplier.
    pose proof (Qabs_diff_pos e s Hne) as Hpos.
    destruct (Qleb s 0) eqn:E1; q_reflect; [lra|].
    destruct (Qleb e 0) eqn:E2; q_reflect; [lra|]. cbn [orb].
    destruct (Qeq_bool (Qabs (e - s)) 0) eqn:E3; q_reflect; [lra|].
    unfold py_div.
    destruct (Qeq_bool (Qabs (e - s) * 1) 0) eqn:E4; q_reflect; [lra|].
    eexists; split; [reflexivity|]. rewrite Qmult_1_r. reflexivity. }
  split; [apply Hmain | split].
  - intros H. unfold calculate_position_size.
    destruct (Qleb stop 0) eqn:E1; q_reflect; [reflexivity|].
    destruct (Qleb entry 0) eqn:E2; q_reflect; [reflexivity|]. cbn [orb].
    destruct H as [H | [H | H]]; [lra | lra |].
    destruct (Qeq_bool (Qabs (entry - stop)) 0) eqn:E3; q_reflect; [reflexivity|].
    exfalso. apply E3. rewrite Qabs_pos; lra.
  - intros Hb Hr. destruct (Hmain 100 99) as [q [Hq Hv]]; [lra | lra | lra |].
    exists q. split; [exact Hq|]. rewrite Hv, Hb, Hr. reflexivity.
Qed.

Lemma calculate_position_size_spec_witness :
  (exists q, calculate_position_size rm0 100 99 default_asset_multiplier = Ok q /\
             q == (account_balance rm0 * risk_per_trade_percentage rm0) / Qabs (100 - 99))
  /\ calculate_position_size rm0 100 100 default_asset_multiplier = Ok 0
  /\ calculate_position_size rm0 0 10 default_asset_multiplier = Ok 0
  /\ (exists q, calculate_position_size rm0 100 99 default_asset_multiplier = Ok q /\ q == 100).
Proof.
  split; [| split; [| split]].
  - apply (proj1 (calculate_position_size_spec rm0 100 99)); lra.
  - apply (proj1 (proj2 (calculate_position_size_spec rm0 100 100))).
    right; right; reflexivity.
  - apply (proj1 (proj2 (calculate_position_size_spec rm0 0 10))). left; lra.
  - apply (proj2 (proj2 (calculate_position_size_spec rm0 100 99))); reflexivity.
Defined.

(** C2: in every state of the manager, reachable ones in particular,
    [check_daily_risk_limit] answers true exactly when
    daily_loss_incurred < initial_balance * daily_risk_limit_percentage; a
    loss equal to the limit answers false. *)
Theorem check_daily_risk_limit_spec (self : RiskManager.t) :
  (check_daily_risk_limit self = true <->
   daily_loss_incurred self < initial_balance self * daily_risk_limit_percentage self)
  /\ (daily_loss_incurred self == initial_balance self * daily_risk_limit_percentage self ->
      check_daily_risk_limit self = false).
Proof.
  unfold check_daily_risk_limit. split.
  - q_if; split; intros; try lra; try reflexivity; discriminate.
  - intros Heq. q_if; [reflexivity | lra].
Qed.

Lemma check_daily_risk_limit_spec_witness :
  reachable (update_daily_loss rm0 500) /\
  check_daily_risk_limit (update_daily_loss rm0 500) = false.
Proof.
  split.
  - apply (reachable_exec (UpdateDailyLoss 500) rm0), rm0_reachable.
  - apply (proj2 (check_daily_risk_limit_spec (update_daily_loss rm0 500))).
    reflexivity.
Defined.

(** *** Daily loss bookkeeping *)

Lemma update_daily_loss_loss_le (self : RiskManager.t) (amount : Q) :
  daily_loss_incurred self <= daily_loss_incurred (update_daily_loss self amount).
Proof.
  unfold update_daily_loss. repeat q_if; cbn; lra.
Qed.

Lemma record_losses_loss_le (amounts : list Q) (self : RiskManager.t) :
  daily_loss_incurred self <= daily_loss_incurred (record_losses self amounts).
Proof.
  revert self. induction amounts as [| a amounts IH]; intros self; cbn.
  - lra.
  - eapply Qle_trans; [apply (update_daily_loss_loss_le self a) | apply IH].
Qed.

(** C4: a positive amount is added to [daily_loss_incurred] and taken off
    [account_balance]; an amount that is zero or negative leaves the whole
    state as it was, and the call returns normally; so along every sequence
    of [update_daily_loss] calls the recorded loss never goes down. *)
Theorem update_daily_loss_spec (self : RiskManager.t) (amount : Q) :
  (0 < amount ->
   daily_loss_incurred (update_daily_loss self amount) == daily_loss_incurred self + amount /\
   account_balance (update_daily_loss self amount) == account_balance self - amount)
  /\ (amount <= 0 -> update_daily_loss self amount = self)
  /\ exec (UpdateDailyLoss amount) self = (update_daily_loss self amount, Ok VNone)
  /\ (forall amounts more : list Q,
        daily_loss_incurred (record_losses self amounts) <=
        daily_loss_incurred (record_losses self (amounts ++ more))).
Proof.
  split; [| split; [| split]].
  - intros Hpos. unfold update_daily_loss.
    destruct (Qgtb amount 0) eqn:E; q_reflect; [cbn; split; reflexivity | lra].
  - intros Hle. unfold update_daily_loss.
    destruct (Qgtb amount 0) eqn:E; q_reflect; [lra |].
    destruct (Qltb amount 0); reflexivity.
  - reflexivity.
  - intros amounts more. unfold record_losses at 2. rewrite fold_left_app.
    apply record_losses_loss_le.
Qed.

Lemma update_daily_loss_spec_witness :
  (daily_loss_incurred (update_daily_loss rm0 50) == daily_loss_incurred rm0 + 50 /\
   account_balance (update_daily_loss rm0 50) == account_balance rm0 - 50)
  /\ update_daily_loss rm0 (-10) = rm0
  /\ update_daily_loss rm0 0 = rm0.
Proof.
  split; [| split].
  - apply (proj1 (update_daily_loss_spec rm0 50)). reflexivity.
  - apply (proj1 (proj2 (update_daily_loss_spec rm0 (-10)))). discriminate.
  - apply (proj1 (proj2 (update_daily_loss_spec rm0 0))). discriminate.
Defined.

(** *** Take profit *)

(** What [determine_take_profit] does on valid input away from the floor. *)
Lemma determine_take_profit_long (self : RiskManager.t) (entry stop ratio : Q) :
  0 < stop -> stop < entry -> 0 < ratio ->
  determine_take_profit self entry stop ratio = Num (entry + Qabs (entry - stop) * ratio).
Proof.
  intros Hs Hlt Hr. unfold determine_take_profit.
  destruct (Qleb entry 0) eqn:E1; q_reflect; [lra|].
  destruct (Qleb stop 0) eqn:E2; q_reflect; [lra|].
  destruct (Qleb ratio 0) eqn:E3; q_reflect; [lra|]. cbn [orb].
  destruct (Qgtb entry stop) eqn:E4; q_reflect; [reflexivity | lra].
Qed.

Lemma determine_take_profit_short (self : RiskManager.t) (entry stop ratio : Q) :
  0 < entry -> entry < stop -> 0 < ratio ->
  determine_take_profit self entry stop ratio =
    if Qltb (entry - Qabs (entry - stop) * ratio) 0 then Num (entry * 0.05)
    else Num (entry - Qabs (entry - stop) * ratio).
Proof.
  intros He Hlt Hr. unfold determine_take_profit.
  destruct (Qleb entry 0) eqn:E1; q_reflect; [lra|].
  destruct (Qleb stop 0) eqn:E2; q_reflect; [lra|].
  destruct (Qleb ratio 0) eqn:E3; q_reflect; [lra|]. cbn [orb].
  destruct (Qgtb entry stop) eqn:E4; q_reflect; [lra|].
  destruct (Qltb entry stop) eqn:E5; q_reflect; [reflexivity | lra].
Qed.

(** C6 (the code departs from the claim): with entry 100, stop 150 and
    ratio 2 the short take profit comes out as exactly 0; the code's guard
    is [take_profit_price < 0], so the value 0 is returned as it is and not
    raised to entry * 0.05 = 5.  The sibling [determine_stop_loss] does
    floor a stop that comes out as exactly 0. *)
Theorem determine_take_profit_zero_not_floored :
  (exists q, determine_take_profit rm0 100 150 2 = Num q /\ q == 0 /\ ~ q == 100 * 0.05)
  /\ (exists q, determine_stop_loss rm0 15 None (Some (Num 10)) = Num q /\ q == 15 * 0.95).
Proof.
  split.
  - exists (100 - Qabs (100 - 150) * 2). split; [reflexivity |].
    split; [reflexivity | discriminate].
  - exists (15 * 0.95). split; reflexivity.
Qed.

(** C7, as stated, fails: with entry 100, offset 60 and ratio 2 the long
    take profit is 220 (offset +120) and the short one is floored to 5
    (offset -95). *)
Lemma take_profit_antisymmetry_counterexample :
  0 < 100 /\ 0 < 60 /\ 0 < 2 /\
  ~ (exists tl ts : Q,
       determine_take_profit rm0 100 (100 - 60) 2 = Num tl /\
       determine_take_profit rm0 100 (100 + 60) 2 = Num ts /\
       tl - 100 == - (ts - 100)).
Proof.
  repeat (split; [reflexivity |]).
  intros (tl & ts & Hl & Hs & Heq).
  vm_compute in Hl, Hs. injection Hl as <-. injection Hs as <-.
  vm_compute in Heq. discriminate.
Qed.

(** C7 (amended): away from the guards the long and the short take profit
    use one distance formula with the sign flipped.  For entry > 0, offset
    0 < d < entry and ratio > 0, the long take profit (stop = entry - d) is
    entry + |entry - stop| * ratio, above the entry; and when
    entry - |entry - stop| * ratio is positive for the short stop
    (stop = entry + d), so that no floor applies, the short take profit is
    that value, below the entry.  Each distance |entry - stop| is the one
    the call computes from its own stop. *)
Theorem take_profit_antisymmetry (self : RiskManager.t) (entry d ratio : Q) :
  0 < entry -> 0 < d -> 0 < ratio -> d < entry ->
  0 < entry - Qabs (entry - (entry + d)) * ratio ->
  exists tl ts : Q,
    determine_take_profit self entry (entry - d) ratio = Num tl /\
    determine_take_profit self entry (entry + d) ratio = Num ts /\
    tl == entry + Qabs (entry - (entry - d)) * ratio /\
    ts == entry - Qabs (entry - (entry + d)) * ratio /\
    ts < entry /\ entry < tl.
Proof.
  intros He Hd Hr Hde Hfloor.
  assert (Hl : Qabs (entry - (entry - d)) == d) by (rewrite Qabs_pos; lra).
  assert (Hs : Qabs (entry - (entry + d)) == d) by (rewrite Qabs_neg; lra).
  exists (entry + Qabs (entry - (entry - d)) * ratio),
         (entry - Qabs (entry - (entry + d)) * ratio).
  split; [apply determine_take_profit_long; lra |].
  split.
  - rewrite determine_take_profit_short by lra.
    destruct (Qltb (entry - Qabs (entry - (entry + d)) * ratio) 0) eqn:E;
      [| reflexivity].
    q_reflect. lra.
  - split; [reflexivity |]. split; [reflexivity |]. rewrite Hl, Hs. split; nra.
Qed.

Lemma take_profit_antisymmetry_witness :
  exists tl ts : Q,
    determine_take_profit rm0 100 (100 - 1) 2 = Num tl /\
    determine_take_profit rm0 100 (100 + 1) 2 = Num ts /\
    tl == 100 + Qabs (100 - (100 - 1)) * 2 /\
    ts == 100 - Qabs (100 - (100 + 1)) * 2 /\
    ts < 100 /\ 100 < tl.
Proof. apply (take_profit_antisymmetry rm0 100 1 2); reflexivity. Defined.

Lemma determine_take_profit_undefined (self : RiskManager.t) (entry stop ratio : Q) :
  entry <= 0 \/ stop <= 0 \/ ratio <= 0 \/ entry == stop ->
  determine_take_profit self entry stop ratio = NaN.
Proof.
  intros H. unfold determine_take_profit.
  destruct (Qleb entry 0) eqn:E1; [reflexivity |].
  destruct (Qleb stop 0) eqn:E2; [reflexivity |].
  destruct (Qleb ratio 0) eqn:E3; [reflexivity |]. cbn [orb]. q_reflect.
  destruct H as [H | [H | [H | H]]]; try lra.
  destruct (Qgtb entry stop) eqn:E4; q_reflect; [lra |].
  destruct (Qltb entry stop) eqn:E5; q_reflect; [lra | reflexivity].
Qed.

Example determine_take_profit_short_example :
  exists q, determine_take_profit rm0 100 101 2 = Num q /\ q == 98.
Proof. eexists. split; reflexivity. Qed.

(** *** Trailing stop *)

Lemma update_trailing_stop_long (self : RiskManager.t) (price level : Q) :
  update_trailing_stop self price level true == Qmax level (price * 0.98).
Proof.
  unfold update_trailing_stop. rewrite <- py_max_Qmax. unfold py_max.
  destruct (Qgtb (price * 0.98) level) eqn:E.
  - rewrite E. reflexivity.
  - destruct (Qgtb level level); reflexivity.
Qed.

Lemma update_trailing_stop_short (self : RiskManager.t) (price level : Q) :
  update_trailing_stop self price level false == Qmin level (price * 1.02).
Proof.
  unfold update_trailing_stop. rewrite <- py_min_Qmin. unfold py_min.
  destruct (Qltb (price * 1.02) level) eqn:E.
  - rewrite E. reflexivity.
  - destruct (Qltb level level); reflexivity.
Qed.

Lemma update_trailing_stop_long_ge (self : RiskManager.t) (price level : Q) :
  level <= update_trailing_stop self price level true.
Proof. rewrite update_trailing_stop_long. apply Q.le_max_l. Qed.

Lemma update_trailing_stop_short_le (self : RiskManager.t) (price level : Q) :
  update_trailing_stop self price level false <= level.
Proof. rewrite update_trailing_stop_short. apply Q.le_min_l. Qed.

(** A price whose 2% trail does not exceed the level leaves it as it is. *)
Lemma update_trailing_stop_long_keep (self : RiskManager.t) (price level : Q) :
  price * 0.98 <= level -> update_trailing_stop self price level true = level.
Proof.
  intros Hle. unfold update_trailing_stop, py_max.
  destruct (Qgtb (price * 0.98) level) eqn:E; q_reflect; [lra |].
  destruct (Qgtb level level); reflexivity.
Qed.

Lemma trail_long_non_decreasing (self : RiskManager.t) (prices : list Q) (level : Q) :
  non_decreasing (level :: trail self true level prices).
Proof.
  unfold non_decreasing. revert level.
  induction prices as [| p prices IH]; intros level; cbn [trail].
  - repeat constructor.
  - constructor; [apply IH |].
    constructor. apply update_trailing_stop_long_ge.
Qed.

Lemma trail_short_non_increasing (self : RiskManager.t) (prices : list Q) (level : Q) :
  non_increasing (level :: trail self false level prices).
Proof.
  unfold non_increasing. revert level.
  induction prices as [| p prices IH]; intros level; cbn [trail].
  - repeat constructor.
  - constructor; [apply IH |].
    constructor. apply update_trailing_stop_short_le.
Qed.

Lemma trail_long_keep (self : RiskManager.t) (prices : list Q) (level : Q) :
  Forall (fun p => p * 0.98 <= level) prices ->
  Forall (fun l => l == level) (trail self true level prices).
Proof.
  induction 1 as [| p prices Hp _ IH]; cbn [trail]; [constructor |].
  rewrite (update_trailing_stop_long_keep self p level Hp).
  constructor; [reflexivity | exact IH].
Qed.

Lemma strictly_decreasing_head (p : Q) (prices : list Q) :
  strictly_decreasing (p :: prices) -> Forall (fun q => q <= p) prices.
Proof.
  revert p. induction prices as [| q prices IH]; intros p Hs; [constructor |].
  apply Sorted_inv in Hs as [Hs Hhd]. apply HdRel_inv in Hhd.
  constructor; [lra |].
  eapply Forall_impl; [apply (IH q Hs) |]. cbn. intros; lra.
Qed.

(** C3, as stated, fails in its second part: a long stop at 50 is moved to
    98 by the first price of the strictly decreasing sequence 100, 90. *)
Lemma trailing_stop_decreasing_counterexample :
  strictly_decreasing [100; 90] /\
  ~ Forall (fun l => l == 50) (trail rm0 true 50 [100; 90]).
Proof.
  split.
  - repeat constructor.
  - intros H. apply Forall_inv in H. vm_compute in H. discriminate.
Qed.

(** C3 (amended): [update_trailing_stop] is a ratchet.  Long: it returns
    max(level, price * 0.98), so along every price sequence, strictly
    increasing ones included, the successive levels never go down; along a
    strictly decreasing price sequence the level is no longer changed once
    it is at or above 0.98 times the first price, hence from the second
    price on in any case.  Short: it returns min(level, price * 1.02) and
    never goes above the current level. *)
Theorem update_trailing_stop_ratchet (self : RiskManager.t) :
  (forall price level,
     update_trailing_stop self price level true == Qmax level (price * 0.98))
  /\ (forall level prices,
        strictly_increasing prices ->
        non_decreasing (level :: trail self true level prices))
  /\ (forall level prices,
        non_decreasing (level :: trail self true level prices))
  /\ (forall level p prices,
        strictly_decreasing (p :: prices) -> p * 0.98 <= level ->
        Forall (fun l => l == level) (trail self true level (p :: prices)))
  /\ (forall level p prices,
        strictly_decreasing (p :: prices) ->
        Forall (fun l => l == update_trailing_stop self p level true)
               (trail self true level (p :: prices)))
  /\ (forall price level,
        update_trailing_stop self price level false == Qmin level (price * 1.02) /\
        update_trailing_stop self price level false <= level)
  /\ (forall level prices,
        non_increasing (level :: trail self false level prices)).
Proof.
  split; [intros; apply update_trailing_stop_long |].
  split; [intros; apply trail_long_non_decreasing |].
  split; [intros; apply trail_long_non_decreasing |].
  split; [| split; [| split]].
  - intros level p prices Hdec Hle. apply trail_long_keep.
    constructor; [exact Hle |].
    eapply Forall_impl; [apply (strictly_decreasing_head p prices Hdec) |].
    cbn. intros; lra.
  - intros level p prices Hdec. cbn [trail]. constructor; [reflexivity |].
    apply trail_long_keep.
    pose proof (update_trailing_stop_long self p level) as Hmax.
    pose proof (Q.le_max_r level (p * 0.98)) as Hr.
    eapply Forall_impl; [apply (strictly_decreasing_head p prices Hdec) |].
    cbn. intros q Hq. rewrite Hmax. lra.
  - intros price level. split;
      [apply update_trailing_stop_short | apply update_trailing_stop_short_le].
  - intros; apply trail_short_non_increasing.
Qed.

Lemma update_trailing_stop_ratchet_witness :
  non_decreasing (98 :: trail rm0 true 98 [100; 105; 110])
  /\ Forall (fun l => l == 98) (trail rm0 true 98 [100; 95; 90])
  /\ Forall (fun l => l == update_trailing_stop rm0 100 50 true)
            (trail rm0 true 50 [100; 90]).
Proof.
  split; [| split].
  - apply (proj1 (proj2 (update_trailing_stop_ratchet rm0)) 98 [100; 105; 110]).
    repeat constructor.
  - apply (proj1 (proj2 (proj2 (proj2 (update_trailing_stop_ratchet rm0)))) 98 100 [95; 90]).
    + repeat constructor.
    + discriminate.
  - apply (proj1 (proj2 (proj2 (proj2 (proj2 (update_trailing_stop_ratchet rm0))))) 50 100 [90]).
    repeat constructor.
Defined.

(** *** Positivity of the balance *)

Lemma exec_balance_le (c : call) (self : RiskManager.t) :
  account_balance (fst (exec c self)) <= account_balance self.
Proof.
  destruct c; cbn; try lra.
  unfold update_daily_loss. repeat q_if; cbn; lra.
Qed.

Lemma run_balance_le (cs : list call) (self : RiskManager.t) :
  account_balance (run cs self) <= account_balance self.
Proof.
  revert self. induction cs as [| c cs IH]; intros self; cbn.
  - lra.
  - eapply Qle_trans; [apply IH | apply exec_balance_le].
Qed.

Lemma init_balance_pos (b r d : Q) (s : RiskManager.t) :
  RiskManager.__init__ b r d = Ok s -> 0 < account_balance s.
Proof.
  unfold RiskManager.__init__.
  destruct (negb (Qltb 0 r && Qleb r 1)); [discriminate |].
  destruct (negb (Qltb 0 d && Qleb d 1)); [discriminate |].
  destruct (Qleb b 0) eqn:Hb; [discriminate |].
  intros [= <-]. cbn. q_reflect. exact Hb.
Qed.

(** C10: [__init__] only builds a manager with a positive balance, yet a
    reachable state and one [update_daily_loss] call with an amount at least
    the balance leave the balance at or below zero; this holds in every
    state; afterwards no call raises the balance, so it stays at or below
    zero along every sequence of calls, and no call answers with the
    validation error of the constructor. *)
Theorem account_balance_positivity_not_preserved :
  (forall b r d s, RiskManager.__init__ b r d = Ok s -> 0 < account_balance s)
  /\ (exists s amount,
        reachable s /\ 0 < account_balance s /\ account_balance s <= amount /\
        account_balance (update_daily_loss s amount) <= 0)
  /\ (forall s amount,
        account_balance s <= amount -> account_balance (update_daily_loss s amount) <= 0)
  /\ (forall cs s, account_balance s <= 0 -> account_balance (run cs s) <= 0)
  /\ (forall c s msg, snd (exec c s) <> Raise (ValueError msg)).
Proof.
  split; [exact init_balance_pos |].
  split; [| split; [| split]].
  - exists rm0, 10000. split; [apply rm0_reachable |].
    repeat split; cbn; discriminate.
  - intros s amount Hle. unfold update_daily_loss. repeat q_if; cbn; lra.
  - intros cs s Hle. eapply Qle_trans; [apply run_balance_le | exact Hle].
  - intros c s msg. destruct c; cbn; try discriminate.
    unfold calculate_position_size, py_div.
    repeat (match goal with
            | |- context [if ?c then _ else _] => destruct c
            end; cbn; try discriminate).
Qed.

Lemma account_balance_positivity_not_preserved_witness :
  0 < account_balance rm0
  /\ account_balance (update_daily_loss rm0 10000) <= 0
  /\ account_balance
       (run [ResetDailyLoss; UpdateDailyLoss 5; CheckDailyRiskLimit;
             CalculatePositionSize 100 99 1]
            (update_daily_loss rm0 10000)) <= 0.
Proof.
  pose proof account_balance_positivity_not_preserved as (Hinit & _ & Hdrop & Hstay & _).
  split; [apply (Hinit 10000 0.01 0.05 rm0); reflexivity |].
  split; [apply (Hdrop rm0 10000); discriminate |].
  apply Hstay. apply (Hdrop rm0 10000); discriminate.
Defined.

(** ** AdaptabilityManager *)


Lemma get_is_true (d : conditions) (key v : string) :
  d !! key = Some v -> get_is d key v = true.
Proof. intros H. unfold get_is. apply bool_decide_eq_true. exact H. Qed.

Lemma assign_regime_lookup (mc : conditions) (t v : string) :
  mc !! "trend" = Some t -> mc !! "volatility" = Some v ->
  assign_regime mc = <["regime" := regime_of t v]> mc.
Proof.
  intros Ht Hv. unfold assign_regime, regime_of, get_is. rewrite Ht, Hv.
  repeat match goal with
    | |- context [bool_decide (Some ?a = Some ?b)] =>
        replace (bool_decide (Some a = Some b)) with (String.eqb a b)
          by (destruct (String.eqb_spec a b);
              [subst; symmetry; apply bool_decide_eq_true; reflexivity
              | symmetry; apply bool_decide_eq_false; congruence])
    end.
  repeat match goal with
    | |- context [if ?c then _ else _] => destruct c; [reflexivity |]
    end.
  reflexivity.
Qed.

(** C8, as stated, fails: for trend trending and volatility high the regime
    is TRENDING_HIGH_VOL, but the stop-loss multiplier suggested for it is
    the product 1.5 * 1.2, not 0.96 (0.8 is the risk-per-trade multiplier,
    which the volatility adjustment does not touch). *)
Lemma trending_high_vol_stop_loss_counterexample :
  let mc : conditions := <["trend" := "trending"]> {["volatility" := "high"]} in
  assign_regime mc !! "regime" = Some "TRENDING_HIGH_VOL" /\
  ~ (exists q, suggest_strategy_adjustment default_manager (assign_regime mc)
                 !! "stop_loss_multiplier" = Some (Float q) /\ q == 0.96).
Proof.
  split; [reflexivity |].
  intros (q & Hq & Heq). vm_compute in Hq. injection Hq as <-.
  vm_compute in Heq. discriminate.
Qed.

(** C8 (amended): for conditions with trend trending and volatility high
    the regime assigned is TRENDING_HIGH_VOL, and the adjustment suggested
    for them has strategy type trend_following, risk-per-trade multiplier
    0.8, take-profit multiplier 2.0 and, as stop-loss multiplier, the
    product 1.5 * 1.2 of the table's 1.5 and the factor for high
    volatility, which is above 1.5 and so is not 0.96. *)
Theorem trending_high_vol_adjustment (self : AdaptabilityManager.t) (mc : conditions) :
  mc !! "trend" = Some "trending" -> mc !! "volatility" = Some "high" ->
  assign_regime mc !! "regime" = Some "TRENDING_HIGH_VOL" /\
  exists risk sl tp : Q,
    let adj := suggest_strategy_adjustment self (assign_regime mc) in
    adj !! "strategy_type" = Some (Str "trend_following") /\
    adj !! "risk_per_trade_multiplier" = Some (Float risk) /\ risk == 0.8 /\
    adj !! "stop_loss_multiplier" = Some (Float sl) /\ sl == 1.5 * 1.2 /\
    1.5 < sl /\ ~ sl == 0.96 /\
    adj !! "take_profit_multiplier" = Some (Float tp) /\ tp == 2.0.
Proof.
  intros Ht Hv. rewrite (assign_regime_lookup mc _ _ Ht Hv).
  change (regime_of "trending" "high") with "TRENDING_HIGH_VOL".
  split; [apply lookup_insert_eq |].
  exists 0.8, (1.5 * 1.2), 2.0. cbn zeta.
  unfold suggest_strategy_adjustment.
  rewrite lookup_insert_eq, lookup_insert_ne by discriminate. rewrite Hv.
  cbn [default]. vm_compute. repeat split; (reflexivity || discriminate).
Qed.

Lemma trending_high_vol_adjustment_witness :
  let mc : conditions := <["trend" := "trending"]> {["volatility" := "high"]} in
  assign_regime mc !! "regime" = Some "TRENDING_HIGH_VOL" /\
  exists risk sl tp : Q,
    let adj := suggest_strategy_adjustment default_manager (assign_regime mc) in
    adj !! "strategy_type" = Some (Str "trend_following") /\
    adj !! "risk_per_trade_multiplier" = Some (Float risk) /\ risk == 0.8 /\
    adj !! "stop_loss_multiplier" = Some (Float sl) /\ sl == 1.5 * 1.2 /\
    1.5 < sl /\ ~ sl == 0.96 /\
    adj !! "take_profit_multiplier" = Some (Float tp) /\ tp == 2.0.
Proof.
  apply (trending_high_vol_adjustment default_manager
           (<["trend" := "trending"]> {["volatility" := "high"]})); reflexivity.
Defined.

(** *** Classification never raises *)

Lemma has_column_setitem (df : DataFrame) (col : string) (s : Series) :
  has_column col (setitem df col s) = true.
Proof. unfold has_column. apply bool_decide_eq_true. cbn. set_solver. Qed.

Lemma has_column_setitem_other (df : DataFrame) (col col' : string) (s : Series) :
  has_column col df = true -> has_column col (setitem df col' s) = true.
Proof.
  unfold has_column. rewrite !bool_decide_eq_true. cbn. set_solver.
Qed.

Lemma getitem_has_column (df : DataFrame) (col : string) :
  has_column col df = true -> getitem df col = Ok (cell col <$> rows df).
Proof. intros H. unfold getitem. rewrite H. reflexivity. Qed.

Lemma cells_setitem_other (df : DataFrame) (col col' : string) (s : Series) :
  col <> col' ->
  cell col <$> rows (setitem df col' s) = cell col <$> rows df.
Proof.
  intros Hne. cbn. apply list_eq. intros i.
  rewrite !list_lookup_fmap, list_lookup_imap.
  destruct (rows df !! i) as [r |]; [| reflexivity]. cbn. f_equal.
  unfold cell. rewrite lookup_insert_ne by congruence. reflexivity.
Qed.

Lemma getitem_setitem_other (df : DataFrame) (col col' : string) (s : Series) :
  col <> col' -> has_column col df = true ->
  getitem (setitem df col' s) col = getitem df col.
Proof.
  intros Hne Hcol.
  rewrite !getitem_has_column by (try apply has_column_setitem_other; exact Hcol).
  rewrite cells_setitem_other by exact Hne. reflexivity.
Qed.

Lemma guarded_iloc_last (s : Series) :
  (if negb (series_empty s) then series_iloc_last s else Ok NaN) = Ok (latest s).
Proof.
  unfold latest, series_iloc_last. destruct s as [| x s]; [reflexivity |].
  cbn [series_empty negb]. destruct (last (x :: s)) eqn:E; [reflexivity |].
  apply last_None in E. discriminate.
Qed.

Section AnalyzeProps.

Variable average_true_range : Series -> Series -> Series -> nat -> result Series.
Variable adx : Series -> Series -> Series -> nat -> result Series.

Local Abbreviation analyze_try := (AdaptabilityManager.analyze_try average_true_range adx).
Local Abbreviation analyze_market_conditions :=
  (AdaptabilityManager.analyze_market_conditions average_true_range adx).

Lemma analyze_try_unfold (self : AdaptabilityManager.t) (data : DataFrame) :
  has_column "high" data = true ->
  has_column "low" data = true ->
  has_column "close" data = true ->
  let high := cell "high" <$> rows data in
  let low := cell "low" <$> rows data in
  let close := cell "close" <$> rows data in
  analyze_try self data =
    (let* atr := average_true_range high low close 14 in
     let* adx_series := adx high low close 14 in
     Ok (classified
           (trend_label self
              (latest (cell "ADX" <$> rows (setitem (setitem data "ATR" atr) "ADX" adx_series))))
           (volatility_label self
              (latest (cell "ATR" <$> rows (setitem data "ATR" atr)))
              (latest close)))).
Proof.
  intros Hh Hl Hc. cbn zeta. unfold AdaptabilityManager.analyze_try.
  rewrite !getitem_has_column by assumption. cbn [bind].
  destruct (average_true_range _ _ _ _) as [atr | e]; [| reflexivity]. cbn [bind].
  rewrite (getitem_has_column (setitem data "ATR" atr) "ATR") by apply has_column_setitem.
  cbn [bind]. rewrite guarded_iloc_last. cbn [bind].
  rewrite !getitem_setitem_other by (assumption || discriminate).
  rewrite !getitem_has_column by assumption. cbn [bind].
  rewrite guarded_iloc_last. cbn [bind].
  destruct (adx _ _ _ _) as [adx_series | e]; [| reflexivity]. cbn [bind].
  rewrite getitem_has_column by apply has_column_setitem. cbn [bind].
  rewrite guarded_iloc_last. cbn [bind]. f_equal.
  unfold classified, trend_label, volatility_label.
  set (la := latest (cell "ATR" <$> _)).
  set (lc := latest (cell "close" <$> _)).
  set (lx := latest (cell "ADX" <$> _)).
  destruct (negb (isnan la) && negb (isnan lc) && pf_ne lc (Num 0));
    destruct (negb (isnan lx));
    repeat match goal with
      | |- context [if pf_gt ?a ?b then _ else _] => destruct (pf_gt a b)
      end;
    reflexivity.
Qed.

Lemma required_cols_forallb (data : DataFrame) :
  forallb (fun col => has_column col data) required_cols = true <->
  (forall col, col ∈ required_cols -> has_column col data = true).
Proof.
  rewrite forallb_forall. split; intros H col Hcol; apply H.
  - apply list_elem_of_In, Hcol.
  - apply list_elem_of_In, Hcol.
Qed.

Lemma regime_of_labels (trend volatility : string) :
  trend ∈ trend_labels -> volatility ∈ volatility_labels ->
  (regime_of trend volatility ∈ pair_tags \/ regime_of trend volatility = "UNCERTAIN") /\
  (regime_of trend volatility = "UNCERTAIN" <-> trend = "unknown" \/ volatility = "unknown").
Proof.
  unfold trend_labels, volatility_labels, pair_tags. intros Ht Hv.
  repeat (apply elem_of_cons in Ht as [-> | Ht]);
    repeat (apply elem_of_cons in Hv as [-> | Hv]);
    try (apply elem_of_nil in Ht; contradiction);
    try (apply elem_of_nil in Hv; contradiction);
    cbn; (split; [set_solver | split; [intros; try discriminate; auto | intros [? | ?]; (discriminate || reflexivity)]]).
Qed.

Lemma trend_label_in (self : AdaptabilityManager.t) (x : pyfloat) :
  trend_label self x ∈ trend_labels.
Proof.
  unfold trend_label, trend_labels.
  destruct (negb (isnan x)); [destruct (pf_gt _ _) |]; set_solver.
Qed.

Lemma volatility_label_in (self : AdaptabilityManager.t) (x y : pyfloat) :
  volatility_label self x y ∈ volatility_labels.
Proof.
  unfold volatility_label, volatility_labels.
  destruct (_ && _); [destruct (pf_gt _ _) |]; set_solver.
Qed.

(** C5: [analyze_market_conditions] always returns a dictionary, whatever
    the indicator functions do.  For an empty frame, or one without a high,
    low or close column, it is {regime: UNKNOWN}.  Otherwise, when the ATR
    or the ADX computation raises, it is exactly {regime: UNKNOWN,
    volatility: unknown, trend: unknown}; when both return, it holds a trend
    label, a volatility label and the regime of that pair: one of the four
    pair tags, or UNCERTAIN exactly when one of the two labels is unknown. *)
Theorem analyze_market_conditions_never_raises
    (self : AdaptabilityManager.t) (data : DataFrame) :
  exists mc : conditions,
    analyze_market_conditions self data = Ok mc /\
    (empty data = true \/
     (exists col, col ∈ ["high"; "low"; "close"] /\ has_column col data = false) ->
     mc = {["regime" := "UNKNOWN"]}) /\
    (empty data = false ->
     (forall col, col ∈ ["high"; "low"; "close"] -> has_column col data = true) ->
     let high := cell "high" <$> rows data in
     let low := cell "low" <$> rows data in
     let close := cell "close" <$> rows data in
     match average_true_range high low close 14 with
     | Raise _ =>
         mc = <["regime" := "UNKNOWN"]>
                (<["volatility" := "unknown"]> {["trend" := "unknown"]})
     | Ok _ =>
         match adx high low close 14 with
         | Raise _ =>
             mc = <["regime" := "UNKNOWN"]>
                    (<["volatility" := "unknown"]> {["trend" := "unknown"]})
         | Ok _ =>
             exists trend volatility : string,
               trend ∈ ["trending"; "ranging"; "unknown"] /\
               volatility ∈ ["high"; "low"; "unknown"] /\
               mc = <["regime" := regime_of trend volatility]>
                      (<["trend" := trend]> (<["volatility" := volatility]> ∅)) /\
               (regime_of trend volatility ∈
                  ["TRENDING_HIGH_VOL"; "TRENDING_LOW_VOL";
                   "RANGING_HIGH_VOL"; "RANGING_LOW_VOL"] \/
                regime_of trend volatility = "UNCERTAIN") /\
               (regime_of trend volatility = "UNCERTAIN" <->
                trend = "unknown" \/ volatility = "unknown")
         end
     end).
Proof.
  unfold AdaptabilityManager.analyze_market_conditions.
  destruct (empty data) eqn:Hempty.
  { exists unknown_regime. split; [reflexivity |].
    split; [reflexivity | discriminate]. }
  destruct (forallb (fun col => has_column col data) required_cols) eqn:Hcols;
    cbn [negb].
  2:{ exists unknown_regime. split; [reflexivity |]. split; [reflexivity |].
      intros _ Hall. apply required_cols_forallb in Hall. congruence. }
  pose proof (proj1 (required_cols_forallb data) Hcols) as Hall.
  assert (Hh : has_column "high" data = true) by (apply Hall; set_solver).
  assert (Hl : has_column "low" data = true) by (apply Hall; set_solver).
  assert (Hc : has_column "close" data = true) by (apply Hall; set_solver).
  rewrite (analyze_try_unfold self data Hh Hl Hc). cbn zeta.
  destruct (average_true_range _ _ _ _) as [atr | e] eqn:Hatr; cbn [bind try_except].
  2:{ eexists. split; [reflexivity |]. split.
      - intros [? | (col & Hin & Hno)]; [discriminate |].
        rewrite (Hall col Hin) in Hno. discriminate.
      - intros _ _. reflexivity. }
  destruct (adx _ _ _ _) as [adx_series | e] eqn:Hadx; cbn [bind try_except].
  2:{ eexists. split; [reflexivity |]. split.
      - intros [? | (col & Hin & Hno)]; [discriminate |].
        rewrite (Hall col Hin) in Hno. discriminate.
      - intros _ _. reflexivity. }
  eexists. split; [reflexivity |]. split.
  - intros [? | (col & Hin & Hno)]; [discriminate |].
    rewrite (Hall col Hin) in Hno. discriminate.
  - intros _ _. eexists _, _.
    split; [apply trend_label_in |]. split; [apply volatility_label_in |].
    split; [reflexivity |].
    apply regime_of_labels; [apply trend_label_in | apply volatility_label_in].
Qed.

End AnalyzeProps.

Lemma analyze_market_conditions_never_raises_witness :
  (exists mc : conditions,
     analyze_market_conditions sample_atr sample_adx default_manager
       {| columns := ∅; rows := [] |} = Ok mc /\
     mc = {["regime" := "UNKNOWN"]})
  /\ (exists mc : conditions,
        analyze_market_conditions sample_atr failing_adx default_manager sample_frame = Ok mc /\
        mc = <["regime" := "UNKNOWN"]>
               (<["volatility" := "unknown"]> {["trend" := "unknown"]}))
  /\ (exists mc : conditions,
        analyze_market_conditions sample_atr sample_adx default_manager sample_frame = Ok mc /\
        mc !! "regime" = Some "TRENDING_HIGH_VOL").
Proof.
  assert (Hcols : forall col, col ∈ ["high"; "low"; "close"] ->
                              has_column col sample_frame = true).
  { apply required_cols_forallb. reflexivity. }
  split; [| split].
  - destruct (analyze_market_conditions_never_raises sample_atr sample_adx default_manager
                {| columns := ∅; rows := [] |}) as (mc & Hok & Hdeg & _).
    exists mc. split; [exact Hok |]. apply Hdeg. left. reflexivity.
  - destruct (analyze_market_conditions_never_raises sample_atr failing_adx default_manager
                sample_frame) as (mc & Hok & _ & Hmain).
    exists mc. split; [exact Hok |]. exact (Hmain eq_refl Hcols).
  - destruct (analyze_market_conditions_never_raises sample_atr sample_adx default_manager
                sample_frame) as (mc & Hok & _ & Hmain).
    exists mc. split; [exact Hok |].
    specialize (Hmain eq_refl Hcols). cbn zeta in Hmain.
    change (exists trend volatility : string,
              trend ∈ ["trending"; "ranging"; "unknown"] /\
              volatility ∈ ["high"; "low"; "unknown"] /\
              mc = <["regime" := regime_of trend volatility]>
                     (<["trend" := trend]> (<["volatility" := volatility]> ∅)) /\
              (regime_of trend volatility ∈
                 ["TRENDING_HIGH_VOL"; "TRENDING_LOW_VOL";
                  "RANGING_HIGH_VOL"; "RANGING_LOW_VOL"] \/
               regime_of trend volatility = "UNCERTAIN") /\
              (regime_of trend volatility = "UNCERTAIN" <->
               trend = "unknown" \/ volatility = "unknown")) in Hmain.
    destruct Hmain as (trend & volatility & _ & _ & Hmc & _ & _).
    assert (Hrun : analyze_market_conditions sample_atr sample_adx default_manager sample_frame
                   = Ok (classified "trending" "high")) by (vm_compute; reflexivity).
    rewrite Hrun in Hok. injection Hok as <-. reflexivity.
Defined.

(** ** CombinedStrategy *)


(** *** Rolling windows over a series of numbers *)

Lemma window_nums (n : nat) (xs : list Q) (i : nat) :
  window n (Num <$> xs) i = recent n xs i.
Proof.
  unfold window, recent. rewrite length_fmap.
  destruct (bool_decide _); [| reflexivity].
  rewrite <- fmap_drop, <- fmap_take. apply mapM_fmap_Some. reflexivity.
Qed.

Lemma rolling_nums_lookup (n : nat) (agg : list Q -> Q) (xs : list Q) (i : nat) :
  (i < length xs)%nat ->
  rolling n agg (Num <$> xs) !! i = Some (opt_num (agg <$> recent n xs i)).
Proof.
  intros Hi. unfold rolling. rewrite list_lookup_fmap, length_fmap.
  rewrite lookup_seq_lt by exact Hi. cbn. rewrite window_nums.
  destruct (recent n xs i); reflexivity.
Qed.

Lemma sma_indicator_lookup (n : nat) (xs : list Q) (i : nat) :
  (i < length xs)%nat ->
  sma_indicator (Num <$> xs) n !! i = Some (opt_num (sma n xs i)).
Proof. apply rolling_nums_lookup. Qed.

Lemma swing_high_lookup (n : nat) (xs : list Q) (i : nat) :
  (i < length xs)%nat ->
  series_eq_int (rolling_max n (Num <$> xs)) (Num <$> xs) !! i =
    Some (flag (swing_high n xs i)).
Proof.
  intros Hi. unfold series_eq_int, rolling_max, swing_high.
  rewrite lookup_zip_with, rolling_nums_lookup by exact Hi.
  rewrite list_lookup_fmap.
  destruct (lookup_lt_is_Some_2 xs i Hi) as [x Hx]. rewrite Hx. cbn.
  destruct (recent n xs i); reflexivity.
Qed.

Lemma swing_low_lookup (n : nat) (xs : list Q) (i : nat) :
  (i < length xs)%nat ->
  series_eq_int (rolling_min n (Num <$> xs)) (Num <$> xs) !! i =
    Some (flag (swing_low n xs i)).
Proof.
  intros Hi. unfold series_eq_int, rolling_min, swing_low.
  rewrite lookup_zip_with, rolling_nums_lookup by exact Hi.
  rewrite list_lookup_fmap.
  destruct (lookup_lt_is_Some_2 xs i Hi) as [x Hx]. rewrite Hx. cbn.
  destruct (recent n xs i); reflexivity.
Qed.

(** *** Frames whose rows are computed from a bar series *)

Lemma bars_frame_indexed (bars : list Bar) :
  bars_frame bars =
    indexed_frame {["open"; "high"; "low"; "close"; "volume"]} (fun _ => bar_row) bars.
Proof.
  unfold bars_frame, indexed_frame. f_equal. symmetry. apply imap_const.
Qed.

Lemma getitem_indexed (cols : gset string) (f : nat -> Bar -> Row) (bars : list Bar)
    (col : string) (field : Bar -> Q) :
  col ∈ cols ->
  (forall i b, cell col (f i b) = Num (field b)) ->
  getitem (indexed_frame cols f bars) col = Ok (Num <$> (field <$> bars)).
Proof.
  intros Hcol Hcell. unfold getitem, has_column. cbn.
  rewrite bool_decide_eq_true_2 by exact Hcol. f_equal.
  rewrite fmap_imap, <- list_fmap_compose.
  rewrite <- imap_const. apply imap_ext. intros i b _. cbn. apply Hcell.
Qed.

Lemma setitem_indexed (cols : gset string) (f : nat -> Bar -> Row) (bars : list Bar)
    (col : string) (s : Series) (v : nat -> pyfloat) :
  (forall i, (i < length bars)%nat -> s !! i = Some (v i)) ->
  setitem (indexed_frame cols f bars) col s =
    indexed_frame ({[col]} ∪ cols) (fun i b => <[col := v i]> (f i b)) bars.
Proof.
  intros Hs. unfold setitem, indexed_frame. cbn. f_equal.
  apply list_eq. intros i. rewrite !list_lookup_imap.
  destruct (bars !! i) as [b |] eqn:Hb; [| reflexivity]. cbn.
  rewrite (Hs i) by (eapply lookup_lt_Some; exact Hb). reflexivity.
Qed.

Lemma has_column_indexed (cols : gset string) (f : nat -> Bar -> Row) (bars : list Bar)
    (col : string) :
  col ∈ cols -> has_column col (indexed_frame cols f bars) = true.
Proof. intros H. apply bool_decide_eq_true. exact H. Qed.

Ltac frame_side :=
  first [ solve [intros; reflexivity]
        | solve [set_solver]
        | solve [intros; first [apply sma_indicator_lookup
                               | apply swing_high_lookup
                               | apply swing_low_lookup];
                 rewrite length_fmap; assumption] ].

Ltac frame_get field :=
  rewrite (getitem_indexed _ _ _ _ field) by frame_side; cbn [bind].

Ltac frame_set v :=
  rewrite (setitem_indexed _ _ _ _ _ v) by frame_side.

Ltac frame_has :=
  rewrite has_column_indexed by frame_side.

Lemma analyses_bars (bars : list Bar) :
  (let* data := _analyze_pvg CombinedStrategy.__init__ (bars_frame bars) in
   let* data := _analyze_smc CombinedStrategy.__init__ data in
   _analyze_tpr CombinedStrategy.__init__ data)
  = Ok (indexed_frame processed_columns (processed_row bars) bars).
Proof.
  rewrite bars_frame_indexed.
  unfold _analyze_pvg, CombinedStrategy.__init__; cbn [pvg_short_period pvg_long_period].
  frame_has. frame_get bar_close.
  frame_set (fun i => opt_num (sma 14 (bar_close <$> bars) i)).
  frame_get bar_close.
  frame_set (fun i => opt_num (sma 50 (bar_close <$> bars) i)).
  cbn [bind].
  unfold _analyze_smc; cbn [smc_lookback].
  do 2 frame_has. cbn [andb]. frame_get bar_high.
  frame_set (fun i => flag (swing_high 20 (bar_high <$> bars) i)).
  frame_get bar_low.
  frame_set (fun i => flag (swing_low 20 (bar_low <$> bars) i)).
  cbn [bind].
  unfold _analyze_tpr; cbn [tpr_volume_period].
  frame_has. frame_get bar_volume.
  frame_set (fun i => opt_num (sma 20 (bar_volume <$> bars) i)).
  reflexivity.
Qed.

(** *** Dropping the rows with an undefined value *)

Lemma processed_rows_seq (bars : list Bar) :
  imap (processed_row bars) bars = row_at bars <$> seq 0 (length bars).
Proof.
  apply list_eq. intros i. rewrite list_lookup_imap, list_lookup_fmap.
  unfold row_at. destruct (bars !! i) as [b |] eqn:Hb; cbn.
  - rewrite lookup_seq_lt by (eapply lookup_lt_Some; exact Hb). cbn.
    rewrite Hb. reflexivity.
  - rewrite lookup_seq_ge by (apply lookup_ge_None; exact Hb). reflexivity.
Qed.

Lemma filter_fmap_list {A B : Type} (f : A -> B) (P : B -> Prop)
    `{!forall y, Decision (P y)} (l : list A) :
  filter P (f <$> l) = f <$> filter (fun x => P (f x)) l.
Proof.
  induction l as [| x l IH]; [reflexivity |].
  rewrite fmap_cons, !filter_cons. destruct (decide (P (f x))); rewrite IH; reflexivity.
Qed.

Lemma filter_ext_elem {A : Type} (P1 P2 : A -> Prop)
    `{!forall x, Decision (P1 x)} `{!forall x, Decision (P2 x)} (l : list A) :
  (forall x, x ∈ l -> P1 x <-> P2 x) -> filter P1 l = filter P2 l.
Proof.
  induction l as [| x l IH]; intros Hext; [reflexivity |].
  rewrite !filter_cons.
  rewrite IH by (intros y Hy; apply Hext; right; exact Hy).
  pose proof (Hext x ltac:(left)) as Hx.
  destruct (decide (P1 x)), (decide (P2 x)); tauto.
Qed.

Lemma isnan_opt_num (o : option Q) : isnan (opt_num o) = false <-> is_Some o.
Proof.
  destruct o; cbn; split; intros H; try reflexivity; try discriminate.
  - eexists; reflexivity.
  - destruct H as [? H]; discriminate.
Qed.

Lemma isnan_flag (b : bool) : isnan (flag b) = false.
Proof. destruct b; reflexivity. Qed.

Lemma no_nan_processed_row (bars : list Bar) (i : nat) (b : Bar) :
  no_nan (processed_row bars i b) <-> indicators_defined bars i.
Proof.
  unfold no_nan, processed_row, bar_row, indicators_defined.
  rewrite !map_Forall_insert by reflexivity. rewrite map_Forall_singleton.
  rewrite !isnan_opt_num, !isnan_flag. cbn [isnan]. tauto.
Qed.

Lemma dropna_processed (bars : list Bar) :
  rows (dropna (indexed_frame processed_columns (processed_row bars) bars)) =
    row_at bars <$> retained bars.
Proof.
  cbn [dropna rows indexed_frame]. rewrite processed_rows_seq, filter_fmap_list.
  f_equal. unfold retained. apply filter_ext_elem. intros i Hi.
  apply elem_of_seq in Hi as [_ Hi]. cbn in Hi.
  destruct (lookup_lt_is_Some_2 bars i Hi) as [b Hb].
  unfold row_at. rewrite Hb. apply no_nan_processed_row.
Qed.

Lemma retained_elem (bars : list Bar) (i : nat) :
  i ∈ retained bars -> (i < length bars)%nat /\ indicators_defined bars i.
Proof.
  unfold retained. intros Hi. apply list_elem_of_filter in Hi as [Hdef Hseq].
  apply elem_of_seq in Hseq as [_ Hlt]. split; [exact Hlt | exact Hdef].
Qed.

Lemma processed_row_cells (bars : list Bar) (i : nat) (b : Bar) :
  let r := processed_row bars i b in
  r !! "PVG_SMA_Short" = Some (opt_num (sma 14 (bar_close <$> bars) i)) /\
  r !! "PVG_SMA_Long" = Some (opt_num (sma 50 (bar_close <$> bars) i)) /\
  r !! "SMC_Swing_High" = Some (flag (swing_high 20 (bar_high <$> bars) i)) /\
  r !! "SMC_Swing_Low" = Some (flag (swing_low 20 (bar_low <$> bars) i)) /\
  r !! "TPR_Volume_SMA" = Some (opt_num (sma 20 (bar_volume <$> bars) i)) /\
  r !! "close" = Some (Num (bar_close b)).
Proof. repeat split; reflexivity. Qed.

Lemma pf_eq_flag (b : bool) : pf_eq (flag b) (Num 1) = b.
Proof. destruct b; reflexivity. Qed.

(** The rule read off as conditions on the bar it is evaluated on. *)
Lemma signal_rule_cases (bars : list Bar) (i : nat) (bar : Bar) (short long vol : Q) :
  last (retained bars) = Some i ->
  bars !! i = Some bar ->
  sma 14 (bar_close <$> bars) i = Some short ->
  sma 50 (bar_close <$> bars) i = Some long ->
  sma 20 (bar_volume <$> bars) i = Some vol ->
  let buy := long < short /\ swing_low 20 (bar_low <$> bars) i = true /\
             long < bar_close bar /\ 0 < vol in
  let sell := short < long /\ swing_high 20 (bar_high <$> bars) i = true /\
              bar_close bar < long /\ 0 < vol in
  (signal_rule bars = "BUY" <-> buy) /\
  (signal_rule bars = "SELL" <-> ~ buy /\ sell) /\
  (signal_rule bars = "HOLD" <-> ~ buy /\ ~ sell).
Proof.
  intros Hlast Hbar Hs Hl Hv. cbn zeta. unfold signal_rule.
  rewrite Hlast, Hbar, Hs, Hl, Hv.
  destruct (Qgtb short long) eqn:E1, (swing_low 20 (bar_low <$> bars) i) eqn:E2,
    (Qgtb (bar_close bar) long) eqn:E3, (Qgtb vol 0) eqn:E4,
    (Qltb short long) eqn:E5, (swing_high 20 (bar_high <$> bars) i) eqn:E6,
    (Qltb (bar_close bar) long) eqn:E7;
    q_reflect; cbn [andb];
    repeat split; intros; try discriminate; try reflexivity;
    try tauto; try lra;
    repeat match goal with
      | H : _ /\ _ |- _ => destruct H
      | H : ~ (_ /\ _) |- _ => exfalso; apply H; repeat split; (lra || reflexivity || assumption)
      end; try lra; try discriminate.
Qed.

Lemma signal_rule_no_bar_left (bars : list Bar) :
  retained bars = [] -> signal_rule bars = "HOLD".
Proof. intros H. unfold signal_rule. rewrite H. reflexivity. Qed.

Example generate_signal_empty :
  generate_signal CombinedStrategy.__init__ {| columns := ∅; rows := [] |} = Ok "HOLD".
Proof. reflexivity. Qed.

Example generate_signal_buy :
  generate_signal CombinedStrategy.__init__ (bars_frame (rising_bars 60)) = Ok "BUY".
Proof. vm_compute. reflexivity. Qed.

Example generate_signal_sell :
  generate_signal CombinedStrategy.__init__ (bars_frame (falling_bars 60)) = Ok "SELL".
Proof. vm_compute. reflexivity. Qed.

Example generate_signal_flat :
  generate_signal CombinedStrategy.__init__ (bars_frame (flat_bars 70)) = Ok "HOLD".
Proof. vm_compute. reflexivity. Qed.

Example generate_signal_too_short :
  retained (rising_bars 30) = [] /\
  generate_signal CombinedStrategy.__init__ (bars_frame (rising_bars 30)) = Ok "HOLD".
Proof. split; vm_compute; reflexivity. Qed.

Example generate_signal_data_with_nans :
  generate_signal CombinedStrategy.__init__ nan_frame = Ok "HOLD".
Proof. vm_compute. reflexivity. Qed.

(** * Further properties of the code *)

(** ** RiskManager: construction and the state it keeps *)

(** [__init__] builds a manager exactly when both percentages lie in (0, 1]
    and the balance is positive; the manager then starts the day at that
    balance with no loss recorded.  Otherwise it raises a [ValueError], and
    the risk-per-trade percentage is the first argument checked. *)
Theorem init_validation (b r d : Q) :
  ((0 < r /\ r <= 1) /\ (0 < d /\ d <= 1) /\ 0 < b ->
   RiskManager.__init__ b r d =
     Ok {| account_balance := b; initial_balance := b;
           risk_per_trade_percentage := r; daily_risk_limit_percentage := d;
           daily_loss_incurred := 0 |})
  /\ (~ ((0 < r /\ r <= 1) /\ (0 < d /\ d <= 1) /\ 0 < b) ->
      exists msg, RiskManager.__init__ b r d = Raise (ValueError msg))
  /\ (~ (0 < r /\ r <= 1) ->
      RiskManager.__init__ b r d =
        Raise (ValueError "risk_per_trade_percentage must be between 0 and 1 (inclusive).")).
Proof.
  unfold RiskManager.__init__.
  destruct (Qltb 0 r) eqn:R1, (Qleb r 1) eqn:R2, (Qltb 0 d) eqn:D1, (Qleb d 1) eqn:D2,
    (Qleb b 0) eqn:B; q_reflect; cbn [andb negb];
    (split; [intros [[? ?] [[? ?] ?]]; first [reflexivity | lra] |]);
    (split; [intros Hn; first [solve [eexists; reflexivity] | exfalso; apply Hn; lra]
            | intros Hn; first [reflexivity | exfalso; apply Hn; lra]]).
Qed.

Lemma init_validation_witness :
  RiskManager.__init__ 10000 0.01 0.05 = Ok rm0
  /\ (exists msg, RiskManager.__init__ 0 0.01 0.05 = Raise (ValueError msg))
  /\ RiskManager.__init__ 10000 1.5 0.05 =
       Raise (ValueError "risk_per_trade_percentage must be between 0 and 1 (inclusive).").
Proof.
  split; [| split].
  - apply (proj1 (init_validation 10000 0.01 0.05)).
    repeat split; (reflexivity || discriminate).
  - apply (proj1 (proj2 (init_validation 0 0.01 0.05))).
    intros (_ & _ & Hb). revert Hb. apply Qlt_irrefl.
  - apply (proj2 (proj2 (init_validation 10000 1.5 0.05))).
    intros [_ Hr]. apply Hr. reflexivity.
Defined.

Lemma update_daily_loss_fields (s : RiskManager.t) (a : Q) :
  initial_balance (update_daily_loss s a) = initial_balance s /\
  risk_per_trade_percentage (update_daily_loss s a) = risk_per_trade_percentage s /\
  daily_risk_limit_percentage (update_daily_loss s a) = daily_risk_limit_percentage s.
Proof. unfold update_daily_loss. repeat q_if; cbn; repeat split; reflexivity. Qed.

Lemma exec_invariant (c : call) (s : RiskManager.t) :
  state_invariant s -> state_invariant (fst (exec c s)).
Proof.
  intros (Hr & Hd & Hl & Hb). destruct c; cbn [exec fst]; try (repeat split; tauto).
  - unfold state_invariant, update_daily_loss.
    destruct (Qgtb loss_amount 0) eqn:E; q_reflect.
    + cbn. repeat split; try tauto; lra.
    + destruct (Qltb loss_amount 0); repeat split; tauto.
  - unfold state_invariant, reset_daily_loss. cbn. repeat split; try tauto; lra.
Qed.

Lemma reachable_invariant (s : RiskManager.t) :
  reachable s -> state_invariant s.
Proof.
  induction 1 as [b r d s Hinit | c s _ IH]; [| apply exec_invariant, IH].
  unfold RiskManager.__init__ in Hinit.
  destruct (Qltb 0 r) eqn:R1, (Qleb r 1) eqn:R2; cbn [andb negb] in Hinit;
    try discriminate.
  destruct (Qltb 0 d) eqn:D1, (Qleb d 1) eqn:D2; cbn [andb negb] in Hinit;
    try discriminate.
  destruct (Qleb b 0) eqn:B; [discriminate |].
  injection Hinit as <-. q_reflect. unfold state_invariant. cbn.
  repeat split; lra.
Qed.

(** In every state a manager can reach, both percentages are still in
    (0, 1], the recorded loss is not negative, and the balance is not above
    the balance the day started with: losses only ever lower it, and
    nothing credits the account. *)
Theorem reachable_state_invariant (s : RiskManager.t) :
  reachable s ->
  (0 < risk_per_trade_percentage s /\ risk_per_trade_percentage s <= 1) /\
  (0 < daily_risk_limit_percentage s /\ daily_risk_limit_percentage s <= 1) /\
  0 <= daily_loss_incurred s /\
  account_balance s <= initial_balance s.
Proof. exact (reachable_invariant s). Qed.

Lemma reachable_state_invariant_witness :
  state_invariant (run [UpdateDailyLoss 120; ResetDailyLoss; UpdateDailyLoss 30] rm0).
Proof.
  apply reachable_state_invariant.
  cbn [run fold_left]. repeat apply reachable_exec. exact rm0_reachable.
Defined.

(** Once [check_daily_risk_limit] answers False it keeps answering False
    whatever is called next, as long as [reset_daily_loss] is not. *)
Theorem daily_limit_stays_reached (cs : list call) (s : RiskManager.t) :
  check_daily_risk_limit s = false ->
  forallb (fun c => negb (is_reset c)) cs = true ->
  check_daily_risk_limit (run cs s) = false.
Proof.
  revert s. induction cs as [| c cs IH]; intros s Hs Hcs; [exact Hs |].
  cbn [forallb] in Hcs. apply andb_true_iff in Hcs as [Hc Hcs].
  cbn [run fold_left]. apply IH; [| exact Hcs].
  destruct c; cbn [exec fst]; try exact Hs; [| discriminate].
  pose proof (update_daily_loss_loss_le s loss_amount) as Hle.
  destruct (update_daily_loss_fields s loss_amount) as (Hi & _ & Hd).
  unfold check_daily_risk_limit in *. rewrite Hi, Hd.
  destruct (Qgeb (daily_loss_incurred s) _) eqn:E1; [| discriminate].
  destruct (Qgeb (daily_loss_incurred (update_daily_loss s loss_amount)) _) eqn:E2;
    [reflexivity |].
  q_reflect. lra.
Qed.

Lemma daily_limit_stays_reached_witness :
  check_daily_risk_limit
    (run [UpdateDailyLoss 10; CheckDailyRiskLimit; CalculatePositionSize 100 99 1;
          UpdateDailyLoss (-700)]
         (update_daily_loss rm0 500)) = false.
Proof. apply daily_limit_stays_reached; reflexivity. Defined.

(** [reset_daily_loss] clears the recorded loss, takes the current balance
    as the balance of the new day and leaves the balance and both
    percentages alone; doing it twice changes nothing more; and in a
    reachable state the daily gate is open afterwards exactly when the
    balance is still positive. *)
Theorem reset_daily_loss_spec (s : RiskManager.t) :
  reachable s ->
  daily_loss_incurred (reset_daily_loss s) = 0 /\
  initial_balance (reset_daily_loss s) = account_balance s /\
  account_balance (reset_daily_loss s) = account_balance s /\
  risk_per_trade_percentage (reset_daily_loss s) = risk_per_trade_percentage s /\
  daily_risk_limit_percentage (reset_daily_loss s) = daily_risk_limit_percentage s /\
  reset_daily_loss (reset_daily_loss s) = reset_daily_loss s /\
  (check_daily_risk_limit (reset_daily_loss s) = true <-> 0 < account_balance s).
Proof.
  intros Hs. apply reachable_invariant in Hs as (_ & [Hd _] & _ & _).
  repeat (split; [reflexivity |]).
  unfold check_daily_risk_limit, reset_daily_loss. cbn.
  destruct (Qgeb 0 _) eqn:E; q_reflect; split; intros; try discriminate;
    try reflexivity; nra.
Qed.

Lemma reset_daily_loss_spec_witness :
  check_daily_risk_limit (reset_daily_loss (update_daily_loss rm0 500)) = true <->
  0 < account_balance (update_daily_loss rm0 500).
Proof.
  apply reset_daily_loss_spec.
  apply (reachable_exec (UpdateDailyLoss 500) rm0), rm0_reachable.
Defined.

(** ** RiskManager: prices and sizes *)



(** [determine_stop_loss] returns NaN in exactly four cases: the entry
    price is not positive; a distance percentage is given that is not
    strictly between 0 and 1 (the volatility is then not consulted); no
    percentage is given and the volatility is NaN (entry - NaN * 1.5 is
    NaN, and NaN <= 0 is False); or neither a percentage nor a volatility
    is given. *)
Theorem determine_stop_loss_undefined (self : RiskManager.t) (entry : Q)
    (pct : option Q) (vol : option pyfloat) :
  determine_stop_loss self entry pct vol = NaN <->
  entry <= 0 \/
  (exists p, pct = Some p /\ ~ (0 < p /\ p < 1)) \/
  (pct = None /\ vol = Some NaN) \/
  (pct = None /\ vol = None).
Proof.
  unfold determine_stop_loss.
  destruct (Qleb entry 0) eqn:E; q_reflect.
  { split; [intros _; left; exact E | reflexivity]. }
  destruct pct as [p |].
  - destruct (Qltb 0 p) eqn:E1, (Qltb p 1) eqn:E2; q_reflect; cbn [andb negb];
      (split;
       [intros H; first [discriminate H | right; left; exists p; split; [reflexivity | lra]]
       | intros [H | [(p' & [= <-] & H) | [[H _] | [H _]]]];
         first [reflexivity | discriminate H | lra | exfalso; apply H; lra]]).
  - destruct vol as [[v |] |]; cbn [pf_sub pf_mul pf_le].
    + destruct (Qleb (entry - v * 1.5) 0);
        (split; [discriminate
                | intros [H | [(p' & H & _) | [[_ H] | [_ H]]]];
                  first [discriminate H | lra]]).
    + split; [intros _; right; right; left; split; reflexivity | reflexivity].
    + split; [intros _; right; right; right; split; reflexivity | reflexivity].
Qed.

Lemma determine_stop_loss_undefined_witness :
  determine_stop_loss rm0 100 None (Some NaN) = NaN /\
  determine_stop_loss rm0 100 (Some 2) (Some (Num 7)) = NaN /\
  determine_stop_loss rm0 100 None (Some (Num 7)) <> NaN.
Proof.
  split; [| split].
  - apply (determine_stop_loss_undefined rm0 100 None (Some NaN)).
    right. right. left. split; reflexivity.
  - apply (determine_stop_loss_undefined rm0 100 (Some 2) (Some (Num 7))).
    right. left. exists 2. split; [reflexivity |]. intros [_ H]. discriminate H.
  - intros H. apply (determine_stop_loss_undefined rm0 100 None (Some (Num 7))) in H.
    destruct H as [H | [(p & H & _) | [[_ H] | [_ H]]]];
      first [discriminate H | apply H; reflexivity].
Defined.

(** With valid, different prices and a non-zero asset multiplier
    [calculate_position_size] returns the risk budget account_balance *
    risk_per_trade_percentage divided by |entry - stop| * asset_multiplier;
    the quantity is positive when balance, percentage and multiplier are,
    and a stop further from the entry never gives a larger quantity.  An
    asset multiplier of 0 is not caught: the division raises
    [ZeroDivisionError]. *)
Theorem calculate_position_size_risk (self : RiskManager.t) (entry stop m : Q) :
  0 < entry -> 0 < stop -> ~ entry == stop ->
  (~ m == 0 ->
   exists q, calculate_position_size self entry stop m = Ok q /\
             q == account_balance self * risk_per_trade_percentage self
                  / (Qabs (entry - stop) * m) /\
             (0 < account_balance self -> 0 < risk_per_trade_percentage self ->
              0 < m ->
              0 < q /\
              forall stop' q',
                0 < stop' -> Qabs (entry - stop) <= Qabs (entry - stop') ->
                calculate_position_size self entry stop' m = Ok q' -> q' <= q))
  /\ (m == 0 -> calculate_position_size self entry stop m = Raise ZeroDivisionError).
Proof.
  intros He Hs Hne. pose proof (Qabs_diff_pos entry stop Hne) as Hpos.
  unfold calculate_position_size at 1 3, py_div.
  destruct (Qleb stop 0) eqn:E1; q_reflect; [lra |].
  destruct (Qleb entry 0) eqn:E2; q_reflect; [lra |]. cbn [orb].
  destruct (Qeq_bool (Qabs (entry - stop)) 0) eqn:E3; q_reflect; [lra |].
  set (d := Qabs (entry - stop)) in *.
  destruct (Qeq_bool (d * m) 0) eqn:E4; q_reflect.
  - split; [| reflexivity]. intros Hm. exfalso.
    apply Qmult_integral in E4 as [H | H]; [lra | contradiction].
  - split; [| intros Hm; exfalso; apply E4; rewrite Hm; ring].
    intros Hm0. eexists. split; [reflexivity |].
    split; [reflexivity |].
    intros Hb Hr Hm.
    assert (Hbudget : 0 < account_balance self * risk_per_trade_percentage self) by nra.
    split; [apply Qlt_shift_div_l; nra |].
    intros stop' q' Hs' Hwider. unfold calculate_position_size, py_div.
    destruct (Qleb stop' 0) eqn:E5; q_reflect; [lra |].
    destruct (Qleb entry 0) eqn:E6; q_reflect; [lra |]. cbn [orb].
    destruct (Qeq_bool (Qabs (entry - stop')) 0) eqn:E7; q_reflect; [lra |].
    set (d' := Qabs (entry - stop')) in *.
    destruct (Qeq_bool (d' * m) 0) eqn:E8; q_reflect; [discriminate |].
    intros [= <-].
    set (budget := account_balance self * risk_per_trade_percentage self) in *.
    assert (Hq' : budget / (d' * m) * (d' * m) == budget)
      by (field; split; [exact Hm0 | exact E7]).
    assert (Hq'0 : 0 < budget / (d' * m)) by (apply Qlt_shift_div_l; nra).
    apply Qle_shift_div_l; [nra |].
    set (q' := budget / (d' * m)) in *. nra.
Qed.

Lemma calculate_position_size_risk_witness :
  (exists q, calculate_position_size rm0 100 98 50 = Ok q /\
             q == account_balance rm0 * risk_per_trade_percentage rm0
                  / (Qabs (100 - 98) * 50) /\
             (0 < account_balance rm0 -> 0 < risk_per_trade_percentage rm0 ->
              0 < 50 ->
              0 < q /\
              forall stop' q',
                0 < stop' -> Qabs (100 - 98) <= Qabs (100 - stop') ->
                calculate_position_size rm0 100 stop' 50 = Ok q' -> q' <= q))
  /\ calculate_position_size rm0 100 98 0 = Raise ZeroDivisionError.
Proof.
  split.
  - apply (proj1 (calculate_position_size_risk rm0 100 98 50 eq_refl eq_refl
                    ltac:(discriminate))). discriminate.
  - apply (proj2 (calculate_position_size_risk rm0 100 98 0 eq_refl eq_refl
                    ltac:(discriminate))). reflexivity.
Defined.

(** For valid, different prices and a positive ratio the take profit is a
    number on the far side of the entry from the stop: for a long trade
    entry + |entry - stop| * ratio, above the entry; for a short trade
    below the entry and never negative. *)
Theorem determine_take_profit_side (self : RiskManager.t) (entry stop ratio : Q) :
  0 < entry -> 0 < stop -> 0 < ratio -> ~ entry == stop ->
  exists tp, determine_take_profit self entry stop ratio = Num tp /\
    (stop < entry -> entry < tp /\ tp == entry + Qabs (entry - stop) * ratio) /\
    (entry < stop -> 0 <= tp /\ tp < entry).
Proof.
  intros He Hs Hr Hne.
  destruct (Q_dec entry stop) as [[Hlt | Hgt] | Heq]; [| | contradiction].
  - rewrite determine_take_profit_short by assumption.
    pose proof (Qabs_diff_lt entry stop Hlt) as Habs.
    destruct (Qltb _ 0) eqn:E; q_reflect; eexists; (split; [reflexivity |]);
      (split; [intros; lra |]); intros _; split; try lra; rewrite ?Habs; nra.
  - rewrite determine_take_profit_long by assumption.
    pose proof (Qabs_diff_gt entry stop Hgt) as Habs.
    eexists. split; [reflexivity |]. split; [| intros; lra].
    intros _. split; [rewrite Habs; nra | reflexivity].
Qed.

Lemma determine_take_profit_side_witness :
  exists tp, determine_take_profit rm0 10 12 10 = Num tp /\
    (12 < 10 -> 10 < tp /\ tp == 10 + Qabs (10 - 12) * 10) /\
    (10 < 12 -> 0 <= tp /\ tp < 10).
Proof.
  apply (determine_take_profit_side rm0 10 12 10); (reflexivity || discriminate).
Defined.

(** ** RiskManager: the trailing stop along a price sequence *)

Lemma update_trailing_stop_proper (self : RiskManager.t) (price l l' : Q) (b : bool) :
  l == l' -> update_trailing_stop self price l b == update_trailing_stop self price l' b.
Proof.
  intros H. destruct b.
  - rewrite !update_trailing_stop_long.
    destruct (Q.max_spec l (price * 0.98)) as [[? ?] | [? ?]];
      destruct (Q.max_spec l' (price * 0.98)) as [[? ?] | [? ?]]; lra.
  - rewrite !update_trailing_stop_short.
    destruct (Q.min_spec l (price * 1.02)) as [[? ?] | [? ?]];
      destruct (Q.min_spec l' (price * 1.02)) as [[? ?] | [? ?]]; lra.
Qed.

Lemma update_trailing_stop_swap (self : RiskManager.t) (p q l : Q) (b : bool) :
  update_trailing_stop self p (update_trailing_stop self q l b) b ==
  update_trailing_stop self q (update_trailing_stop self p l b) b.
Proof.
  destruct b.
  - set (A := update_trailing_stop self q l true).
    set (B := update_trailing_stop self p l true).
    pose proof (update_trailing_stop_long self p A) as H1.
    pose proof (update_trailing_stop_long self q B) as H2.
    pose proof (update_trailing_stop_long self q l) as H3. fold A in H3.
    pose proof (update_trailing_stop_long self p l) as H4. fold B in H4.
    destruct (Q.max_spec A (p * 0.98)) as [[? ?] | [? ?]];
      destruct (Q.max_spec B (q * 0.98)) as [[? ?] | [? ?]];
      destruct (Q.max_spec l (q * 0.98)) as [[? ?] | [? ?]];
      destruct (Q.max_spec l (p * 0.98)) as [[? ?] | [? ?]]; lra.
  - set (A := update_trailing_stop self q l false).
    set (B := update_trailing_stop self p l false).
    pose proof (update_trailing_stop_short self p A) as H1.
    pose proof (update_trailing_stop_short self q B) as H2.
    pose proof (update_trailing_stop_short self q l) as H3. fold A in H3.
    pose proof (update_trailing_stop_short self p l) as H4. fold B in H4.
    destruct (Q.min_spec A (p * 1.02)) as [[? ?] | [? ?]];
      destruct (Q.min_spec B (q * 1.02)) as [[? ?] | [? ?]];
      destruct (Q.min_spec l (q * 1.02)) as [[? ?] | [? ?]];
      destruct (Q.min_spec l (p * 1.02)) as [[? ?] | [? ?]]; lra.
Qed.

Lemma final_stop_cons (self : RiskManager.t) (b : bool) (level p : Q) (prices : list Q) :
  final_stop self b level (p :: prices) =
  final_stop self b (update_trailing_stop self p level b) prices.
Proof. reflexivity. Qed.

Lemma final_stop_proper (self : RiskManager.t) (b : bool) (prices : list Q) (l l' : Q) :
  l == l' -> final_stop self b l prices == final_stop self b l' prices.
Proof.
  revert l l'. induction prices as [| p prices IH]; intros l l' H; [exact H |].
  rewrite !final_stop_cons. apply IH, update_trailing_stop_proper, H.
Qed.

Lemma final_stop_long_ge (self : RiskManager.t) (prices : list Q) (level : Q) :
  level <= final_stop self true level prices.
Proof.
  revert level. induction prices as [| p prices IH]; intros level; [apply Qle_refl |].
  rewrite !final_stop_cons.
  eapply Qle_trans; [apply (update_trailing_stop_long_ge self p level) | apply IH].
Qed.

Lemma final_stop_short_le (self : RiskManager.t) (prices : list Q) (level : Q) :
  final_stop self false level prices <= level.
Proof.
  revert level. induction prices as [| p prices IH]; intros level; [apply Qle_refl |].
  rewrite !final_stop_cons.
  eapply Qle_trans; [apply IH | apply (update_trailing_stop_short_le self p level)].
Qed.

(** The level a long trailing stop ends at after a sequence of prices is
    the larger of the starting level and 0.98 times the highest price seen:
    it is at least each of them and equal to one of them.  For a short stop
    it is the smaller of the starting level and 1.02 times the lowest
    price.  In both cases the order in which the prices arrive does not
    matter. *)
Theorem final_stop_extremum (self : RiskManager.t) (level : Q) (prices : list Q) :
  (level <= final_stop self true level prices /\
   Forall (fun p => p * 0.98 <= final_stop self true level prices) prices /\
   (final_stop self true level prices == level \/
    Exists (fun p => final_stop self true level prices == p * 0.98) prices))
  /\ (final_stop self false level prices <= level /\
      Forall (fun p => final_stop self false level prices <= p * 1.02) prices /\
      (final_stop self false level prices == level \/
       Exists (fun p => final_stop self false level prices == p * 1.02) prices))
  /\ (forall (b : bool) (prices' : list Q),
        Permutation prices prices' ->
        final_stop self b level prices == final_stop self b level prices').
Proof.
  split; [| split].
  - split; [apply final_stop_long_ge |]. revert level.
    induction prices as [| p prices IH]; intros level.
    + split; [constructor | left; reflexivity].
    + rewrite !final_stop_cons.
      destruct (IH (update_trailing_stop self p level true)) as [Hall Hone].
      pose proof (final_stop_long_ge self prices (update_trailing_stop self p level true)) as Hge.
      pose proof (update_trailing_stop_long self p level) as Hmax.
      split.
      * constructor; [| exact Hall].
        pose proof (Q.le_max_r level (p * 0.98)). lra.
      * destruct Hone as [Heq | Hex]; [| right; right; exact Hex].
        destruct (Q.max_spec level (p * 0.98)) as [[_ Hm] | [_ Hm]].
        -- right. left. lra.
        -- left. lra.
  - split; [apply final_stop_short_le |]. revert level.
    induction prices as [| p prices IH]; intros level.
    + split; [constructor | left; reflexivity].
    + rewrite !final_stop_cons.
      destruct (IH (update_trailing_stop self p level false)) as [Hall Hone].
      pose proof (final_stop_short_le self prices (update_trailing_stop self p level false)) as Hle.
      pose proof (update_trailing_stop_short self p level) as Hmin.
      split.
      * constructor; [| exact Hall].
        pose proof (Q.le_min_r level (p * 1.02)). lra.
      * destruct Hone as [Heq | Hex]; [| right; right; exact Hex].
        destruct (Q.min_spec level (p * 1.02)) as [[_ Hm] | [_ Hm]].
        -- left. lra.
        -- right. left. lra.
  - intros b prices' Hperm. revert level.
    induction Hperm as [| x l l' _ IH | x y l | l l' l'' _ IH1 _ IH2]; intros level.
    + reflexivity.
    + rewrite !final_stop_cons. apply IH.
    + rewrite !final_stop_cons. apply final_stop_proper, update_trailing_stop_swap.
    + rewrite IH1. apply IH2.
Qed.

Lemma final_stop_extremum_witness :
  final_stop rm0 true 95 [100; 110; 105] == final_stop rm0 true 95 [110; 100; 105].
Proof.
  apply (proj2 (proj2 (final_stop_extremum rm0 95 [100; 110; 105]))).
  apply perm_swap.
Defined.

(** ** AdaptabilityManager: the suggested adjustment *)

(** Membership in a list of literals. *)
Ltac list_mem :=
  repeat rewrite elem_of_cons in *; rewrite ?elem_of_nil in *;
  intuition (congruence || discriminate).

(** Whatever dictionary it is given, [suggest_strategy_adjustment] returns
    exactly the four adjustment keys: a strategy type out of trend_following,
    range_bound and hold, a risk-per-trade multiplier between 0.5 and 1 (the
    risk is never scaled up), a stop-loss multiplier between 0.8 and 2.16
    and a take-profit multiplier between 1 and 2.  The strategy is hold
    exactly when the regime entry is missing or not one of the four pair
    tags. *)
Theorem suggest_strategy_adjustment_range (self : AdaptabilityManager.t) (mc : conditions) :
  let adj := suggest_strategy_adjustment self mc in
  dom adj = adjustment_keys /\
  exists (strategy : string) (risk sl tp : Q),
    adj !! "strategy_type" = Some (Str strategy) /\
    adj !! "risk_per_trade_multiplier" = Some (Float risk) /\
    adj !! "stop_loss_multiplier" = Some (Float sl) /\
    adj !! "take_profit_multiplier" = Some (Float tp) /\
    strategy ∈ ["trend_following"; "range_bound"; "hold"] /\
    (0.5 <= risk /\ risk <= 1) /\ (0.8 <= sl /\ sl <= 2.16) /\ (1 <= tp /\ tp <= 2) /\
    (strategy = "hold" <->
     ~ exists tag, mc !! "regime" = Some tag /\ tag ∈ pair_tags).
Proof.
  cbn zeta. unfold suggest_strategy_adjustment.
  remember (default "UNKNOWN" (mc !! "regime")) as regime eqn:Hregime.
  remember (default "unknown" (mc !! "volatility")) as vol eqn:Hvol. clear Hvol.
  assert (Htag : (exists tag, mc !! "regime" = Some tag /\ tag ∈ pair_tags) <->
                 regime ∈ pair_tags).
  { subst regime. destruct (mc !! "regime") as [r |]; cbn.
    - split; [intros (tag & Heq & Hin); congruence | intros Hin; eauto].
    - split; [intros (tag & Heq & _); discriminate | unfold pair_tags; list_mem]. }
  clear Hregime. unfold pair_tags in Htag.
  destruct (String.eqb_spec regime "TRENDING_HIGH_VOL") as [-> | N1];
    [| destruct (String.eqb_spec regime "TRENDING_LOW_VOL") as [-> | N2];
       [| destruct (String.eqb_spec regime "RANGING_HIGH_VOL") as [-> | N3];
          [| destruct (String.eqb_spec regime "RANGING_LOW_VOL") as [-> | N4]]]];
    (destruct (String.eqb vol "high");
     [| destruct (String.eqb vol "low")]);
    (split; [reflexivity |]);
    eexists _, _, _, _;
    (split; [reflexivity |]);
    (split; [reflexivity |]);
    (split; [reflexivity |]);
    (split; [reflexivity |]);
    (split; [list_mem |]);
    (split; [split; discriminate |]);
    (split; [split; discriminate |]);
    (split; [split; discriminate |]);
    rewrite Htag;
    (split; [intros H; first [discriminate H | list_mem]
            | intros H; first [reflexivity | exfalso; apply H; list_mem]]).
Qed.

(** ** AdaptabilityManager: classification feeding the suggestion *)

Lemma latest_setitem (df : DataFrame) (col : string) (s : Series) :
  rows df <> [] ->
  latest (cell col <$> rows (setitem df col s)) =
    default NaN (s !! pred (length (rows df))).
Proof.
  intros Hne. unfold latest. rewrite last_lookup, length_fmap. cbn [setitem rows].
  rewrite length_imap, list_lookup_fmap, list_lookup_imap.
  destruct (rows df !! pred (length (rows df))) as [r |] eqn:Hr.
  - cbn. unfold cell. rewrite lookup_insert_eq. reflexivity.
  - apply lookup_ge_None in Hr. destruct (rows df); [contradiction | cbn in Hr; lia].
Qed.

Lemma rows_setitem_length (df : DataFrame) (col : string) (s : Series) :
  length (rows (setitem df col s)) = length (rows df).
Proof. cbn. apply length_imap. Qed.

Lemma empty_false_rows (df : DataFrame) : empty df = false -> rows df <> [].
Proof.
  unfold empty. intros H. apply orb_false_iff in H as [_ H].
  destruct (rows df); [discriminate | discriminate].
Qed.

Section AnalyzeMore.

Variable average_true_range : Series -> Series -> Series -> nat -> result Series.
Variable adx : Series -> Series -> Series -> nat -> result Series.

Local Abbreviation analyze_market_conditions :=
  (AdaptabilityManager.analyze_market_conditions average_true_range adx).

(** When the classification degrades, because the frame is empty, lacks a
    high, low or close column, or because the ATR or the ADX computation
    raises, the regime is UNKNOWN and the adjustment suggested for the
    result is the conservative one: strategy hold, risk-per-trade
    multiplier 0.5, stop-loss and take-profit multipliers 1.0. *)
Theorem degraded_analysis_suggests_hold (self : AdaptabilityManager.t) (data : DataFrame) :
  let high := cell "high" <$> rows data in
  let low := cell "low" <$> rows data in
  let close := cell "close" <$> rows data in
  empty data = true \/
  (exists col, col ∈ ["high"; "low"; "close"] /\ has_column col data = false) \/
  (exists e, average_true_range high low close 14 = Raise e) \/
  (exists e, adx high low close 14 = Raise e) ->
  exists mc : conditions,
    analyze_market_conditions self data = Ok mc /\
    mc !! "regime" = Some "UNKNOWN" /\
    suggest_strategy_adjustment self mc = hold_adjustment /\
    hold_adjustment !! "strategy_type" = Some (Str "hold") /\
    hold_adjustment !! "risk_per_trade_multiplier" = Some (Float 0.5) /\
    hold_adjustment !! "stop_loss_multiplier" = Some (Float 1.0) /\
    hold_adjustment !! "take_profit_multiplier" = Some (Float 1.0).
Proof.
  cbn zeta. intros Hdeg.
  assert (Hu1 : suggest_strategy_adjustment self unknown_regime = hold_adjustment)
    by reflexivity.
  assert (Hu2 : suggest_strategy_adjustment self unknown_conditions = hold_adjustment)
    by reflexivity.
  unfold AdaptabilityManager.analyze_market_conditions.
  destruct (empty data) eqn:Hempty.
  { exists unknown_regime. repeat split; try reflexivity; exact Hu1. }
  destruct (forallb (fun col => has_column col data) required_cols) eqn:Hcols;
    cbn [negb].
  2:{ exists unknown_regime. repeat split; try reflexivity; exact Hu1. }
  pose proof (proj1 (required_cols_forallb data) Hcols) as Hall.
  rewrite (analyze_try_unfold average_true_range adx self data)
    by (apply Hall; unfold required_cols; list_mem).
  cbn zeta.
  destruct (average_true_range _ _ _ _) as [atr | e] eqn:Hatr; cbn [bind try_except].
  2:{ exists unknown_conditions. repeat split; try reflexivity; exact Hu2. }
  destruct (adx _ _ _ _) as [adx_series | e] eqn:Hadx; cbn [bind try_except].
  2:{ exists unknown_conditions. repeat split; try reflexivity; exact Hu2. }
  exfalso. destruct Hdeg as [H | [(col & Hin & Hno) | [[e H] | [e H]]]];
    try discriminate.
  rewrite (Hall col Hin) in Hno. discriminate.
Qed.

(** When the frame has rows and the three columns and both indicators
    return a series, the labels are read from the value each series has
    for the last row of the frame (NaN when the series has none) and from
    the last close: volatility is high exactly when both are numbers, the
    close is not 0 and ATR / close exceeds the volatility threshold, and
    unknown exactly when one of them is NaN or the close is 0; trend is
    trending exactly when the ADX value is a number above the trend
    threshold, and unknown exactly when it is NaN. *)
Theorem analysis_labels (self : AdaptabilityManager.t) (data : DataFrame)
    (atr adx_series : Series) :
  let high := cell "high" <$> rows data in
  let low := cell "low" <$> rows data in
  let close := cell "close" <$> rows data in
  let last_row := pred (length (rows data)) in
  let latest_atr := default NaN (atr !! last_row) in
  let latest_adx := default NaN (adx_series !! last_row) in
  let latest_close := default NaN (close !! last_row) in
  empty data = false ->
  (forall col, col ∈ ["high"; "low"; "close"] -> has_column col data = true) ->
  average_true_range high low close 14 = Ok atr ->
  adx high low close 14 = Ok adx_series ->
  exists mc : conditions,
    analyze_market_conditions self data = Ok mc /\
    (mc !! "volatility" = Some "high" <->
     exists a c, latest_atr = Num a /\ latest_close = Num c /\ ~ c == 0 /\
                 volatility_threshold self < a / c) /\
    (mc !! "volatility" = Some "unknown" <->
     latest_atr = NaN \/ latest_close = NaN \/
     exists c, latest_close = Num c /\ c == 0) /\
    (mc !! "trend" = Some "trending" <->
     exists x, latest_adx = Num x /\ trend_strength_threshold self < x) /\
    (mc !! "trend" = Some "unknown" <-> latest_adx = NaN).
Proof.
  cbn zeta. intros Hempty Hall Hatr Hadx.
  unfold AdaptabilityManager.analyze_market_conditions. rewrite Hempty.
  rewrite (proj2 (required_cols_forallb data) Hall). cbn [negb].
  rewrite (analyze_try_unfold average_true_range adx self data)
    by (apply Hall; list_mem).
  cbn zeta. rewrite Hatr. cbn [bind]. rewrite Hadx. cbn [bind try_except].
  pose proof (empty_false_rows data Hempty) as Hne.
  rewrite latest_setitem by (rewrite <- length_zero_iff_nil, rows_setitem_length,
                               length_zero_iff_nil; exact Hne).
  rewrite latest_setitem by exact Hne. rewrite rows_setitem_length.
  replace (latest (cell "close" <$> rows data))
    with (default NaN ((cell "close" <$> rows data) !! pred (length (rows data))))
    by (unfold latest; rewrite last_lookup, length_fmap; reflexivity).
  set (la := default NaN (atr !! _)).
  set (lx := default NaN (adx_series !! _)).
  set (lc := default NaN ((cell "close" <$> rows data) !! _)).
  eexists. split; [reflexivity |].
  unfold classified. rewrite !lookup_insert_ne by discriminate.
  rewrite !lookup_insert_eq. rewrite lookup_insert_ne by discriminate.
  rewrite lookup_insert_eq.
  unfold volatility_label, trend_label, pf_ne, pf_eq, pf_gt, pf_div.
  repeat split.
  - destruct la as [a |], lc as [c |]; cbn [isnan negb andb]; try discriminate.
    destruct (Qeq_bool c 0) eqn:E0; cbn [negb andb]; [discriminate |].
    destruct (Qgtb (a / c) (volatility_threshold self)) eqn:E1; [| discriminate].
    intros _. q_reflect. exists a, c. repeat split; assumption.
  - intros (a & c & -> & -> & Hc & Hgt). cbn [isnan negb andb].
    destruct (Qeq_bool c 0) eqn:E0; q_reflect; [contradiction |]. cbn [negb andb].
    destruct (Qgtb (a / c) (volatility_threshold self)) eqn:E1; q_reflect;
      [reflexivity | lra].
  - destruct la as [a |], lc as [c |]; cbn [isnan negb andb]; auto.
    destruct (Qeq_bool c 0) eqn:E0; cbn [negb andb]; q_reflect.
    + intros _. right. right. exists c. split; [reflexivity | exact E0].
    + destruct (Qgtb (a / c) (volatility_threshold self)); discriminate.
  - intros [-> | [-> | (c & -> & Hc)]].
    + reflexivity.
    + destruct la; reflexivity.
    + destruct la as [a |]; [| reflexivity]. cbn [isnan negb andb].
      rewrite (proj2 (Qeq_bool_iff c 0) Hc). reflexivity.
  - destruct lx as [x |]; cbn [isnan negb]; [| discriminate].
    destruct (Qgtb x (trend_strength_threshold self)) eqn:E; [| discriminate].
    intros _. q_reflect. exists x. split; [reflexivity | exact E].
  - intros (x & -> & Hx). cbn [isnan negb].
    destruct (Qgtb x (trend_strength_threshold self)) eqn:E; q_reflect;
      [reflexivity | lra].
  - destruct lx as [x |]; cbn [isnan negb]; [| reflexivity].
    destruct (Qgtb x (trend_strength_threshold self)); discriminate.
  - intros ->. reflexivity.
Qed.

End AnalyzeMore.

Lemma degraded_analysis_suggests_hold_witness :
  exists mc : conditions,
    analyze_market_conditions sample_atr failing_adx default_manager sample_frame = Ok mc /\
    mc !! "regime" = Some "UNKNOWN" /\
    suggest_strategy_adjustment default_manager mc = hold_adjustment /\
    hold_adjustment !! "strategy_type" = Some (Str "hold") /\
    hold_adjustment !! "risk_per_trade_multiplier" = Some (Float 0.5) /\
    hold_adjustment !! "stop_loss_multiplier" = Some (Float 1.0) /\
    hold_adjustment !! "take_profit_multiplier" = Some (Float 1.0).
Proof.
  apply (degraded_analysis_suggests_hold sample_atr failing_adx default_manager sample_frame).
  right. right. right. eexists. reflexivity.
Defined.

Lemma analysis_labels_witness :
  exists mc : conditions,
    analyze_market_conditions sample_atr sample_adx default_manager sample_frame = Ok mc /\
    (mc !! "volatility" = Some "high" <->
     exists a c, Num 3 = Num a /\ Num 100 = Num c /\ ~ c == 0 /\
                 volatility_threshold default_manager < a / c) /\
    (mc !! "volatility" = Some "unknown" <->
     Num 3 = NaN \/ Num 100 = NaN \/ exists c, Num 100 = Num c /\ c == 0) /\
    (mc !! "trend" = Some "trending" <->
     exists x, Num 25 = Num x /\ trend_strength_threshold default_manager < x) /\
    (mc !! "trend" = Some "unknown" <-> Num 25 = NaN).
Proof.
  apply (analysis_labels sample_atr sample_adx default_manager sample_frame
           [Num 3; Num 3] [Num 25; Num 25]).
  - reflexivity.
  - apply required_cols_forallb. reflexivity.
  - reflexivity.
  - reflexivity.
Defined.

(** ** CombinedStrategy on arbitrary frames *)

Lemma analyze_pvg_frame (self : CombinedStrategy.t) (data : DataFrame) :
  _analyze_pvg self data = Ok (pvg_frame self data).
Proof.
  unfold _analyze_pvg, pvg_frame. destruct (has_column "close" data) eqn:Hc;
    [| reflexivity].
  rewrite getitem_has_column by exact Hc. cbn [bind].
  rewrite getitem_setitem_other by (exact Hc || discriminate).
  rewrite getitem_has_column by exact Hc. reflexivity.
Qed.

Lemma analyze_smc_frame (self : CombinedStrategy.t) (data : DataFrame) :
  _analyze_smc self data = Ok (smc_frame self data).
Proof.
  unfold _analyze_smc, smc_frame.
  destruct (has_column "high" data) eqn:Hh, (has_column "low" data) eqn:Hl;
    try reflexivity. cbn [andb].
  rewrite getitem_has_column by exact Hh. cbn [bind].
  rewrite getitem_setitem_other by (exact Hl || discriminate).
  rewrite getitem_has_column by exact Hl. reflexivity.
Qed.

Lemma analyze_tpr_frame (self : CombinedStrategy.t) (data : DataFrame) :
  _analyze_tpr self data = Ok (tpr_frame self data).
Proof.
  unfold _analyze_tpr, tpr_frame. destruct (has_column "volume" data) eqn:Hv;
    [| reflexivity].
  rewrite getitem_has_column by exact Hv. reflexivity.
Qed.

Lemma tpr_frame_has_column (self : CombinedStrategy.t) (data : DataFrame) :
  "TPR_Volume_SMA" ∈ columns (tpr_frame self data).
Proof.
  unfold tpr_frame. destruct (has_column "volume" data); cbn;
    apply elem_of_union_l, elem_of_singleton; reflexivity.
Qed.

Lemma generate_signal_unfold (self : CombinedStrategy.t) (data : DataFrame) :
  generate_signal self data =
    Ok (if empty data then "HOLD"
        else match last (rows (dropna (processed_frame self data))) with
             | None => "HOLD"
             | Some latest_data => decide_row latest_data
             end).
Proof.
  unfold generate_signal, processed_frame.
  destruct (empty data); [reflexivity |].
  rewrite analyze_pvg_frame. cbn [bind].
  rewrite analyze_smc_frame. cbn [bind].
  rewrite analyze_tpr_frame. cbn [bind].
  set (p := dropna _). unfold empty, iloc_last.
  assert (Hcols : bool_decide (columns p = ∅) = false).
  { apply bool_decide_eq_false. intros Hnil.
    pose proof (tpr_frame_has_column self (smc_frame self (pvg_frame self data))) as Hin.
    change (columns p) with
      (columns (tpr_frame self (smc_frame self (pvg_frame self data)))) in Hnil.
    rewrite Hnil in Hin. apply not_elem_of_empty in Hin. exact Hin. }
  rewrite Hcols. cbn [orb].
  destruct (rows p) as [| r rs] eqn:Hrows; [reflexivity |].
  destruct (last (r :: rs)) as [latest_data |] eqn:Hlast;
    [| apply last_None in Hlast; discriminate].
  cbn [bind]. unfold decide_row.
  repeat match goal with
    | |- context [if ?c then _ else _] => destruct c
    end; reflexivity.
Qed.

(** [generate_signal] never raises: for every frame, whatever its columns
    and cells, it returns BUY, SELL or HOLD. *)
Theorem generate_signal_never_raises (self : CombinedStrategy.t) (data : DataFrame) :
  exists signal,
    generate_signal self data = Ok signal /\ signal ∈ ["BUY"; "SELL"; "HOLD"].
Proof.
  rewrite generate_signal_unfold. eexists. split; [reflexivity |].
  destruct (empty data); [list_mem |].
  destruct (last _) as [r |]; [| list_mem].
  unfold decide_row.
  repeat match goal with
    | |- context [if ?c then _ else _] => destruct c
    end; list_mem.
Qed.

Lemma has_column_setitem_ne (df : DataFrame) (col col' : string) (s : Series) :
  col <> col' -> has_column col (setitem df col' s) = has_column col df.
Proof.
  intros Hne. unfold has_column. cbn. apply bool_decide_ext.
  rewrite elem_of_union, elem_of_singleton. intuition congruence.
Qed.

Lemma has_column_pvg_frame (self : CombinedStrategy.t) (df : DataFrame) (col : string) :
  col <> "PVG_SMA_Short" -> col <> "PVG_SMA_Long" ->
  has_column col (pvg_frame self df) = has_column col df.
Proof.
  intros H1 H2. unfold pvg_frame. destruct (has_column "close" df); [| reflexivity].
  rewrite !has_column_setitem_ne by assumption. reflexivity.
Qed.

Lemma has_column_smc_frame (self : CombinedStrategy.t) (df : DataFrame) (col : string) :
  col <> "SMC_Swing_High" -> col <> "SMC_Swing_Low" ->
  has_column col (smc_frame self df) = has_column col df.
Proof.
  intros H1 H2. unfold smc_frame.
  destruct (has_column "high" df && has_column "low" df); [| reflexivity].
  rewrite !has_column_setitem_ne by assumption. reflexivity.
Qed.

Lemma no_nan_insert_nan (r : Row) (key : string) : ~ no_nan (<[key := NaN]> r).
Proof.
  unfold no_nan. intros H.
  specialize (H key NaN (lookup_insert_eq r key NaN)). discriminate.
Qed.

Lemma filter_none {A : Type} (P : A -> Prop) `{!forall x, Decision (P x)} (l : list A) :
  Forall (fun x => ~ P x) l -> filter P l = [].
Proof.
  induction 1 as [| x l Hx _ IH]; [reflexivity |].
  rewrite filter_cons. destruct (decide (P x)); [contradiction | exact IH].
Qed.

(** A frame without a volume column gives HOLD: the volume average is then
    NaN on every row, so no row survives the removal of rows with an
    undefined value. *)
Theorem generate_signal_without_volume (self : CombinedStrategy.t) (data : DataFrame) :
  has_column "volume" data = false ->
  generate_signal self data = Ok "HOLD".
Proof.
  intros Hv. rewrite generate_signal_unfold.
  destruct (empty data); [reflexivity |].
  unfold processed_frame, tpr_frame.
  rewrite has_column_smc_frame, has_column_pvg_frame, Hv by discriminate.
  cbn [dropna rows setitem_scalar]. rewrite filter_none; [reflexivity |].
  apply Forall_fmap, Forall_true. intros r. apply no_nan_insert_nan.
Qed.

Lemma generate_signal_without_volume_witness :
  generate_signal CombinedStrategy.__init__ sample_frame = Ok "HOLD".
Proof. apply generate_signal_without_volume. reflexivity. Defined.

(** *** Well-formed frames *)

Lemma wf_setitem (df : DataFrame) (col : string) (s : Series) :
  wf df -> wf (setitem df col s).
Proof.
  unfold wf. rewrite !Forall_lookup. intros Hwf i r Hr. cbn in Hr |- *.
  rewrite list_lookup_imap in Hr.
  destruct (rows df !! i) as [r0 |] eqn:Hr0; [| discriminate].
  cbn in Hr. injection Hr as <-. rewrite dom_insert_L, (Hwf i r0 Hr0). reflexivity.
Qed.

Lemma wf_setitem_scalar (df : DataFrame) (col : string) (x : pyfloat) :
  wf df -> wf (setitem_scalar df col x).
Proof.
  unfold wf. rewrite !Forall_lookup. intros Hwf i r Hr. cbn in Hr |- *.
  rewrite list_lookup_fmap in Hr.
  destruct (rows df !! i) as [r0 |] eqn:Hr0; [| discriminate].
  cbn in Hr. injection Hr as <-. rewrite dom_insert_L, (Hwf i r0 Hr0). reflexivity.
Qed.

Lemma wf_dropna (df : DataFrame) : wf df -> wf (dropna df).
Proof.
  unfold wf. rewrite !Forall_forall. intros Hwf r Hr. cbn in Hr |- *.
  apply list_elem_of_filter in Hr as [_ Hr]. apply Hwf, Hr.
Qed.

Lemma wf_processed_frame (self : CombinedStrategy.t) (df : DataFrame) :
  wf df -> wf (processed_frame self df).
Proof.
  intros Hwf. unfold processed_frame, tpr_frame, smc_frame, pvg_frame.
  repeat match goal with
    | |- context [if ?c then _ else _] => destruct c
    end;
    repeat first [apply wf_setitem | apply wf_setitem_scalar]; exact Hwf.
Qed.

Lemma wf_row_missing (df : DataFrame) (r : Row) (key : string) :
  wf df -> r ∈ rows df -> has_column key df = false -> r !! key = None.
Proof.
  unfold wf. rewrite Forall_forall. intros Hwf Hr Hkey.
  apply not_elem_of_dom. rewrite (Hwf r Hr).
  apply bool_decide_eq_false in Hkey. exact Hkey.
Qed.

Lemma has_column_tpr_frame (self : CombinedStrategy.t) (df : DataFrame) (col : string) :
  col <> "TPR_Volume_SMA" ->
  has_column col (tpr_frame self df) = has_column col df.
Proof.
  intros H. unfold tpr_frame. destruct (has_column "volume" df).
  - apply has_column_setitem_ne, H.
  - unfold has_column. cbn. apply bool_decide_ext.
    rewrite elem_of_union, elem_of_singleton. intuition congruence.
Qed.

Lemma has_column_dropna (df : DataFrame) (col : string) :
  has_column col (dropna df) = has_column col df.
Proof. reflexivity. Qed.

Ltac not_ohlcv :=
  let H := fresh in
  intros H; unfold ohlcv in H; rewrite !elem_of_union, !elem_of_singleton in H;
  intuition discriminate.

Lemma ohlcv_subset_not (df : DataFrame) (col : string) :
  columns df ⊆ ohlcv -> col ∉ ohlcv -> has_column col df = false.
Proof.
  intros Hsub Hnot. apply bool_decide_eq_false. intros Hin. apply Hnot, Hsub, Hin.
Qed.

(** A well-formed frame with no columns beyond open, high, low, close and
    volume that lacks the close, the high or the low column gives HOLD:
    the indicator columns that depend on the missing one are not added, and
    the defaults used in their place satisfy neither the BUY nor the SELL
    conditions. *)
Theorem generate_signal_missing_price_column (self : CombinedStrategy.t) (data : DataFrame) :
  wf data -> columns data ⊆ ohlcv ->
  has_column "close" data = false \/ has_column "high" data = false \/
  has_column "low" data = false ->
  generate_signal self data = Ok "HOLD".
Proof.
  intros Hwf Hsub Hmiss. rewrite generate_signal_unfold.
  destruct (empty data); [reflexivity |].
  destruct (last _) as [r |] eqn:Hlast; [| reflexivity]. f_equal.
  assert (Hr : r ∈ rows (dropna (processed_frame self data))).
  { apply last_Some in Hlast as [l' ->]. apply elem_of_app. right. left. }
  pose proof (wf_dropna _ (wf_processed_frame self data Hwf)) as Hwfp.
  assert (Hnone : forall key, has_column key (processed_frame self data) = false ->
                              r !! key = None).
  { intros key Hkey. apply (wf_row_missing _ r key Hwfp Hr). exact Hkey. }
  assert (Hnew : forall key, key ∉ ohlcv -> has_column key data = false)
    by (intros key; apply ohlcv_subset_not, Hsub).
  unfold decide_row, get.
  destruct Hmiss as [Hc | Hhl].
  - assert (H1 : r !! "close" = None).
    { apply Hnone. unfold processed_frame.
      rewrite has_column_tpr_frame, has_column_smc_frame, has_column_pvg_frame
        by discriminate. exact Hc. }
    assert (H2 : r !! "PVG_SMA_Long" = None).
    { apply Hnone. unfold processed_frame.
      rewrite has_column_tpr_frame, has_column_smc_frame by discriminate.
      unfold pvg_frame. rewrite Hc. apply Hnew. not_ohlcv. }
    rewrite H1, H2. cbn [default from_option id pf_gt pf_lt].
    change (Qgtb 0 0) with false. change (Qltb 0 0) with false.
    cbn [andb]. rewrite !andb_false_r. reflexivity.
  - assert (H1 : r !! "SMC_Swing_Low" = None /\ r !! "SMC_Swing_High" = None).
    { split; apply Hnone; unfold processed_frame;
        rewrite has_column_tpr_frame by discriminate;
        unfold smc_frame;
        rewrite !has_column_pvg_frame by discriminate;
        (replace (has_column "high" data && has_column "low" data) with false
           by (destruct Hhl as [-> | ->]; [reflexivity | rewrite andb_false_r; reflexivity]));
        rewrite has_column_pvg_frame by discriminate;
        apply Hnew; not_ohlcv. }
    destruct H1 as [H1 H2]. rewrite H1, H2.
    cbn [default from_option id]. change (pf_eq (Num 0) (Num 1)) with false.
    rewrite !andb_false_r. reflexivity.
Qed.

Lemma generate_signal_missing_price_column_witness :
  generate_signal CombinedStrategy.__init__ no_high_frame = Ok "HOLD".
Proof.
  apply generate_signal_missing_price_column.
  - repeat constructor.
  - unfold no_high_frame, ohlcv. cbn [columns]. intros x Hx.
    rewrite !elem_of_union, !elem_of_singleton in *. tauto.
  - right. left. reflexivity.
Defined.

(** *** Bar frames with undefined values *)

Lemma column_length (data : DataFrame) (col : string) :
  length (column data col) = length (rows data).
Proof. apply length_fmap. Qed.

Lemma column_lookup (data : DataFrame) (col : string) (i : nat) (r : Row) :
  rows data !! i = Some r -> column data col !! i = Some (cell col r).
Proof. intros Hr. unfold column. rewrite list_lookup_fmap, Hr. reflexivity. Qed.

Lemma sma_indicator_at (n : nat) (s : Series) (i : nat) :
  (i < length s)%nat ->
  default NaN (sma_indicator s n !! i) = opt_num (sma_at n s i).
Proof.
  intros Hi. unfold sma_indicator, rolling_mean, rolling, sma_at.
  rewrite list_lookup_fmap, lookup_seq_lt by exact Hi. cbn.
  destruct (window n s i); reflexivity.
Qed.

Lemma swing_high_series_at (n : nat) (s : Series) (i : nat) :
  (i < length s)%nat ->
  default NaN (series_eq_int (rolling_max n s) s !! i) = flag (swing_high_at n s i).
Proof.
  intros Hi. unfold series_eq_int, rolling_max, rolling, swing_high_at.
  rewrite lookup_zip_with, list_lookup_fmap, lookup_seq_lt by exact Hi. cbn.
  destruct (lookup_lt_is_Some_2 s i Hi) as [x Hx]. rewrite Hx. cbn.
  destruct (window n s i), x; reflexivity.
Qed.

Lemma swing_low_series_at (n : nat) (s : Series) (i : nat) :
  (i < length s)%nat ->
  default NaN (series_eq_int (rolling_min n s) s !! i) = flag (swing_low_at n s i).
Proof.
  intros Hi. unfold series_eq_int, rolling_min, rolling, swing_low_at.
  rewrite lookup_zip_with, list_lookup_fmap, lookup_seq_lt by exact Hi. cbn.
  destruct (lookup_lt_is_Some_2 s i Hi) as [x Hx]. rewrite Hx. cbn.
  destruct (window n s i), x; reflexivity.
Qed.

Lemma bar_frame_has_column (data : DataFrame) (col : string) :
  bar_frame data -> col ∈ ["high"; "low"; "close"; "volume"] ->
  has_column col data = true.
Proof.
  intros (_ & Hcols & _) Hin. apply bool_decide_eq_true, Hcols.
  rewrite !elem_of_union, !elem_of_singleton. list_mem.
Qed.

Lemma processed_frame_rows (data : DataFrame) :
  bar_frame data ->
  rows (processed_frame CombinedStrategy.__init__ data) =
    imap (with_indicators data) (rows data).
Proof.
  intros Hbar.
  unfold processed_frame, tpr_frame, smc_frame, pvg_frame.
  rewrite (bar_frame_has_column data "close") by (exact Hbar || list_mem).
  rewrite !has_column_setitem_ne by discriminate.
  rewrite (bar_frame_has_column data "high"), (bar_frame_has_column data "low")
    by (exact Hbar || list_mem).
  cbn [andb]. rewrite !has_column_setitem_ne by discriminate.
  rewrite (bar_frame_has_column data "volume") by (exact Hbar || list_mem).
  rewrite !cells_setitem_other by discriminate.
  fold (column data "close") (column data "high") (column data "low")
    (column data "volume").
  cbn [rows setitem CombinedStrategy.__init__ pvg_short_period pvg_long_period
         smc_lookback tpr_volume_period].
  apply list_eq. intros i. rewrite !list_lookup_imap.
  destruct (rows data !! i) as [r |] eqn:Hr; [| reflexivity].
  assert (Hi : (i < length (rows data))%nat) by (eapply lookup_lt_Some; exact Hr).
  cbn [fmap option_fmap option_map]. unfold with_indicators.
  rewrite !sma_indicator_at, swing_high_series_at, swing_low_series_at
    by (rewrite column_length; exact Hi).
  reflexivity.
Qed.

Lemma bar_frame_row (data : DataFrame) (i : nat) (r : Row) :
  bar_frame data -> rows data !! i = Some r ->
  (forall col, col ∈ indicator_columns -> r !! col = None) /\
  (forall col, col ∈ ["high"; "low"; "close"; "volume"] -> is_Some (r !! col)).
Proof.
  intros (Hwf & Hcols & Hdisj) Hr.
  assert (Hdom : dom r = columns data).
  { unfold wf in Hwf. rewrite Forall_lookup in Hwf. exact (Hwf i r Hr). }
  split; intros col Hcol.
  - apply not_elem_of_dom. rewrite Hdom. intros Hin. exact (Hdisj col Hin Hcol).
  - apply elem_of_dom. rewrite Hdom. apply Hcols.
    rewrite !elem_of_union, !elem_of_singleton. list_mem.
Qed.

Lemma no_nan_with_indicators (data : DataFrame) (i : nat) (r : Row) :
  (forall col, col ∈ indicator_columns -> r !! col = None) ->
  no_nan (with_indicators data i r) <-> no_nan r /\ indicators_at data i.
Proof.
  intros Hnone. unfold no_nan, with_indicators, indicators_at.
  assert (Hk : forall col, col ∈ indicator_columns -> r !! col = None) by exact Hnone.
  unfold indicator_columns in Hk.
  rewrite !map_Forall_insert
    by (rewrite ?lookup_insert_ne by discriminate; apply Hk;
        rewrite !elem_of_union, !elem_of_singleton; tauto).
  rewrite !isnan_opt_num, !isnan_flag. tauto.
Qed.

Lemma imap_seq_default {A B : Type} (f : nat -> A -> B) (d : A) (l : list A) :
  imap f l = (fun i => f i (default d (l !! i))) <$> seq 0 (length l).
Proof.
  apply list_eq. intros i. rewrite list_lookup_imap, list_lookup_fmap.
  destruct (l !! i) as [x |] eqn:Hx; cbn.
  - rewrite lookup_seq_lt by (eapply lookup_lt_Some; exact Hx). cbn.
    rewrite Hx. reflexivity.
  - rewrite lookup_seq_ge by (apply lookup_ge_None; exact Hx). reflexivity.
Qed.

Lemma dropna_with_indicators (data : DataFrame) :
  bar_frame data ->
  filter no_nan (imap (with_indicators data) (rows data)) =
    (fun i => with_indicators data i (default ∅ (rows data !! i))) <$> kept data.
Proof.
  intros Hbar. rewrite (imap_seq_default _ ∅), filter_fmap_list.
  f_equal. unfold kept. apply filter_ext_elem. intros i Hi.
  apply elem_of_seq in Hi as [_ Hi]. cbn in Hi.
  destruct (lookup_lt_is_Some_2 (rows data) i Hi) as [r Hr].
  unfold values_at. rewrite Hr. cbn [default from_option id].
  apply no_nan_with_indicators.
  apply (bar_frame_row data i r Hbar Hr).
Qed.

Lemma with_indicators_cells (data : DataFrame) (i : nat) (r : Row) :
  let r' := with_indicators data i r in
  r' !! "PVG_SMA_Short" = Some (opt_num (sma_at 14 (column data "close") i)) /\
  r' !! "PVG_SMA_Long" = Some (opt_num (sma_at 50 (column data "close") i)) /\
  r' !! "SMC_Swing_High" = Some (flag (swing_high_at 20 (column data "high") i)) /\
  r' !! "SMC_Swing_Low" = Some (flag (swing_low_at 20 (column data "low") i)) /\
  r' !! "TPR_Volume_SMA" = Some (opt_num (sma_at 20 (column data "volume") i)) /\
  r' !! "close" = r !! "close".
Proof.
  cbn zeta. unfold with_indicators.
  repeat split;
    repeat (rewrite lookup_insert_ne by discriminate);
    rewrite ?lookup_insert_eq; reflexivity.
Qed.

Lemma decide_with_indicators (data : DataFrame) (i : nat) (r : Row) :
  bar_frame data -> rows data !! i = Some r -> no_nan r -> indicators_at data i ->
  decide_row (with_indicators data i r) = rule_at data i.
Proof.
  intros Hbar Hr Hnum ([short Hshort] & [long Hlong] & [vol Hvol]).
  destruct (bar_frame_row data i r Hbar Hr) as [_ Hsome].
  destruct (Hsome "close" ltac:(list_mem)) as [c Hc].
  assert (Hcnum : isnan c = false) by exact (Hnum "close" c Hc).
  destruct c as [c |]; [| discriminate]. clear Hcnum.
  assert (Hcol : column data "close" !! i = Some (Num c)).
  { rewrite (column_lookup data "close" i r Hr). unfold cell. rewrite Hc. reflexivity. }
  unfold rule_at. cbv zeta. rewrite Hcol, Hshort, Hlong, Hvol.
  destruct (with_indicators_cells data i r) as (Hc1 & Hc2 & Hc3 & Hc4 & Hc5 & Hc6).
  unfold decide_row, get. rewrite Hc1, Hc2, Hc3, Hc4, Hc5, Hc6, Hc.
  rewrite Hshort, Hlong, Hvol. cbn [opt_num default from_option id].
  rewrite !pf_eq_flag. cbn [pf_gt pf_lt].
  destruct (Qgtb short long), (swing_low_at 20 (column data "low") i),
    (Qgtb c long), (Qgtb vol 0), (Qltb short long),
    (swing_high_at 20 (column data "high") i), (Qltb c long);
    reflexivity.
Qed.

Lemma kept_all_numbers (data : DataFrame) :
  Forall no_nan (rows data) -> kept data = kept_by_indicators data.
Proof.
  intros Hnum. unfold kept, kept_by_indicators. apply filter_ext_elem. intros i Hi.
  apply elem_of_seq in Hi as [_ Hi]. cbn in Hi.
  destruct (lookup_lt_is_Some_2 (rows data) i Hi) as [r Hr].
  unfold values_at. rewrite Hr. cbn [default from_option id].
  rewrite Forall_lookup in Hnum. pose proof (Hnum i r Hr). tauto.
Qed.

Lemma generate_signal_kept (data : DataFrame) :
  bar_frame data ->
  generate_signal CombinedStrategy.__init__ data = Ok (rule_on data (kept data)).
Proof.
  intros Hbar. rewrite generate_signal_unfold. f_equal.
  destruct (empty data) eqn:Hempty.
  { unfold empty in Hempty. apply orb_true_iff in Hempty as [Hcols | Hrows].
    - apply bool_decide_eq_true in Hcols. destruct Hbar as (_ & Hsub & _).
      exfalso. apply (not_elem_of_empty (C := gset string) "close").
      rewrite <- Hcols. apply Hsub.
      rewrite !elem_of_union, !elem_of_singleton. tauto.
    - assert (Hlen : length (rows data) = 0%nat)
        by (destruct (rows data); [reflexivity | discriminate]).
      unfold rule_on, kept. rewrite Hlen. reflexivity. }
  cbn [dropna rows]. rewrite processed_frame_rows, dropna_with_indicators by exact Hbar.
  rewrite fmap_last. unfold rule_on.
  destruct (last (kept data)) as [i |] eqn:Hlast; [| reflexivity].
  cbn [fmap option_fmap option_map].
  assert (Hi : i ∈ kept data).
  { apply last_Some in Hlast as [l' ->]. apply elem_of_app. right. left. }
  unfold kept in Hi. apply list_elem_of_filter in Hi as [[Hval Hind] Hseq].
  apply elem_of_seq in Hseq as [_ Hlt]. cbn in Hlt.
  destruct (lookup_lt_is_Some_2 (rows data) i Hlt) as [r Hr].
  unfold values_at in Hval. rewrite Hr in Hval |- *.
  cbn [default from_option id] in Hval |- *.
  apply (decide_with_indicators data i r Hbar Hr Hval Hind).
Qed.

Lemma bar_frame_ohlcv (data : DataFrame) :
  columns data = ohlcv -> wf data -> bar_frame data.
Proof.
  intros Hcols Hwf. split; [exact Hwf |]. rewrite Hcols. unfold ohlcv, indicator_columns.
  split.
  - intros col. rewrite !elem_of_union, !elem_of_singleton. tauto.
  - intros col. rewrite !elem_of_union, !elem_of_singleton.
    intros H1 H2. destruct H2 as [[[[-> | ->] | ->] | ->] | ->];
      repeat (destruct H1 as [H1 | H1]; [| discriminate H1]); discriminate H1.
Qed.

Lemma dom_nan_row (o h l c v : pyfloat) : dom (nan_row o h l c v) = ohlcv.
Proof. unfold nan_row, ohlcv. rewrite !dom_insert_L, dom_singleton_L. set_solver. Qed.

Lemma bar_row_nan_row (b : Bar) :
  bar_row b = nan_row (Num (bar_open b)) (Num (bar_high b)) (Num (bar_low b))
                (Num (bar_close b)) (Num (bar_volume b)).
Proof. reflexivity. Qed.

Lemma no_nan_bar_row (b : Bar) : no_nan (bar_row b).
Proof.
  unfold no_nan, bar_row. rewrite !map_Forall_insert by reflexivity.
  rewrite map_Forall_singleton. cbn [isnan]. tauto.
Qed.

Lemma bar_frame_bars (bars : list Bar) :
  bar_frame (bars_frame bars) /\ Forall no_nan (rows (bars_frame bars)).
Proof.
  split.
  - apply bar_frame_ohlcv; [reflexivity |]. unfold wf. cbn [rows columns bars_frame].
    apply Forall_fmap, Forall_true. intros b. cbn. rewrite bar_row_nan_row.
    apply dom_nan_row.
  - cbn [rows bars_frame]. apply Forall_fmap, Forall_true. exact no_nan_bar_row.
Qed.

Lemma bar_frame_nan_open : bar_frame nan_open_frame.
Proof.
  apply bar_frame_ohlcv; [reflexivity |]. unfold wf. cbn [rows columns nan_open_frame].
  apply Forall_app. split.
  - apply Forall_fmap, Forall_true. intros b. cbn. rewrite bar_row_nan_row.
    apply dom_nan_row.
  - constructor; [apply dom_nan_row | constructor].
Qed.

(** C9, as stated, fails: in this frame of 61 bars only the last one has
    an undefined value, its open.  Every indicator value of that bar is
    defined, so the claim evaluates the rule on it and gets HOLD (its low
    is not the lowest of the last 20).  The code discards the bar with the
    others that hold an undefined value, evaluates the bar before it and
    returns BUY. *)
Lemma generate_signal_rule_counterexample :
  bar_frame nan_open_frame /\
  last (kept_by_indicators nan_open_frame) = Some 60%nat /\
  rule_on nan_open_frame (kept_by_indicators nan_open_frame) = "HOLD" /\
  generate_signal CombinedStrategy.__init__ nan_open_frame = Ok "BUY" /\
  generate_signal CombinedStrategy.__init__ nan_open_frame
    <> Ok (rule_on nan_open_frame (kept_by_indicators nan_open_frame)).
Proof.
  split; [exact bar_frame_nan_open |].
  assert (Hrule : rule_on nan_open_frame (kept_by_indicators nan_open_frame) = "HOLD")
    by (vm_compute; reflexivity).
  assert (Hcode : generate_signal CombinedStrategy.__init__ nan_open_frame = Ok "BUY")
    by (vm_compute; reflexivity).
  split; [vm_compute; reflexivity |]. split; [exact Hrule |]. split; [exact Hcode |].
  rewrite Hrule, Hcode. discriminate.
Qed.

(** C9 (amended): on a bar series whose values may be undefined (a
    well-formed frame with the high, low, close and volume columns and no
    column named like an indicator), [generate_signal] returns the signal
    of the rule evaluated on the most recent bar that is left once every
    bar with an undefined value, in any of its columns or in an indicator,
    is discarded: BUY when short SMA(14) > long SMA(50), the bar is a
    20-period swing low, close > long SMA and the volume SMA(20) is
    positive; otherwise SELL when short SMA < long SMA, the bar is a swing
    high, close < long SMA and the volume SMA is positive; otherwise HOLD;
    and HOLD when the series is empty or no bar is left.  When every value
    of the series is a number, the bars left are those whose indicator
    values are defined, as the claim has it. *)
Theorem generate_signal_rule (data : DataFrame) :
  bar_frame data ->
  generate_signal CombinedStrategy.__init__ data = Ok (rule_on data (kept data))
  /\ (Forall no_nan (rows data) ->
      generate_signal CombinedStrategy.__init__ data
        = Ok (rule_on data (kept_by_indicators data))).
Proof.
  intros Hbar. split; [exact (generate_signal_kept data Hbar) |].
  intros Hnum. rewrite <- (kept_all_numbers data Hnum).
  exact (generate_signal_kept data Hbar).
Qed.

Lemma generate_signal_rule_witness :
  generate_signal CombinedStrategy.__init__ nan_open_frame
    = Ok (rule_on nan_open_frame (kept nan_open_frame))
  /\ generate_signal CombinedStrategy.__init__ (bars_frame (rising_bars 60))
       = Ok (rule_on (bars_frame (rising_bars 60))
               (kept_by_indicators (bars_frame (rising_bars 60)))).
Proof.
  split.
  - apply (proj1 (generate_signal_rule nan_open_frame bar_frame_nan_open)).
  - apply (proj2 (generate_signal_rule (bars_frame (rising_bars 60))
                    (proj1 (bar_frame_bars (rising_bars 60))))).
    apply (proj2 (bar_frame_bars (rising_bars 60))).
Defined.

(** ** CombinedStrategy on bar series *)

Lemma Ok_inj {A : Type} (x y : A) : Ok x = Ok y -> x = y.
Proof. intros H. injection H as H. exact H. Qed.

Lemma processed_frame_bars (bars : list Bar) :
  processed_frame CombinedStrategy.__init__ (bars_frame bars) =
    indexed_frame processed_columns (processed_row bars) bars.
Proof.
  pose proof (analyses_bars bars) as H.
  rewrite analyze_pvg_frame in H. cbn [bind] in H.
  rewrite analyze_smc_frame in H. cbn [bind] in H.
  rewrite analyze_tpr_frame in H. apply Ok_inj, H.
Qed.

Lemma decide_processed_row (bars : list Bar) (i : nat) (bar : Bar) (short long vol : Q) :
  sma 14 (bar_close <$> bars) i = Some short ->
  sma 50 (bar_close <$> bars) i = Some long ->
  sma 20 (bar_volume <$> bars) i = Some vol ->
  decide_row (processed_row bars i bar) =
    if Qgtb short long && swing_low 20 (bar_low <$> bars) i
       && Qgtb (bar_close bar) long && Qgtb vol 0
    then "BUY"
    else if Qltb short long && swing_high 20 (bar_high <$> bars) i
            && Qltb (bar_close bar) long && Qgtb vol 0
    then "SELL"
    else "HOLD".
Proof.
  intros Hshort Hlong Hvol.
  destruct (processed_row_cells bars i bar) as (Hc1 & Hc2 & Hc3 & Hc4 & Hc5 & Hc6).
  unfold decide_row, get. rewrite Hc1, Hc2, Hc3, Hc4, Hc5, Hc6.
  rewrite Hshort, Hlong, Hvol. cbn [opt_num default from_option id].
  rewrite !pf_eq_flag. cbn [pf_gt pf_lt].
  destruct (Qgtb short long), (swing_low 20 (bar_low <$> bars) i),
    (Qgtb (bar_close bar) long), (Qgtb vol 0), (Qltb short long),
    (swing_high 20 (bar_high <$> bars) i), (Qltb (bar_close bar) long);
    reflexivity.
Qed.

Lemma generate_signal_bars (bars : list Bar) :
  generate_signal CombinedStrategy.__init__ (bars_frame bars) = Ok (signal_rule bars).
Proof.
  rewrite generate_signal_unfold. f_equal.
  destruct bars as [| b0 bars']; [reflexivity |].
  change (empty (bars_frame (b0 :: bars'))) with false. cbv iota.
  remember (b0 :: bars') as bars eqn:Hbars. clear Hbars b0 bars'.
  rewrite processed_frame_bars, dropna_processed, fmap_last. unfold signal_rule.
  destruct (last (retained bars)) as [i |] eqn:Hlast; [| reflexivity].
  assert (Hi : i ∈ retained bars).
  { apply last_Some in Hlast as [l' ->]. apply elem_of_app. right. left. }
  apply retained_elem in Hi as [Hlt ([short Hshort] & [long Hlong] & [vol Hvol])].
  destruct (lookup_lt_is_Some_2 bars i Hlt) as [bar Hbar].
  cbn [fmap option_fmap option_map]. unfold row_at.
  rewrite Hbar, Hshort, Hlong, Hvol.
  apply (decide_processed_row bars i bar short long vol Hshort Hlong Hvol).
Qed.

Lemma sma_is_Some (n : nat) (xs : list Q) (i : nat) :
  is_Some (sma n xs i) <-> (n <= S i /\ S i <= length xs)%nat.
Proof.
  unfold sma, recent. destruct (bool_decide _) eqn:E.
  - apply bool_decide_eq_true in E. split; [intros _; exact E | intros _; eexists; reflexivity].
  - apply bool_decide_eq_false in E. split; [intros [? H]; discriminate | intros H; contradiction].
Qed.

Lemma indicators_defined_iff (bars : list Bar) (i : nat) :
  indicators_defined bars i <-> (49 <= i /\ i < length bars)%nat.
Proof.
  unfold indicators_defined. rewrite !sma_is_Some, !length_fmap. lia.
Qed.

Lemma retained_few_bars (bars : list Bar) :
  (length bars < 50)%nat -> retained bars = [].
Proof.
  intros Hlen. unfold retained. apply filter_none, Forall_forall.
  intros i _. rewrite indicators_defined_iff. lia.
Qed.

Lemma retained_last (bars : list Bar) :
  (50 <= length bars)%nat -> last (retained bars) = Some (pred (length bars)).
Proof.
  intros Hlen. unfold retained.
  destruct (length bars) as [| n] eqn:Hn; [lia |]. cbn [pred].
  rewrite seq_S, filter_app. cbn [Nat.add].
  rewrite filter_cons, decide_True by (apply indicators_defined_iff; lia).
  rewrite filter_nil. apply last_snoc.
Qed.

(** The strategy needs 50 bars: a shorter bar series always gives HOLD,
    and from 50 bars on the decision is taken on the last bar of the
    series, with the averages and swing markers of that bar. *)
Theorem generate_signal_fifty_bars (bars : list Bar) :
  ((length bars < 50)%nat ->
   generate_signal CombinedStrategy.__init__ (bars_frame bars) = Ok "HOLD")
  /\ ((50 <= length bars)%nat ->
      let i := pred (length bars) in
      exists (bar : Bar) (short long vol : Q),
        last bars = Some bar /\
        sma 14 (bar_close <$> bars) i = Some short /\
        sma 50 (bar_close <$> bars) i = Some long /\
        sma 20 (bar_volume <$> bars) i = Some vol /\
        let buy := long < short /\ swing_low 20 (bar_low <$> bars) i = true /\
                   long < bar_close bar /\ 0 < vol in
        let sell := short < long /\ swing_high 20 (bar_high <$> bars) i = true /\
                    bar_close bar < long /\ 0 < vol in
        (generate_signal CombinedStrategy.__init__ (bars_frame bars) = Ok "BUY" <-> buy) /\
        (generate_signal CombinedStrategy.__init__ (bars_frame bars) = Ok "SELL" <->
         ~ buy /\ sell)).
Proof.
  rewrite generate_signal_bars. split.
  - intros Hlen. rewrite (signal_rule_no_bar_left bars (retained_few_bars bars Hlen)).
    reflexivity.
  - intros Hlen. cbn zeta. pose proof (retained_last bars Hlen) as Hlast.
    assert (Hdef : indicators_defined bars (pred (length bars)))
      by (apply indicators_defined_iff; lia).
    destruct Hdef as ([short Hshort] & [long Hlong] & [vol Hvol]).
    destruct (lookup_lt_is_Some_2 bars (pred (length bars)) ltac:(lia)) as [bar Hbar].
    exists bar, short, long, vol.
    split; [rewrite last_lookup; exact Hbar |].
    repeat (split; [assumption |]).
    destruct (signal_rule_cases bars _ bar short long vol Hlast Hbar Hshort Hlong Hvol)
      as (Hbuy & Hsell & _).
    split.
    + rewrite <- Hbuy. split; [intros [= ->]; reflexivity | intros ->; reflexivity].
    + rewrite <- Hsell. split; [intros [= ->]; reflexivity | intros ->; reflexivity].
Qed.

Lemma generate_signal_fifty_bars_witness :
  generate_signal CombinedStrategy.__init__ (bars_frame (rising_bars 30)) = Ok "HOLD"
  /\ exists (bar : Bar) (short long vol : Q),
       last (rising_bars 60) = Some bar /\
       sma 14 (bar_close <$> rising_bars 60) 59 = Some short /\
       sma 50 (bar_close <$> rising_bars 60) 59 = Some long /\
       sma 20 (bar_volume <$> rising_bars 60) 59 = Some vol /\
       let buy := long < short /\ swing_low 20 (bar_low <$> rising_bars 60) 59 = true /\
                  long < bar_close bar /\ 0 < vol in
       let sell := short < long /\ swing_high 20 (bar_high <$> rising_bars 60) 59 = true /\
                   bar_close bar < long /\ 0 < vol in
       (generate_signal CombinedStrategy.__init__ (bars_frame (rising_bars 60)) = Ok "BUY"
        <-> buy) /\
       (generate_signal CombinedStrategy.__init__ (bars_frame (rising_bars 60)) = Ok "SELL"
        <-> ~ buy /\ sell).
Proof.
  split.
  - apply (proj1 (generate_signal_fifty_bars (rising_bars 30))). vm_compute. lia.
  - apply (proj2 (generate_signal_fifty_bars (rising_bars 60))). vm_compute. lia.
Defined.

Lemma Qsum_constant (c : Q) (w : list Q) :
  Forall (fun x => x == c) w -> Qsum w == c * inject_Z (Z.of_nat (length w)).
Proof.
  induction 1 as [| x w Hx Hw IH]; [cbn; ring |].
  change (Qsum (x :: w)) with (x + Qsum w). rewrite IH, Hx.
  cbn [length]. rewrite Nat2Z.inj_succ, <- Z.add_1_r, inject_Z_plus. ring.
Qed.

Lemma mean_constant (c : Q) (w : list Q) :
  w <> [] -> Forall (fun x => x == c) w -> mean w == c.
Proof.
  intros Hne Hall. unfold mean. rewrite (Qsum_constant c w Hall).
  assert (Hlen : ~ inject_Z (Z.of_nat (length w)) == 0).
  { destruct w; [contradiction |]. unfold Qeq. cbn. lia. }
  field. exact Hlen.
Qed.

Lemma sma_constant (c : Q) (n : nat) (xs : list Q) (i : nat) (m : Q) :
  (0 < n)%nat -> Forall (fun x => x == c) xs -> sma n xs i = Some m -> m == c.
Proof.
  intros Hn Hall. unfold sma, recent.
  destruct (bool_decide _) eqn:E; [| discriminate]. apply bool_decide_eq_true in E.
  cbn. intros [= <-]. apply mean_constant.
  - intros Hnil. apply (f_equal length) in Hnil.
    rewrite length_take, length_drop in Hnil. cbn in Hnil. lia.
  - apply Forall_take, Forall_drop, Hall.
Qed.

(** A bar series whose closes are all equal gives HOLD, however long it is
    and whatever its highs, lows and volumes: the short and the long
    average coincide, so neither trend condition holds. *)
Theorem generate_signal_flat_close (bars : list Bar) (c : Q) :
  Forall (fun b => bar_close b == c) bars ->
  generate_signal CombinedStrategy.__init__ (bars_frame bars) = Ok "HOLD".
Proof.
  intros Hflat. rewrite generate_signal_bars. f_equal. unfold signal_rule.
  destruct (last (retained bars)) as [i |]; [| reflexivity].
  destruct (bars !! i) as [bar |]; [| reflexivity].
  destruct (sma 14 (bar_close <$> bars) i) as [short |] eqn:Hshort; [| reflexivity].
  destruct (sma 50 (bar_close <$> bars) i) as [long |] eqn:Hlong; [| reflexivity].
  destruct (sma 20 (bar_volume <$> bars) i) as [vol |]; [| reflexivity].
  assert (Hcloses : Forall (fun x => x == c) (bar_close <$> bars))
    by (apply Forall_fmap; exact Hflat).
  pose proof (sma_constant c 14 _ i short ltac:(lia) Hcloses Hshort) as Hs.
  pose proof (sma_constant c 50 _ i long ltac:(lia) Hcloses Hlong) as Hl.
  destruct (Qgtb short long) eqn:E1; q_reflect; [lra |].
  destruct (Qltb short long) eqn:E2; q_reflect; [lra |].
  reflexivity.
Qed.

Lemma generate_signal_flat_close_witness :
  generate_signal CombinedStrategy.__init__ (bars_frame (flat_bars 70)) = Ok "HOLD".
Proof.
  apply (generate_signal_flat_close (flat_bars 70) 150).
  unfold flat_bars. apply Forall_fmap, Forall_true. intros i. reflexivity.
Defined.

(** ** The trading agent of the dashboard *)

Section AgentProps.

Import TradingAgent.

Variable strftime : nat -> string.
Variable Broker : Type.
Variable AlpacaIntegration : string -> string -> Broker.
Variable fetch_historical_data : Broker -> string -> nat -> result DataFrame.
Variable str_2f : pyfloat -> string.
Variable str_int : nat -> string.
Variable str_exn : exn -> string.

Local Abbreviation add_log := (TradingAgent.add_log strftime).
Local Abbreviation process_symbol :=
  (TradingAgent.process_symbol strftime Broker fetch_historical_data str_2f str_int str_exn).
Local Abbreviation process_symbol_try :=
  (TradingAgent.process_symbol_try strftime Broker fetch_historical_data str_2f str_int).
Local Abbreviation process_symbols :=
  (TradingAgent.process_symbols strftime Broker fetch_historical_data str_2f str_int str_exn).

Lemma removelast_take {A : Type} (l : list A) :
  removelast l = take (pred (length l)) l.
Proof.
  induction l as [| x l IH]; [reflexivity |].
  destruct l as [| y l]; [reflexivity |].
  change (removelast (x :: y :: l)) with (x :: removelast (y :: l)).
  rewrite IH. reflexivity.
Qed.

Lemma trim_log (entry : string) (l : list string) :
  (length l <= 100)%nat ->
  (if (100 <? length (entry :: l))%nat then removelast (entry :: l) else entry :: l)
  = take 100 (entry :: l).
Proof.
  intros Hlen. destruct (100 <? length (entry :: l))%nat eqn:E.
  - apply Nat.ltb_lt in E. cbn [length] in E.
    rewrite removelast_take. cbn [length pred].
    replace (length l) with 100%nat by lia. reflexivity.
  - apply Nat.ltb_ge in E. rewrite take_ge by exact E. reflexivity.
Qed.

Lemma add_log_run (message : string) (st : session_state) :
  add_log message st = (logged strftime message st, Ok tt).
Proof. reflexivity. Qed.

Lemma logged_fields (message : string) (st : session_state) :
  agent_status (logged strftime message st) = agent_status st /\
  positions (logged strftime message st) = positions st /\
  TradingAgent.account_balance (logged strftime message st)
    = TradingAgent.account_balance st /\
  clock (logged strftime message st) = S (clock st).
Proof. repeat split; reflexivity. Qed.

Lemma logged_logs (message : string) (st : session_state) :
  (length (logs st) <= 100)%nat ->
  logs (logged strftime message st)
    = take 100 (("[" +:+ strftime (clock st) +:+ "] " +:+ message) :: logs st).
Proof.
  intros Hlen. unfold logged, TradingAgent.add_log. cbn [fst logs].
  apply trim_log, Hlen.
Qed.

Lemma logged_bound (message : string) (st : session_state) :
  (length (logs st) <= 100)%nat -> (length (logs (logged strftime message st)) <= 100)%nat.
Proof. intros Hlen. rewrite logged_logs by exact Hlen. rewrite length_take. lia. Qed.

(** [add_log] puts the new line, its timestamp in front, at the head of
    the log and keeps the 100 most recent lines: a log of at most 100 lines
    becomes the first 100 lines of the new line followed by the old log.
    Nothing else in the session changes but the clock, and the call does
    not raise. *)
Theorem add_log_keeps_latest (message : string) (st : session_state) :
  (length (logs st) <= 100)%nat ->
  exists st',
    add_log message st = (st', Ok tt) /\
    logs st' = take 100 (("[" +:+ strftime (clock st) +:+ "] " +:+ message) :: logs st) /\
    (length (logs st') <= 100)%nat /\
    agent_status st' = agent_status st /\
    positions st' = positions st /\
    TradingAgent.account_balance st' = TradingAgent.account_balance st.
Proof.
  intros Hlen. exists (logged strftime message st).
  split; [apply add_log_run |].
  split; [apply logged_logs, Hlen |].
  split; [apply logged_bound, Hlen |].
  repeat split; reflexivity.
Qed.

Lemma datetime_now_run (st : session_state) :
  datetime_now st = (ticked st, Ok (clock st)).
Proof. reflexivity. Qed.

Lemma set_agent_status_run (status : string) (st : session_state) :
  set_agent_status status st = (with_status status st, Ok tt).
Proof. reflexivity. Qed.

Lemma append_position_run (p : Position) (st : session_state) :
  append_position p st = (with_position p st, Ok tt).
Proof. reflexivity. Qed.

Lemma only_logged_refl (st : session_state) : only_logged st st.
Proof. repeat split; auto. Qed.

Lemma only_logged_trans (st1 st2 st3 : session_state) :
  only_logged st1 st2 -> only_logged st2 st3 -> only_logged st1 st3.
Proof.
  intros (H1 & H2 & H3 & H4) (H1' & H2' & H3' & H4').
  repeat split; [auto | congruence | congruence | congruence].
Qed.

Lemma only_logged_logged (message : string) (st : session_state) :
  only_logged st (logged strftime message st).
Proof. repeat split. apply logged_bound. Qed.

Lemma only_logged_ticked (st : session_state) : only_logged st (ticked st).
Proof. repeat split; auto. Qed.

Lemma turn_safe_after (rm : RiskManager.t) (st st1 st2 : session_state) (f : flow) :
  only_logged st st1 -> turn_safe rm st1 st2 f -> turn_safe rm st st2 f.
Proof.
  intros (H1 & H2 & H3 & H4) (H1' & H2' & Hf).
  split; [auto |]. split; [congruence |].
  rewrite <- H3, <- H4. exact Hf.
Qed.

Lemma turn_safe_only_logged (rm : RiskManager.t) (st st' : session_state) :
  only_logged st st' -> turn_safe rm st st' Next.
Proof.
  intros (H1 & H2 & H3 & H4). split; [exact H1 |]. split; [exact H2 |].
  left. split; [reflexivity |]. split; [exact H3 |]. left. exact H4.
Qed.

(** Stepping through monadic code. *)
Ltac mrun :=
  repeat (cbv beta iota delta [mbind mtry ret lift raise];
          rewrite ?add_log_run, ?datetime_now_run, ?set_agent_status_run,
            ?append_position_run).

Ltac logged_chain :=
  repeat first [ apply only_logged_refl
               | eapply only_logged_trans; [| apply only_logged_logged]
               | eapply only_logged_trans; [| apply only_logged_ticked] ].

Lemma process_symbol_try_safe (self : TradingAgent.t Broker) (symbol : string)
    (st : session_state) :
  exists st' r,
    process_symbol_try self symbol st = (st', r) /\
    match r with
    | Ok f => turn_safe (risk_manager self) st st' f
    | Raise _ => only_logged st st'
    end.
Proof.
  unfold TradingAgent.process_symbol_try. mrun.
  destruct (fetch_historical_data _ _ _) as [data | e];
    [| eexists _, _; split; [reflexivity |]; logged_chain].
  destruct (empty data).
  { mrun. eexists _, _. split; [reflexivity |].
    apply turn_safe_only_logged. logged_chain. }
  mrun. destruct (generate_signal _ _) as [signal | e];
    [| eexists _, _; split; [reflexivity |]; logged_chain].
  mrun. destruct (String.eqb signal "BUY" || String.eqb signal "SELL").
  2:{ eexists _, _. split; [reflexivity |].
      apply turn_safe_only_logged. logged_chain. }
  destruct (check_daily_risk_limit (risk_manager self)) eqn:Hgate; cbn [negb].
  2:{ mrun. eexists _, _. split; [reflexivity |].
      cbv beta iota.
      match goal with
      | |- turn_safe _ _ (with_status _ ?st1) _ =>
          apply (turn_safe_after _ _ st1); [logged_chain |]
      end.
      split; [intros H; exact H |]. split; [reflexivity |].
      right. repeat split; try reflexivity. exact Hgate. }
  mrun. destruct (getitem data "close") as [close | e];
    [| eexists _, _; split; [reflexivity |]; logged_chain].
  mrun. destruct (series_iloc_last close) as [[entry |] | e];
    [| eexists _, _; split; [reflexivity |]; apply turn_safe_only_logged; logged_chain
     | eexists _, _; split; [reflexivity |]; logged_chain].
  mrun. destruct (calculate_position_size _ _ _ _) as [size | e];
    [| eexists _, _; split; [reflexivity |]; logged_chain].
  mrun. destruct (Qgtb size 0).
  2:{ eexists _, _. split; [reflexivity |].
      apply turn_safe_only_logged. logged_chain. }
  mrun. eexists _, _. split; [reflexivity |].
  cbv beta iota.
  match goal with
  | |- turn_safe _ _ (with_position _ ?st1) _ =>
      apply (turn_safe_after _ _ st1); [logged_chain |]
  end.
  split; [intros H; exact H |]. split; [reflexivity |].
  left. split; [reflexivity |]. split; [reflexivity |].
  right. eexists. reflexivity.
Qed.

Lemma process_symbol_turn (self : TradingAgent.t Broker) (symbol : string)
    (st : session_state) :
  exists st' f,
    process_symbol self symbol st = (st', Ok f) /\
    turn_safe (risk_manager self) st st' f.
Proof.
  unfold TradingAgent.process_symbol. mrun.
  destruct (process_symbol_try_safe self symbol (logged strftime
              ("--- Processing symbol: " +:+ symbol +:+ " ---") st))
    as (st1 & r & Hrun & Hsafe).
  rewrite Hrun. destruct r as [f | e].
  - exists st1, f. split; [reflexivity |].
    eapply turn_safe_after; [apply only_logged_logged | exact Hsafe].
  - mrun. eexists _, _. split; [reflexivity |]. apply turn_safe_only_logged.
    eapply only_logged_trans; [apply only_logged_logged |].
    eapply only_logged_trans; [exact Hsafe | apply only_logged_logged].
Qed.

(** One turn of the trading loop never raises, whatever the broker returns
    or raises and whatever the frame holds.  It leaves the log within its
    bound of 100 lines and the balance shown untouched, and either goes on
    to the next symbol with the status unchanged and at most one position
    added, or breaks out of the loop with the status set to Stopped, no
    position added and [check_daily_risk_limit] False. *)
Theorem process_symbol_safe (self : TradingAgent.t Broker) (symbol : string)
    (st : session_state) :
  exists st' f,
    process_symbol self symbol st = (st', Ok f) /\
    ((length (logs st) <= 100)%nat -> (length (logs st') <= 100)%nat) /\
    TradingAgent.account_balance st' = TradingAgent.account_balance st /\
    ((f = Next /\ agent_status st' = agent_status st /\
      (positions st' = positions st \/ exists p, positions st' = positions st ++ [p]))
     \/ (f = Break /\ agent_status st' = "Stopped" /\ positions st' = positions st /\
         check_daily_risk_limit (risk_manager self) = false)).
Proof. exact (process_symbol_turn self symbol st). Qed.

(** A pass of the loop over a list of symbols never raises.  It keeps the
    log within its bound, adds at most one position per symbol, and
    changes the status only to Stopped, and only when the daily gate of the
    manager is closed; with the gate open the status is left as it was. *)
Theorem process_symbols_safe (self : TradingAgent.t Broker) (symbols : list string)
    (st : session_state) :
  exists st',
    process_symbols self symbols st = (st', Ok tt) /\
    ((length (logs st) <= 100)%nat -> (length (logs st') <= 100)%nat) /\
    (exists new, positions st' = positions st ++ new /\
                 (length new <= length symbols)%nat) /\
    (agent_status st' = agent_status st \/
     (agent_status st' = "Stopped" /\
      check_daily_risk_limit (risk_manager self) = false)) /\
    (check_daily_risk_limit (risk_manager self) = true ->
     agent_status st' = agent_status st).
Proof.
  assert (Hmain : forall (symbols : list string) (st : session_state),
    exists st',
      process_symbols self symbols st = (st', Ok tt) /\
      ((length (logs st) <= 100)%nat -> (length (logs st') <= 100)%nat) /\
      (exists new, positions st' = positions st ++ new /\
                   (length new <= length symbols)%nat) /\
      (agent_status st' = agent_status st \/
       (agent_status st' = "Stopped" /\
        check_daily_risk_limit (risk_manager self) = false))).
  { clear symbols st. intros symbols. induction symbols as [| symbol rest IH]; intros st.
    - exists st. split; [reflexivity |]. split; [auto |].
      split; [exists []; split; [rewrite app_nil_r; reflexivity | cbn; lia] |].
      left. reflexivity.
    - destruct (process_symbol_turn self symbol st) as (st1 & f & Hrun & Hlog & _ & Hf).
      cbn [TradingAgent.process_symbols]. unfold mbind at 1. rewrite Hrun.
      destruct Hf as [(-> & Hstat & Hpos) | (-> & Hstat & Hpos & Hgate)].
      + destruct (IH st1) as (st2 & Hrun2 & Hlog2 & (new & Hnew & Hlen) & Hstat2).
        exists st2. split; [exact Hrun2 |]. split; [auto |]. split.
        * destruct Hpos as [Hpos | [p Hpos]]; rewrite Hpos in Hnew.
          -- exists new. split; [exact Hnew | cbn; lia].
          -- exists (p :: new). split; [rewrite Hnew, <- app_assoc; reflexivity | cbn; lia].
        * rewrite <- Hstat. exact Hstat2.
      + exists st1. split; [reflexivity |]. split; [exact Hlog |].
        split; [exists []; split; [rewrite app_nil_r; exact Hpos | cbn; lia] |].
        right. split; assumption. }
  destruct (Hmain symbols st) as (st' & Hrun & Hlog & Hnew & Hstat).
  exists st'. repeat (split; [assumption |]).
  intros Hgate. destruct Hstat as [H | [_ H]]; [exact H | congruence].
Qed.

Lemma position_size_default (rm : RiskManager.t) (entry stop : Q) :
  0 < entry -> 0 < stop -> ~ entry == stop ->
  exists q,
    calculate_position_size rm entry stop default_asset_multiplier = Ok q /\
    q * Qabs (entry - stop) == RiskManager.account_balance rm * risk_per_trade_percentage rm.
Proof.
  intros He Hs Hne. pose proof (Qabs_diff_pos entry stop Hne) as Hpos.
  unfold calculate_position_size, default_asset_multiplier, py_div.
  destruct (Qleb stop 0) eqn:E1; q_reflect; [lra |].
  destruct (Qleb entry 0) eqn:E2; q_reflect; [lra |]. cbn [orb].
  destruct (Qeq_bool (Qabs (entry - stop)) 0) eqn:E3; q_reflect; [lra |].
  destruct (Qeq_bool (Qabs (entry - stop) * 1) 0) eqn:E4; q_reflect; [lra |].
  eexists. split; [reflexivity |]. field. exact E3.
Qed.

(** A directional signal with the daily gate open opens a position: when
    the broker returns a frame with rows, [generate_signal] answers BUY or
    SELL, the last close is a positive number, and the manager has its gate
    open and a positive balance and risk percentage, the turn goes on to
    the next symbol with exactly one position added and the status
    unchanged.  The position carries the symbol and the signal as its side,
    the last close as entry and current price, a stop 2% below the entry
    for BUY and 2% above for SELL, the take profit [determine_take_profit]
    gives for them, and as quantity the positive size
    [calculate_position_size] gives for them. *)
Theorem process_symbol_opens_position (self : TradingAgent.t Broker) (symbol : string)
    (st : session_state) (data : DataFrame) (signal : string) (close : Series)
    (entry : Q) :
  (forall end_date,
     fetch_historical_data (broker_integration self) symbol end_date = Ok data) ->
  empty data = false ->
  generate_signal (strategy self) data = Ok signal ->
  signal = "BUY" \/ signal = "SELL" ->
  getitem data "close" = Ok close -> last close = Some (Num entry) -> 0 < entry ->
  check_daily_risk_limit (risk_manager self) = true ->
  0 < RiskManager.account_balance (risk_manager self) ->
  0 < risk_per_trade_percentage (risk_manager self) ->
  exists st' p,
    process_symbol self symbol st = (st', Ok Next) /\
    positions st' = positions st ++ [p] /\
    agent_status st' = agent_status st /\
    Symbol p = symbol /\ Side p = signal /\
    Entry_Price p = entry /\ Current_Price p = entry /\ Unrealized_PL p = 0 /\
    (signal = "BUY" -> Stop_Loss p = entry * 0.98) /\
    (signal = "SELL" -> Stop_Loss p = entry * 1.02) /\
    Take_Profit p =
      determine_take_profit (risk_manager self) entry (Stop_Loss p)
        (risk_reward_ratio (config self)) /\
    calculate_position_size (risk_manager self) entry (Stop_Loss p)
      default_asset_multiplier = Ok (Quantity p) /\
    0 < Quantity p.
Proof.
  intros Hfetch Hempty Hsignal Hdir Hclose Hlast Hentry Hgate Hbal Hrpt.
  set (stop := if String.eqb signal "BUY" then entry * 0.98 else entry * 1.02).
  assert (Hstop : 0 < stop /\ ~ entry == stop).
  { unfold stop. destruct (String.eqb signal "BUY"); split; lra. }
  destruct Hstop as [Hstop Hne].
  destruct (position_size_default (risk_manager self) entry stop Hentry Hstop Hne)
    as (q & Hsize & Hrisk).
  assert (Hq : 0 < q).
  { pose proof (Qabs_diff_pos entry stop Hne) as Hpos.
    assert (0 < RiskManager.account_balance (risk_manager self)
                * risk_per_trade_percentage (risk_manager self)) by nra.
    destruct (Qlt_le_dec 0 q) as [? | Hle]; [assumption | exfalso; nra]. }
  unfold TradingAgent.process_symbol, TradingAgent.process_symbol_try. mrun.
  rewrite Hfetch. mrun. rewrite Hempty. mrun. rewrite Hsignal. mrun.
  replace (String.eqb signal "BUY" || String.eqb signal "SELL") with true
    by (destruct Hdir as [-> | ->]; reflexivity).
  rewrite Hgate. cbn [negb]. mrun. rewrite Hclose. mrun.
  unfold series_iloc_last. rewrite Hlast. mrun.
  fold stop. rewrite Hsize. mrun.
  replace (Qgtb q 0) with true by (symmetry; apply Qltb_true; exact Hq).
  mrun. eexists _, _. split; [reflexivity |].
  cbn [Symbol Side Entry_Price Current_Price Unrealized_PL Stop_Loss Take_Profit Quantity].
  split; [reflexivity |]. split; [reflexivity |].
  repeat (split; [reflexivity |]).
  split; [intros ->; reflexivity |].
  split; [intros ->; reflexivity |].
  split; [reflexivity |]. split; [exact Hsize | exact Hq].
Qed.

(** No trade without a directional signal or with the gate closed: when
    the broker returns a frame with rows and [generate_signal] answers
    neither BUY nor SELL, the turn goes on to the next symbol with
    positions and status unchanged; when it answers BUY or SELL and
    [check_daily_risk_limit] is False, the turn breaks out of the loop with
    the status set to Stopped and no position added.  A broker that raises
    or returns an empty frame also leaves positions and status unchanged. *)
Theorem process_symbol_no_trade (self : TradingAgent.t Broker) (symbol : string)
    (st : session_state) :
  (forall data signal,
     (forall end_date,
        fetch_historical_data (broker_integration self) symbol end_date = Ok data) ->
     empty data = false ->
     generate_signal (strategy self) data = Ok signal ->
     (signal <> "BUY" -> signal <> "SELL" ->
      exists st', process_symbol self symbol st = (st', Ok Next) /\
                  positions st' = positions st /\ agent_status st' = agent_status st)
     /\ (signal = "BUY" \/ signal = "SELL" ->
         check_daily_risk_limit (risk_manager self) = false ->
         exists st', process_symbol self symbol st = (st', Ok Break) /\
                     positions st' = positions st /\ agent_status st' = "Stopped"))
  /\ (forall outcome,
        (forall end_date,
           fetch_historical_data (broker_integration self) symbol end_date = outcome) ->
        (exists e, outcome = Raise e) \/ (exists data, outcome = Ok data /\ empty data = true) ->
        exists st', process_symbol self symbol st = (st', Ok Next) /\
                    positions st' = positions st /\ agent_status st' = agent_status st).
Proof.
  split.
  - intros data signal Hfetch Hempty Hsignal. split.
    + intros Hb Hs.
      unfold TradingAgent.process_symbol, TradingAgent.process_symbol_try. mrun.
      rewrite Hfetch. mrun. rewrite Hempty. mrun. rewrite Hsignal. mrun.
      replace (String.eqb signal "BUY" || String.eqb signal "SELL") with false.
      * eexists. repeat split; reflexivity.
      * symmetry. apply orb_false_iff. split; apply String.eqb_neq; assumption.
    + intros Hdir Hgate.
      unfold TradingAgent.process_symbol, TradingAgent.process_symbol_try. mrun.
      rewrite Hfetch. mrun. rewrite Hempty. mrun. rewrite Hsignal. mrun.
      replace (String.eqb signal "BUY" || String.eqb signal "SELL") with true
        by (destruct Hdir as [-> | ->]; reflexivity).
      rewrite Hgate. cbn [negb]. mrun. eexists. repeat split; reflexivity.
  - intros outcome Hfetch [[e ->] | (data & -> & Hempty)];
      unfold TradingAgent.process_symbol, TradingAgent.process_symbol_try; mrun;
      rewrite Hfetch; mrun.
    + eexists. repeat split; reflexivity.
    + rewrite Hempty. mrun. eexists. repeat split; reflexivity.
Qed.

(** [TradingAgent.__init__] succeeds exactly when the broker is Alpaca,
    both keys are given and not empty, the risk per trade is a percentage
    in (0, 100] and the initial balance is positive.  The agent then holds
    the default strategy and a manager on that balance, with the risk per
    trade divided by 100 and a daily limit of 5%, whose daily gate is open;
    the balance shown in the session is the initial balance.  In every
    other case it raises a [ValueError]; positions and status are left as
    they were either way. *)
Theorem agent_init_spec (config : Config) (st : session_state) :
  let valid :=
    TradingAgent.broker config = "Alpaca" /\
    falsy (api_key config) = false /\ falsy (api_secret config) = false /\
    (0 < risk_per_trade config /\ risk_per_trade config <= 100) /\
    0 < TradingAgent.initial_balance config in
  (valid ->
   exists st' agent,
     TradingAgent.__init__ strftime Broker AlpacaIntegration config st = (st', Ok agent) /\
     TradingAgent.config agent = config /\
     strategy agent = CombinedStrategy.__init__ /\
     risk_manager agent =
       {| RiskManager.account_balance := TradingAgent.initial_balance config;
          RiskManager.initial_balance := TradingAgent.initial_balance config;
          risk_per_trade_percentage := risk_per_trade config / 100;
          daily_risk_limit_percentage := 0.05;
          daily_loss_incurred := 0 |} /\
     check_daily_risk_limit (risk_manager agent) = true /\
     TradingAgent.account_balance st' = TradingAgent.initial_balance config /\
     positions st' = positions st /\ agent_status st' = agent_status st)
  /\ (~ valid ->
      exists st' msg,
        TradingAgent.__init__ strftime Broker AlpacaIntegration config st
          = (st', Raise (ValueError msg)) /\
        positions st' = positions st /\ agent_status st' = agent_status st).
Proof.
  cbn zeta.
  unfold TradingAgent.__init__, TradingAgent._get_broker_integration.
  destruct (String.eqb_spec (TradingAgent.broker config) "Alpaca") as [Hb | Hb].
  2:{ split; [intros [H _]; contradiction |]. intros _. mrun.
      eexists _, _. repeat split; reflexivity. }
  destruct (falsy (api_key config)) eqn:Hk; cbn [orb].
  { split; [intros (_ & H & _); discriminate |]. intros _. mrun.
    eexists _, _. repeat split; reflexivity. }
  destruct (falsy (api_secret config)) eqn:Hs.
  { split; [intros (_ & _ & H & _); discriminate |]. intros _. mrun.
    eexists _, _. repeat split; reflexivity. }
  mrun. unfold set_account_balance. cbv beta iota.
  cbn [TradingAgent.account_balance]. unfold RiskManager.__init__.
  set (b := TradingAgent.initial_balance config).
  set (r := risk_per_trade config / 100).
  assert (Heq : r == risk_per_trade config * 0.01) by (unfold r; field).
  destruct (Qltb 0 r) eqn:R1; cbn [andb negb].
  2:{ q_reflect. mrun. split; [intros (_ & _ & _ & [? ?] & ?); exfalso; lra |].
      intros _. eexists _, _. repeat split; reflexivity. }
  destruct (Qleb r 1) eqn:R2; cbn [andb negb].
  2:{ q_reflect. mrun. split; [intros (_ & _ & _ & [? ?] & ?); exfalso; lra |].
      intros _. eexists _, _. repeat split; reflexivity. }
  change (Qltb 0 0.05 && Qleb 0.05 1) with true; cbn [negb].
  destruct (Qleb b 0) eqn:B.
  { q_reflect. mrun. split; [intros (_ & _ & _ & [? ?] & ?); exfalso; lra |].
    intros _. eexists _, _. repeat split; reflexivity. }
  q_reflect. mrun. split.
  2:{ intros Hn. exfalso. apply Hn. repeat split; try reflexivity; try assumption; lra. }
  intros _. eexists _, _. split; [reflexivity |].
  repeat (split; [reflexivity |]).
  split; [| repeat split; reflexivity].
  unfold check_daily_risk_limit. cbn.
  destruct (Qgeb 0 (b * 0.05)) eqn:E; [| reflexivity].
  q_reflect. exfalso. lra.
Qed.

End AgentProps.

Lemma add_log_keeps_latest_witness :
  exists st',
    TradingAgent.add_log sample_strftime "Trading loop started." sample_session
      = (st', Ok tt) /\
    TradingAgent.logs st' = ["[t] Trading loop started."].
Proof.
  destruct (add_log_keeps_latest sample_strftime "Trading loop started." sample_session)
    as (st' & Hrun & Hlogs & _); [cbn; lia |].
  exists st'. split; [exact Hrun | exact Hlogs].
Defined.

Lemma process_symbols_safe_witness :
  exists st',
    TradingAgent.process_symbols sample_strftime unit rising_broker sample_render_float
      sample_render_int sample_render_exn (sample_agent rm0) ["AAPL"; "TSLA"] sample_session
      = (st', Ok tt) /\
    TradingAgent.agent_status st' = "Running".
Proof.
  destruct (process_symbols_safe sample_strftime unit rising_broker sample_render_float
              sample_render_int sample_render_exn (sample_agent rm0) ["AAPL"; "TSLA"]
              sample_session) as (st' & Hrun & _ & _ & _ & Hopen).
  exists st'. split; [exact Hrun |]. apply Hopen. reflexivity.
Defined.

Lemma process_symbol_opens_position_witness :
  exists st' p,
    TradingAgent.process_symbol sample_strftime unit rising_broker sample_render_float
      sample_render_int sample_render_exn (sample_agent rm0) "AAPL" sample_session
      = (st', Ok TradingAgent.Next) /\
    TradingAgent.positions st' = [p] /\
    TradingAgent.Side p = "BUY" /\ TradingAgent.Entry_Price p = 159.
Proof.
  destruct (process_symbol_opens_position sample_strftime unit rising_broker
              sample_render_float sample_render_int sample_render_exn (sample_agent rm0)
              "AAPL" sample_session (bars_frame (rising_bars 60)) "BUY"
              (Num <$> (bar_close <$> rising_bars 60)) 159)
    as (st' & p & Hrun & Hpos & _ & _ & Hside & Hentry & _).
  - intros end_date. reflexivity.
  - reflexivity.
  - vm_compute. reflexivity.
  - left. reflexivity.
  - vm_compute. reflexivity.
  - vm_compute. reflexivity.
  - reflexivity.
  - reflexivity.
  - reflexivity.
  - reflexivity.
  - exists st', p. repeat split; assumption.
Defined.

Lemma process_symbol_no_trade_witness :
  (exists st',
     TradingAgent.process_symbol sample_strftime unit failing_broker sample_render_float
       sample_render_int sample_render_exn (sample_agent rm0) "AAPL" sample_session
       = (st', Ok TradingAgent.Next) /\
     TradingAgent.positions st' = [] /\ TradingAgent.agent_status st' = "Running")
  /\ (exists st',
        TradingAgent.process_symbol sample_strftime unit rising_broker sample_render_float
          sample_render_int sample_render_exn (sample_agent (update_daily_loss rm0 500))
          "AAPL" sample_session
          = (st', Ok TradingAgent.Break) /\
        TradingAgent.positions st' = [] /\ TradingAgent.agent_status st' = "Stopped").
Proof.
  split.
  - apply (proj2 (process_symbol_no_trade sample_strftime unit failing_broker
                    sample_render_float sample_render_int sample_render_exn
                    (sample_agent rm0) "AAPL" sample_session)
             (Raise (LibraryError "connection"))).
    + intros end_date. reflexivity.
    + left. eexists. reflexivity.
  - apply (proj2 (proj1 (process_symbol_no_trade sample_strftime unit rising_broker
                           sample_render_float sample_render_int sample_render_exn
                           (sample_agent (update_daily_loss rm0 500)) "AAPL"
                           sample_session)
                    (bars_frame (rising_bars 60)) "BUY"
                    (fun end_date => eq_refl) eq_refl ltac:(vm_compute; reflexivity))).
    + left. reflexivity.
    + reflexivity.
Defined.

Lemma agent_init_spec_witness :
  exists st' agent,
    TradingAgent.__init__ sample_strftime unit (fun _ _ => tt) sample_config sample_session
      = (st', Ok agent) /\
    risk_per_trade_percentage (TradingAgent.risk_manager agent) = 1 / 100 /\
    check_daily_risk_limit (TradingAgent.risk_manager agent) = true.
Proof.
  destruct (proj1 (agent_init_spec sample_strftime unit (fun _ _ => tt) sample_config
                     sample_session))
    as (st' & agent & Hrun & _ & _ & Hrm & Hgate & _).
  - repeat split; try reflexivity; discriminate.
  - exists st', agent. split; [exact Hrun |]. split; [rewrite Hrm; reflexivity | exact Hgate].
Defined.
